(** * Nutrition tooling: glycemic estimation, unit conversion and record import

    A shallow embedding of the scripts [glycemic_index_data.py],
    [update_glycemic_index.py], [add_chipotle_data.py],
    [import_additional_restaurants.py], [import_expanded_restaurants.py],
    [import_openfoodfacts.py], [build_ultimate_nutrients_db.py] and
    [build_comprehensive_nutrients_db.py], with the properties of their
    specification stated and settled against it, and further properties
    of the code itself. *)

From Stdlib Require Import ZArith String Ascii List Bool Lia Permutation.
From Stdlib Require Import Floats.SpecFloat.
From stdpp Require Import base option gmap strings.

Local Open Scope Z_scope.
Local Open Scope list_scope.

(** ** Python strings

    A [str] is modelled as a Rocq [string], one [ascii] per character, read
    as the code points 0..255.  The methods below follow CPython on that
    range. *)
Module PyStr.

(** [c.lower()] for one character: A..Z and the Latin-1 capitals (all of
    192..222 but the multiplication sign 215) move up by 32. *)
Definition lower_char (c : ascii) : ascii :=
  let n := N_of_ascii c in
  if (((65 <=? n) && (n <=? 90)) ||
      ((192 <=? n) && (n <=? 222) && negb (n =? 215)))%N
  then ascii_of_N (n + 32) else c.

(** [s.lower()] *)
Fixpoint lower (s : string) : string :=
  match s with
  | EmptyString => EmptyString
  | String c s' => String (lower_char c) (lower s')
  end.

(** [c.isspace()]: TAB..CR, FS..US, space, NEL and NBSP. *)
Definition isspace (c : ascii) : bool :=
  let n := N_of_ascii c in
  (((9 <=? n) && (n <=? 13)) || ((28 <=? n) && (n <=? 32)) ||
   (n =? 133) || (n =? 160))%N.

Definition is_empty (s : string) : bool :=
  match s with EmptyString => true | _ => false end.

(** [s.split()] with no separator: the maximal runs of non-space
    characters, left to right; [w] is the run being read. *)
Fixpoint split_from (w s : string) : list string :=
  match s with
  | EmptyString => if is_empty w then [] else [w]
  | String c s' =>
      if isspace c
      then (if is_empty w then split_from EmptyString s'
            else w :: split_from EmptyString s')
      else split_from (w +:+ String c EmptyString) s'
  end.

Definition split (s : string) : list string := split_from EmptyString s.

(** [s.lstrip()], [s.rstrip()] and [s.strip()] *)
Fixpoint lstrip (s : string) : string :=
  match s with
  | EmptyString => EmptyString
  | String c s' => if isspace c then lstrip s' else s
  end.

Fixpoint rstrip (s : string) : string :=
  match s with
  | EmptyString => EmptyString
  | String c s' =>
      let r := rstrip s' in
      if is_empty r && isspace c then EmptyString else String c r
  end.

Definition strip (s : string) : string := rstrip (lstrip s).

(** [s.startswith(p)] *)
Fixpoint startswith (p s : string) : bool :=
  match p, s with
  | EmptyString, _ => true
  | String _ _, EmptyString => false
  | String a p', String b s' => if Ascii.eqb a b then startswith p' s' else false
  end.

(** [needle in hay] *)
Fixpoint contains (needle hay : string) : bool :=
  startswith needle hay ||
  match hay with
  | EmptyString => false
  | String _ hay' => contains needle hay'
  end.

(** [sep.join(parts)] *)
Fixpoint join (sep : string) (parts : list string) : string :=
  match parts with
  | [] => EmptyString
  | [p] => p
  | p :: rest => p +:+ sep +:+ join sep rest
  end.

End PyStr.

(** ** glycemic_index_data.py: the reference table

    [GLYCEMIC_INDEX_MAP] is a dict literal.  A dict iterates in insertion
    order, so the table is kept as the list of its items in the order of the
    literal; its keys are pairwise distinct (see [GLYCEMIC_INDEX_MAP_keys]). *)
Definition GLYCEMIC_INDEX_MAP : list (string * Z) := [
  ("apple", 36);
  ("pear", 38);
  ("orange", 43);
  ("grapefruit", 25);
  ("cherries", 22);
  ("plum", 39);
  ("peach", 42);
  ("strawberries", 40);
  ("strawberry", 40);
  ("blackberries", 25);
  ("raspberries", 32);
  ("blueberries", 53);
  ("grapes", 46);
  ("kiwi", 53);
  ("avocado", 15);
  ("mango", 60);
  ("papaya", 59);
  ("pineapple", 59);
  ("cantaloupe", 65);
  ("raisins", 64);
  ("watermelon", 72);
  ("dates", 103);
  ("broccoli", 15);
  ("cauliflower", 15);
  ("spinach", 15);
  ("lettuce", 15);
  ("kale", 15);
  ("cabbage", 10);
  ("mushroom", 15);
  ("tomato", 15);
  ("cucumber", 15);
  ("bell pepper", 15);
  ("pepper", 15);
  ("asparagus", 15);
  ("celery", 15);
  ("zucchini", 15);
  ("eggplant", 15);
  ("green beans", 15);
  ("carrots", 35);
  ("carrot", 35);
  ("sweet potato", 54);
  ("yam", 54);
  ("corn", 60);
  ("beets", 61);
  ("beetroot", 61);
  ("potato", 85);
  ("russet potato", 85);
  ("instant mashed potato", 87);
  ("pumpkin", 75);
  ("quinoa", 53);
  ("steel cut oats", 42);
  ("oatmeal", 55);
  ("oats", 55);
  ("barley", 28);
  ("bulgur", 48);
  ("buckwheat", 54);
  ("brown rice", 68);
  ("basmati rice", 58);
  ("couscous", 65);
  ("wild rice", 57);
  ("white rice", 73);
  ("jasmine rice", 89);
  ("instant rice", 87);
  ("rice cakes", 82);
  ("cornflakes", 81);
  ("corn flakes", 81);
  ("rice krispies", 82);
  ("cheerios", 74);
  ("instant oatmeal", 79);
  ("whole grain bread", 51);
  ("whole wheat bread", 54);
  ("sourdough bread", 54);
  ("rye bread", 51);
  ("pumpernickel", 46);
  ("ezekiel bread", 36);
  ("pita bread", 57);
  ("naan", 62);
  ("croissant", 67);
  ("white bread", 75);
  ("french bread", 95);
  ("baguette", 95);
  ("bagel", 72);
  ("english muffin", 77);
  ("hamburger bun", 75);
  ("hot dog bun", 75);
  ("whole wheat pasta", 42);
  ("pasta", 49);
  ("spaghetti", 49);
  ("fettuccine", 47);
  ("linguine", 49);
  ("ravioli", 39);
  ("tortellini", 50);
  ("soba noodles", 46);
  ("rice noodles", 61);
  ("udon noodles", 62);
  ("instant noodles", 70);
  ("overcooked pasta", 70);
  ("lentils", 32);
  ("chickpeas", 28);
  ("garbanzo beans", 28);
  ("black beans", 30);
  ("kidney beans", 24);
  ("pinto beans", 39);
  ("navy beans", 31);
  ("soybeans", 16);
  ("split peas", 25);
  ("hummus", 6);
  ("milk", 31);
  ("skim milk", 32);
  ("whole milk", 27);
  ("yogurt", 33);
  ("greek yogurt", 11);
  ("plain yogurt", 14);
  ("cottage cheese", 10);
  ("cheese", 0);
  ("cheddar", 0);
  ("mozzarella", 0);
  ("parmesan", 0);
  ("butter", 0);
  ("ice cream", 61);
  ("frozen yogurt", 65);
  ("chicken", 0);
  ("beef", 0);
  ("pork", 0);
  ("fish", 0);
  ("salmon", 0);
  ("tuna", 0);
  ("shrimp", 0);
  ("eggs", 0);
  ("egg", 0);
  ("tofu", 15);
  ("tempeh", 15);
  ("almonds", 15);
  ("almond", 15);
  ("walnuts", 15);
  ("walnut", 15);
  ("cashews", 22);
  ("cashew", 22);
  ("peanuts", 14);
  ("peanut", 14);
  ("pistachios", 15);
  ("pecans", 10);
  ("macadamia", 10);
  ("chia seeds", 1);
  ("flax seeds", 1);
  ("pumpkin seeds", 10);
  ("sunflower seeds", 35);
  ("dark chocolate", 23);
  ("nuts", 15);
  ("popcorn", 55);
  ("milk chocolate", 49);
  ("potato chips", 56);
  ("tortilla chips", 63);
  ("pretzels", 83);
  ("crackers", 74);
  ("rice crackers", 91);
  ("jelly beans", 78);
  ("gummy bears", 78);
  ("donuts", 76);
  ("donut", 76);
  ("cookies", 77);
  ("oreos", 77);
  ("cake", 73);
  ("muffin", 71);
  ("water", 0);
  ("coffee", 0);
  ("tea", 0);
  ("diet soda", 0);
  ("almond milk", 25);
  ("soy milk", 34);
  ("orange juice", 50);
  ("apple juice", 41);
  ("cranberry juice", 68);
  ("soda", 70);
  ("cola", 70);
  ("coca-cola", 70);
  ("pepsi", 70);
  ("sprite", 70);
  ("gatorade", 78);
  ("energy drink", 70);
  ("french fries", 75);
  ("fries", 75);
  ("pizza", 60);
  ("hamburger", 66);
  ("cheeseburger", 66);
  ("burrito", 55);
  ("taco", 52);
  ("fried chicken", 70);
  ("pancakes", 67);
  ("waffles", 76);
  ("french toast", 75);
  ("granola", 61);
  ("muesli", 56);
  ("ketchup", 55);
  ("bbq sauce", 70);
  ("honey", 61);
  ("maple syrup", 54);
  ("jam", 65);
  ("peanut butter", 14);
  ("nutella", 55)
]%string.

(** [key in d] and [d[key]] on a dict kept as its item list. *)
Fixpoint dict_get {V : Type} (d : list (string * V)) (key : string) : option V :=
  match d with
  | [] => None
  | (k, v) :: d' => if String.eqb key k then Some v else dict_get d' key
  end.

(** ** update_glycemic_index.py: find_gi_for_food *)
Section Estimator.

(** The table the function reads; the script binds it to
    [GLYCEMIC_INDEX_MAP]. *)
Variable table : list (string * Z).

(** [for word in words: if word in MAP: return MAP[word]] *)
Fixpoint word_match (words : list string) : option Z :=
  match words with
  | [] => None
  | word :: rest =>
      match dict_get table word with
      | Some gi => Some gi
      | None => word_match rest
      end
  end.

(** [for gi_food, gi_value in MAP.items(): if gi_food in food_lower: return gi_value] *)
Fixpoint partial_match (items : list (string * Z)) (food_lower : string) : option Z :=
  match items with
  | [] => None
  | (gi_food, gi_value) :: rest =>
      if PyStr.contains gi_food food_lower then Some gi_value
      else partial_match rest food_lower
  end.

End Estimator.

(** [any(term in food_lower for term in terms)] *)
Definition any_in (terms : list string) (food_lower : string) : bool :=
  existsb (fun term => PyStr.contains term food_lower) terms.

(** The [if]/[elif] chain of "special cases for restaurant foods", branch
    for branch; reaching the end of the chain falls through to
    [return None]. *)
Definition special_cases (food_lower : string) : option Z :=
  let has t := PyStr.contains t food_lower in
  if any_in ["burger"; "cheeseburger"; "hamburger"]%string food_lower then Some 66
  else if has "pizza"%string then Some 60
  else if any_in ["fries"; "french fries"]%string food_lower then Some 75
  else if has "salad"%string && negb (has "pasta"%string) then Some 15
  else if has "grilled chicken"%string || has "grilled fish"%string then Some 0
  else if any_in ["donut"; "doughnut"]%string food_lower then Some 76
  else if has "pancake"%string then Some 67
  else if has "waffle"%string then Some 76
  else if has "taco"%string then Some 52
  else if has "burrito"%string then Some 55
  else if has "sandwich"%string then
    (if has "whole wheat"%string || has "whole grain"%string then Some 54
     else Some 70)
  else if has "wrap"%string then Some 57
  else if has "rice"%string then
    (if has "brown"%string then Some 68
     else if has "fried"%string then Some 75
     else Some 73)
  else if has "pasta"%string || has "spaghetti"%string || has "fettuccine"%string then Some 49
  else if has "noodle"%string then
    (if has "rice"%string then Some 61 else Some 55)
  else if has "bread"%string then
    (if any_in ["whole wheat"; "whole grain"; "rye"]%string food_lower then Some 51
     else Some 75)
  else if has "coffee"%string && negb (has "frapp"%string) then Some 0
  else if has "tea"%string && negb (has "sweet"%string) then Some 0
  else if any_in ["soda"; "cola"; "pepsi"; "sprite"]%string food_lower then Some 70
  else if has "juice"%string then Some 50
  else if has "smoothie"%string then Some 55
  else if has "shake"%string then Some 61
  else if has "ice cream"%string then Some 61
  else if has "cookie"%string then Some 77
  else if has "cake"%string then Some 73
  else if has "muffin"%string then Some 71
  else if has "bagel"%string then Some 72
  else if has "croissant"%string then Some 67
  else if has "chips"%string then
    (if has "potato"%string then Some 56
     else if has "tortilla"%string then Some 63
     else Some 60)
  else if has "wings"%string || has "chicken tender"%string then
    (if has "fried"%string || has "buffalo"%string then Some 70
     else Some 0)
  else if has "soup"%string then
    (if has "lentil"%string || has "bean"%string then Some 30
     else Some 40)
  else if has "pho"%string then Some 40
  else if has "banh mi"%string then Some 75
  else None.

(** [find_gi_for_food], reading the table [table].  The argument is [None]
    for Python's [None]; [not food_name] also holds for the empty string. *)
Definition find_gi_in (table : list (string * Z)) (food_name : option string) : option Z :=
  match food_name with
  | None => None
  | Some name =>
      if PyStr.is_empty name then None
      else
        let food_lower := PyStr.lower name in
        match dict_get table food_lower with
        | Some gi => Some gi
        | None =>
            match word_match table (PyStr.split food_lower) with
            | Some gi => Some gi
            | None =>
                match partial_match table food_lower with
                | Some gi => Some gi
                | None => special_cases food_lower
                end
            end
        end
  end.

Definition find_gi_for_food : option string -> option Z :=
  find_gi_in GLYCEMIC_INDEX_MAP.

(** ** The estimator as the specification words it

    An ordered cascade of stages over the lowercase name, the first stage
    that yields a value wins; the last stage is an ordered list of
    (predicate, value) rules, the first rule whose predicate holds wins. *)
Module GISpec.

Definition stage := string -> option Z.

Fixpoint first_stage (stages : list stage) (food_lower : string) : option Z :=
  match stages with
  | [] => None
  | st :: rest =>
      match st food_lower with
      | Some gi => Some gi
      | None => first_stage rest food_lower
      end
  end.

Definition first_rule {A : Type} (rules : list ((A -> bool) * Z)) (a : A) : option Z :=
  snd <$> List.find (fun r => fst r a) rules.

(** stage 1: the whole lowercase name is a key *)
Definition exact_match (table : list (string * Z)) : stage :=
  fun food_lower => dict_get table food_lower.

(** stage 2: the first whitespace-separated token, left to right, that is
    a key *)
Definition tokenized_match (table : list (string * Z)) : stage :=
  fun food_lower =>
    match List.find (fun w => bool_decide (is_Some (dict_get table w)))
                    (PyStr.split food_lower) with
    | Some w => dict_get table w
    | None => None
    end.

(** stage 3: the first key, in table order, that occurs in the name *)
Definition substring_match (table : list (string * Z)) : stage :=
  fun food_lower =>
    first_rule (map (fun kv => (PyStr.contains (fst kv), snd kv)) table) food_lower.

Definition has (t : string) : string -> bool := PyStr.contains t.
Definition has_any (ts : list string) : string -> bool :=
  fun s => existsb (fun t => PyStr.contains t s) ts.
Definition both (p q : string -> bool) : string -> bool := fun s => p s && q s.
Definition either (p q : string -> bool) : string -> bool := fun s => p s || q s.
Definition lacks (t : string) : string -> bool := fun s => negb (PyStr.contains t s).

(** stage 4: the category fallback rules, top to bottom *)
Definition FALLBACK_RULES : list ((string -> bool) * Z) := [
  (has_any ["burger"; "cheeseburger"; "hamburger"], 66);
  (has "pizza", 60);
  (has_any ["fries"; "french fries"], 75);
  (both (has "salad") (lacks "pasta"), 15);
  (either (has "grilled chicken") (has "grilled fish"), 0);
  (has_any ["donut"; "doughnut"], 76);
  (has "pancake", 67);
  (has "waffle", 76);
  (has "taco", 52);
  (has "burrito", 55);
  (both (has "sandwich") (either (has "whole wheat") (has "whole grain")), 54);
  (has "sandwich", 70);
  (has "wrap", 57);
  (both (has "rice") (has "brown"), 68);
  (both (has "rice") (has "fried"), 75);
  (has "rice", 73);
  (either (either (has "pasta") (has "spaghetti")) (has "fettuccine"), 49);
  (both (has "noodle") (has "rice"), 61);
  (has "noodle", 55);
  (both (has "bread") (has_any ["whole wheat"; "whole grain"; "rye"]), 51);
  (has "bread", 75);
  (both (has "coffee") (lacks "frapp"), 0);
  (both (has "tea") (lacks "sweet"), 0);
  (has_any ["soda"; "cola"; "pepsi"; "sprite"], 70);
  (has "juice", 50);
  (has "smoothie", 55);
  (has "shake", 61);
  (has "ice cream", 61);
  (has "cookie", 77);
  (has "cake", 73);
  (has "muffin", 71);
  (has "bagel", 72);
  (has "croissant", 67);
  (both (has "chips") (has "potato"), 56);
  (both (has "chips") (has "tortilla"), 63);
  (has "chips", 60);
  (both (either (has "wings") (has "chicken tender"))
        (either (has "fried") (has "buffalo")), 70);
  (either (has "wings") (has "chicken tender"), 0);
  (both (has "soup") (either (has "lentil") (has "bean")), 30);
  (has "soup", 40);
  (has "pho", 40);
  (has "banh mi", 75)
]%string.

Definition category_fallback : stage := first_rule FALLBACK_RULES.

Definition estimate_gi_in (table : list (string * Z)) (name : string) : option Z :=
  first_stage [exact_match table; tokenized_match table;
               substring_match table; category_fallback]
              (PyStr.lower name).

Definition estimate_gi : string -> option Z := estimate_gi_in GLYCEMIC_INDEX_MAP.

End GISpec.


(** ** Python results and numbers

    A call either returns a value or raises; the exceptions are the ones the
    scripts can meet. *)
Inductive exn : Type :=
| KeyError | AttributeError | TypeError | OverflowError | ZeroDivisionError
| IntegrityError | OperationalError | InterfaceError | ProgrammingError.

Inductive outcome (A : Type) : Type :=
| Return (a : A)
| Raise (e : exn).
Arguments Return {A} a.
Arguments Raise {A} e.

#[global] Instance outcome_ret : MRet outcome := fun A a => Return a.

#[global] Instance outcome_bind : MBind outcome := fun A B k x =>
  match x with
  | Return a => k a
  | Raise e => Raise e
  end.

(** [int] is unbounded, [float] is an IEEE 754 binary64 value; the
    arithmetic on floats is the standard library's executable specification
    of it, at precision 53 and maximal exponent 1024. *)
Module PyNum.

Definition prec : Z := 53.
Definition emax : Z := 1024.

Inductive number : Type :=
| PyInt (z : Z)
| PyFloat (f : spec_float).

(** The double nearest to the fraction [a / b] (ties to even): what a
    decimal literal denotes, and the core of [int / int]. *)
Definition nearest_ratio (negative : bool) (a b : positive) : spec_float :=
  SFdiv prec emax (S754_finite negative a 0) (S754_finite false b 0).

Definition float_lit (num : Z) (den : positive) : spec_float :=
  match num with
  | Z0 => S754_zero false
  | Zpos a => nearest_ratio false a den
  | Zneg a => nearest_ratio true a den
  end.

(** [float(z)] for an int: correctly rounded, [OverflowError] beyond the
    range of a double. *)
Definition int_to_float (z : Z) : outcome spec_float :=
  match binary_normalize prec emax z 0 false with
  | S754_infinity _ => Raise OverflowError
  | f => Return f
  end.

Definition to_float (x : number) : outcome spec_float :=
  match x with
  | PyInt z => int_to_float z
  | PyFloat f => Return f
  end.

Definition is_zero (f : spec_float) : bool :=
  match f with S754_zero _ => true | _ => false end.

(** [x * y] *)
Definition mul (x y : number) : outcome number :=
  match x, y with
  | PyInt a, PyInt b => Return (PyInt (a * b))
  | _, _ =>
      (fx ← to_float x; fy ← to_float y;
       Return (PyFloat (SFmul prec emax fx fy)))
  end.

(** [x / y], true division: always a float.  For two ints the exact
    quotient is rounded once; a zero numerator takes the sign of the
    divisor. *)
Definition truediv (x y : number) : outcome spec_float :=
  match x, y with
  | PyInt a, PyInt b =>
      match b with
      | Z0 => Raise ZeroDivisionError
      | Zpos q | Zneg q =>
          let r :=
            match a with
            | Z0 => S754_zero (b <? 0)
            | Zpos p | Zneg p => nearest_ratio (xorb (a <? 0) (b <? 0)) p q
            end in
          match r with
          | S754_infinity _ => Raise OverflowError
          | _ => Return r
          end
      end
  | _, _ =>
      (fx ← to_float x; fy ← to_float y;
       if is_zero fy then Raise ZeroDivisionError
       else Return (SFdiv prec emax fx fy))
  end.

(** [x == 0] *)
Definition eq_zero (x : number) : bool :=
  match x with
  | PyInt z => z =? 0
  | PyFloat f => is_zero f
  end.

(** The integer nearest to [m * 2^e * 10^k], ties to even ([k >= 0]). *)
Definition scaled_nearest_even (m : positive) (e : Z) (k : Z) : Z :=
  let n := Zpos m * 10 ^ k in
  match e with
  | Zneg p =>
      let d := 2 ^ Zpos p in
      let q := n / d in
      let r := n mod d in
      match 2 * r ?= d with
      | Lt => q
      | Gt => q + 1
      | Eq => if Z.even q then q else q + 1
      end
  | _ => n * 2 ^ e
  end.

(** [round(x, ndigits)] for a float and [0 <= ndigits <= 323]: the exact
    binary value is rounded to [ndigits] decimals, ties to even, and the
    decimal result is read back as the nearest double.  Infinities and NaN
    round to themselves, zeros keep their sign. *)
Definition round (x : spec_float) (ndigits : Z) : spec_float :=
  match x with
  | S754_finite s m e =>
      match scaled_nearest_even m e ndigits with
      | Zpos n => nearest_ratio s n (Z.to_pos (10 ^ ndigits))
      | _ => S754_zero s
      end
  | _ => x
  end.

End PyNum.


(** ** glycemic_index_data.py: calculate_glycemic_load

    An argument is [None] or a number. *)
Definition calculate_glycemic_load (glycemic_index carbs_per_serving : option PyNum.number)
  : outcome (option spec_float) :=
  match glycemic_index, carbs_per_serving with
  | Some gi, Some carbs =>
      (product ← PyNum.mul gi carbs;
       quotient ← PyNum.truediv product (PyNum.PyInt 100);
       Return (Some (PyNum.round quotient 1)))
  | _, _ => Return None
  end.

(** ** add_chipotle_data.py: the unit-conversion helpers *)

(** The dict [conversions] of [convert_portion_to_grams]; [50] and [60] are
    ints, the other weights float literals. *)
Definition conversions : list (string * PyNum.number) := [
  ("1 ea", PyNum.PyInt 50);
  ("1 oz", PyNum.PyFloat (PyNum.float_lit 2835 100));
  ("2 oz", PyNum.PyFloat (PyNum.float_lit 567 10));
  ("3 oz", PyNum.PyFloat (PyNum.float_lit 8505 100));
  ("4 oz", PyNum.PyFloat (PyNum.float_lit 1134 10));
  ("6 oz", PyNum.PyFloat (PyNum.float_lit 1701 10));
  ("8 oz", PyNum.PyFloat (PyNum.float_lit 2268 10));
  ("2 fl oz", PyNum.PyInt 60)
]%string.

(** The float [100.0]. *)
Definition hundred : spec_float := PyNum.float_lit 100 1.

(** [conversions.get(portion_str.lower().strip(), 100.0)] *)
Definition convert_portion_to_grams (portion_str : string) : PyNum.number :=
  let portion_str := PyStr.strip (PyStr.lower portion_str) in
  match dict_get conversions portion_str with
  | Some grams => grams
  | None => PyNum.PyFloat hundred
  end.

(** [0] when the serving size compares equal to zero, else
    [(value * 100.0) / serving_size_grams]. *)
Definition convert_to_per_100g (value serving_size_grams : PyNum.number)
  : outcome PyNum.number :=
  if PyNum.eq_zero serving_size_grams then Return (PyNum.PyInt 0)
  else
    scaled ← PyNum.mul value (PyNum.PyFloat hundred);
    quotient ← PyNum.truediv scaled serving_size_grams;
    Return (PyNum.PyFloat quotient).

(** ** The record store

    The SQLite table the importers write, as far as their statements go.
    A row maps a column to the value stored there; a column that is NULL is
    absent from the map.  Column affinity is not modelled: a value is stored
    as it was bound. *)
Module Sqlite.

Inductive value : Type :=
| Integer (z : Z)
| Real (f : spec_float)
| Text (s : string).

Record schema : Type := Schema {
  columns : list string;
  not_null : list string;
  (** [DEFAULT <constant>] *)
  defaults : list (string * value);
  (** [DEFAULT CURRENT_TIMESTAMP] *)
  stamped : list string;
  (** [UNIQUE(...)] constraints besides the primary key [id] *)
  uniques : list (list string)
}.

(** The rows in rowid order and the largest rowid handed out so far (the
    counter AUTOINCREMENT keeps). *)
Record table : Type := Table {
  rows : list (gmap string value);
  last_rowid : Z
}.

Definition empty_table : table := Table [] 0.

(** A float that is exactly the integer [z]. *)
Definition real_is_int (f : spec_float) (z : Z) : bool :=
  match f with
  | S754_zero _ => z =? 0
  | S754_finite s m e =>
      let v := if s then Z.neg m else Z.pos m in
      match e with
      | Zneg p => v =? z * 2 ^ Z.pos p
      | _ => v * 2 ^ e =? z
      end
  | _ => false
  end.

(** [a = b] on two values that are not NULL: numbers compare by value,
    text byte by byte, a number never equals a text. *)
Definition value_eqb (a b : value) : bool :=
  match a, b with
  | Integer x, Integer y => x =? y
  | Real x, Real y => SFeqb x y
  | Integer x, Real y | Real y, Integer x => real_is_int y x
  | Text x, Text y => String.eqb x y
  | _, _ => false
  end.

(** [column = ?]: NULL on either side is not a match. *)
Definition sql_eq (stored param : option value) : bool :=
  match stored, param with
  | Some a, Some b => value_eqb a b
  | _, _ => false
  end.

Definition rowid_of (r : gmap string value) : option Z :=
  match r !! "id" with
  | Some (Integer n) => Some n
  | _ => None
  end.

Definition next_rowid (t : table) : Z :=
  1 + fold_right Z.max (last_rowid t) (omap rowid_of (rows t)).

(** Two rows agree on a UNIQUE key: every column of the key is non-NULL in
    both and equal.  NULLs are distinct from each other. *)
Definition same_key (a b : gmap string value) (key : list string) : bool :=
  forallb (fun c => sql_eq (a !! c) (b !! c)) key.

Definition conflicts (sch : schema) (new old : gmap string value) : bool :=
  match rowid_of new, rowid_of old with
  | Some n, Some o => n =? o
  | _, _ => false
  end || existsb (same_key new old) (uniques sch).

Definition default_row (sch : schema) (clock : string) : gmap string value :=
  list_to_map (defaults sch ++ map (fun c => (c, Text clock)) (stamped sch)).

(** The value a statement leaves in a column: the one it assigns (NULL
    included), else what was there. *)
Definition assign (cols : gmap string (option value)) (old : gmap string value)
  : gmap string value :=
  merge (fun a o => match a with Some v => v | None => o end) cols old.

Definition known_columns {A : Type} (sch : schema) (cols : gmap string A) : bool :=
  bool_decide (map_Forall (fun c _ => c ∈ columns sch) cols).

Definition satisfies_not_null (sch : schema) (r : gmap string value) : bool :=
  forallb (fun c => bool_decide (is_Some (r !! c))) (not_null sch).

(** [INSERT INTO t (cols) VALUES (...)] and, with [or_replace],
    [INSERT OR REPLACE].  [cols] holds the listed columns with the bound
    parameters, [None] for NULL; [clock] is the database's
    CURRENT_TIMESTAMP.  An unlisted column takes its default, the rowid is
    the next one unless [id] is listed.  REPLACE deletes the rows the new
    one conflicts with on the primary key or a UNIQUE constraint; without
    it such a conflict fails the statement.  An [id] that is not an integer
    is a datatype mismatch (SQLite would first try to read a numeric text or
    an integral float as an integer; no record here carries one).  A failed
    statement leaves the table as it was. *)
Definition insert (or_replace : bool) (sch : schema) (clock : string)
    (cols : gmap string (option value)) (t : table) : outcome table :=
  if negb (known_columns sch cols) then Raise OperationalError
  else
    let given := assign cols (default_row sch clock) in
    match given !! "id" with
    | Some (Real _) | Some (Text _) => Raise IntegrityError
    | listed =>
        let id := match listed with Some (Integer n) => n | _ => next_rowid t end in
        let new := <["id" := Integer id]> given in
        if negb (satisfies_not_null sch new) then Raise IntegrityError
        else if negb or_replace && existsb (conflicts sch new) (rows t)
        then Raise IntegrityError
        else Return (Table (List.filter (fun old => negb (conflicts sch new old)) (rows t)
                              ++ [new])
                           (Z.max (last_rowid t) id))
    end.

(** [UPDATE t SET cols WHERE matches]; the statements here assign neither
    [id] nor a column under a UNIQUE constraint.  A row the statement would
    leave with NULL in a NOT NULL column fails it. *)
Definition update (sch : schema) (matches : gmap string value -> bool)
    (cols : gmap string (option value)) (t : table) : outcome table :=
  if negb (known_columns sch cols) then Raise OperationalError
  else if existsb (fun r => matches r && negb (satisfies_not_null sch (assign cols r)))
                  (rows t)
  then Raise IntegrityError
  else Return (Table (map (fun r => if matches r then assign cols r else r) (rows t))
                     (last_rowid t)).

(** [SELECT ... WHERE matches] followed by [fetchone()]: the first match. *)
Definition select_one (matches : gmap string value -> bool) (t : table)
  : option (gmap string value) :=
  List.find matches (rows t).

(** The identity of a row of [foods]: (name, brand, restaurant, source). *)
Definition identity (r : gmap string value) : list (option value) :=
  [r !! "name"; r !! "brand_name"; r !! "restaurant_name"; r !! "data_source"]%string.

End Sqlite.

(** ** build_ultimate_nutrients_db.py: the table [foods] of [SCHEMA]

    [id INTEGER PRIMARY KEY AUTOINCREMENT], [name TEXT NOT NULL], three
    constant defaults, two timestamps, and no UNIQUE constraint. *)
Definition FOODS : Sqlite.schema := {|
  Sqlite.columns := [
  "id"; "name"; "brand_name"; "restaurant_name"; "serving_size";
  "serving_size_grams"; "calories"; "calories_from_fat"; "total_fat_g";
  "saturated_fat_g"; "trans_fat_g"; "polyunsaturated_fat_g";
  "monounsaturated_fat_g"; "cholesterol_mg"; "sodium_mg";
  "total_carbohydrate_g"; "dietary_fiber_g"; "soluble_fiber_g";
  "insoluble_fiber_g"; "sugars_g"; "added_sugars_g"; "sugar_alcohols_g";
  "protein_g"; "vitamin_a_iu"; "vitamin_a_mcg_rae"; "vitamin_c_mg";
  "vitamin_d_mcg"; "vitamin_d_iu"; "vitamin_e_mg"; "vitamin_k_mcg";
  "thiamin_mg"; "riboflavin_mg"; "niacin_mg"; "vitamin_b6_mg"; "folate_mcg";
  "vitamin_b12_mcg"; "biotin_mcg"; "pantothenic_acid_mg"; "choline_mg";
  "calcium_mg"; "iron_mg"; "magnesium_mg"; "phosphorus_mg"; "potassium_mg";
  "zinc_mg"; "copper_mg"; "manganese_mg"; "selenium_mcg"; "iodine_mcg";
  "chromium_mcg"; "molybdenum_mcg"; "caffeine_mg"; "alcohol_g"; "water_g";
  "omega3_fatty_acids_mg"; "omega6_fatty_acids_mg"; "glycemic_index";
  "glycemic_load"; "data_source"; "fdc_id"; "barcode"; "category";
  "subcategory"; "is_raw"; "is_cooked"; "cooking_method"; "search_terms";
  "popularity_score"; "created_at"; "updated_at" ]%string;
  Sqlite.not_null := ["name"%string];
  Sqlite.defaults := [("is_raw", Sqlite.Integer 0); ("is_cooked", Sqlite.Integer 0);
                      ("popularity_score", Sqlite.Integer 0)]%string;
  Sqlite.stamped := ["created_at"; "updated_at"]%string;
  Sqlite.uniques := []
|}.

(** ** Python values in the records the importers handle *)
#[warnings="-register-all"]
Inductive pyval : Type :=
| PNone
| PNum (n : PyNum.number)
| PStr (s : string)
| PStrs (l : list string)
| PDict (d : gmap string pyval).

(** [bool(v)] *)
Definition truthy (v : pyval) : bool :=
  match v with
  | PNone => false
  | PNum n => negb (PyNum.eq_zero n)
  | PStr s => negb (PyStr.is_empty s)
  | PStrs l => match l with [] => false | _ => true end
  | PDict d => negb (bool_decide (d = ∅))
  end.

Definition is_none (v : pyval) : bool :=
  match v with PNone => true | _ => false end.

(** [d[key]] *)
Definition getitem (d : gmap string pyval) (key : string) : outcome pyval :=
  match d !! key with
  | Some v => Return v
  | None => Raise KeyError
  end.

(** [d.get(key, fallback)] *)
Definition get_or (d : gmap string pyval) (key : string) (fallback : pyval) : pyval :=
  default fallback (d !! key).

(** [v.lower()] and [v.strip()]: only a str has the method. *)
Definition method_lower (v : pyval) : outcome string :=
  match v with
  | PStr s => Return (PyStr.lower s)
  | _ => Raise AttributeError
  end.

Definition method_strip (v : pyval) : outcome string :=
  match v with
  | PStr s => Return (PyStr.strip s)
  | _ => Raise AttributeError
  end.

(** [list(set(xs))]: each element once.  CPython orders a set by hash; the
    order taken here is one of the possible ones. *)
Definition set_elements (xs : list string) : list string := remove_dups xs.

(** What [sqlite3] binds for a parameter: [None] as NULL, an int that fits
    64 bits, a float (NaN as NULL), a str.  Anything else, or a larger int,
    cannot be bound and [execute] raises. *)
Definition bound_value (v : pyval) : option (option Sqlite.value) :=
  match v with
  | PNone => Some None
  | PNum (PyNum.PyInt z) =>
      if (- 2 ^ 63 <=? z) && (z <? 2 ^ 63) then Some (Some (Sqlite.Integer z)) else None
  | PNum (PyNum.PyFloat S754_nan) => Some None
  | PNum (PyNum.PyFloat f) => Some (Some (Sqlite.Real f))
  | PStr s => Some (Some (Sqlite.Text s))
  | PStrs _ | PDict _ => None
  end.

(** The parameter bound for a value, NULL for [None]. *)
Definition bound (v : pyval) : option Sqlite.value := default None (bound_value v).

Definition bind_param (v : pyval) : outcome (option Sqlite.value) :=
  match bound_value v with
  | Some b => Return b
  | None => Raise InterfaceError
  end.

(** The parameters of a statement given by name: all of them bound, or the
    statement not run.  Which exception [execute] raises for a parameter it
    cannot bind depends on the Python version; every caller catches it as
    [Exception]. *)
Definition bind_all (params : gmap string pyval)
  : outcome (gmap string (option Sqlite.value)) :=
  if bool_decide (map_Forall (fun _ v => is_Some (bound_value v)) params)
  then Return (bound <$> params)
  else Raise InterfaceError.

(** ** The importers that build an INSERT OR REPLACE from keyword arguments *)
Section Importers.

(** The schema of the table [foods] in the database the scripts open
    ([FOODS] when it was created by [SCHEMA]) and the database clock. *)
Variable sch : Sqlite.schema.
Variable clock : string.

(** [if kwargs.get(key): search_terms.extend(kwargs[key].lower().split())] *)
Definition terms_of (kwargs : gmap string pyval) (key : string) : outcome (list string) :=
  if truthy (get_or kwargs key PNone)
  then lowered ← method_lower (get_or kwargs key PNone); Return (PyStr.split lowered)
  else Return [].

(** "Prepare the insert statement" to the end of the function, shared word
    for word by the four [insert_food]s: the columns are the keyword
    arguments that are not [None]; with none there is nothing to do;
    whatever [execute] raises is logged and swallowed. *)
Definition insert_columns (kwargs : gmap string pyval) (t : Sqlite.table) : Sqlite.table :=
  let columns := filter (fun kv => is_none kv.2 = false) kwargs in
  if bool_decide (columns = ∅) then t
  else
    match cols ← bind_all columns; Sqlite.insert true sch clock cols t with
    | Return t' => t'
    | Raise _ => t
    end.

(** import_additional_restaurants.py: [insert_food] *)
Definition insert_food (restaurant_name : string) (kwargs : gmap string pyval)
    (t : Sqlite.table) : outcome Sqlite.table :=
  let kwargs := <["restaurant_name" := PStr restaurant_name]> kwargs in
  let kwargs := <["data_source" := PStr "Restaurant Menu Data"]> kwargs in
  name_terms ← terms_of kwargs "name";
  let search_terms := name_terms ++ [PyStr.lower restaurant_name] in
  name_lower ← method_lower (get_or kwargs "name" (PStr ""));
  let search_terms :=
    if existsb (fun term => PyStr.contains term name_lower)
               ["pho"; "banh mi"; "bun"; "com"]%string
    then search_terms ++ ["vietnamese"; "asian"]%string
    else search_terms in
  let kwargs := <["search_terms" := PStr (PyStr.join " " (set_elements search_terms))]> kwargs in
  Return (insert_columns kwargs t).

(** [insert_food(cursor, restaurant, **item)]: an item that has a key
    [cursor] or [restaurant_name] cannot be passed. *)
Definition call_insert_food (restaurant : string) (item : gmap string pyval)
    (t : Sqlite.table) : outcome Sqlite.table :=
  if bool_decide (is_Some (item !! "cursor") \/ is_Some (item !! "restaurant_name"))
  then Raise TypeError
  else insert_food restaurant item t.

(** import_additional_restaurants.py: the loops of [main] *)
Fixpoint import_items (restaurant : string) (items : list (gmap string pyval))
    (t : Sqlite.table) : outcome Sqlite.table :=
  match items with
  | [] => Return t
  | item :: rest =>
      t' ← call_insert_food restaurant item t;
      import_items restaurant rest t'
  end.

Fixpoint import_restaurants (data : list (string * list (gmap string pyval)))
    (t : Sqlite.table) : outcome Sqlite.table :=
  match data with
  | [] => Return t
  | (restaurant, items) :: rest =>
      t' ← import_items restaurant items t;
      import_restaurants rest t'
  end.

(** build_ultimate_nutrients_db.py: [NutrientsDatabaseBuilder._insert_food] *)
Definition ultimate_insert_food (kwargs : gmap string pyval) (t : Sqlite.table)
  : outcome Sqlite.table :=
  name_terms ← terms_of kwargs "name";
  brand_terms ← terms_of kwargs "brand_name";
  restaurant_terms ← terms_of kwargs "restaurant_name";
  let search_terms := name_terms ++ brand_terms ++ restaurant_terms in
  let kwargs := <["search_terms" := PStr (PyStr.join " " (set_elements search_terms))]> kwargs in
  Return (insert_columns kwargs t).

(** import_openfoodfacts.py: [OpenFoodFactsImporter._insert_food] *)
Definition off_insert_food (kwargs : gmap string pyval) (t : Sqlite.table)
  : outcome Sqlite.table :=
  name_terms ← terms_of kwargs "name";
  brand_terms ← terms_of kwargs "brand_name";
  let search_terms := name_terms ++ brand_terms in
  let kwargs := <["search_terms" := PStr (PyStr.join " " (set_elements search_terms))]> kwargs in
  Return (insert_columns kwargs t).

End Importers.

(** ** import_openfoodfacts.py: _import_product *)

(** The nutrition columns and the [nutriments] keys they are read from. *)
Definition OFF_NUTRIMENTS : list (string * string) := [
  ("calories", "energy-kcal_100g");
  ("total_fat_g", "fat_100g");
  ("saturated_fat_g", "saturated-fat_100g");
  ("trans_fat_g", "trans-fat_100g");
  ("cholesterol_mg", "cholesterol_100g");
  ("sodium_mg", "sodium_100g");
  ("total_carbohydrate_g", "carbohydrates_100g");
  ("dietary_fiber_g", "fiber_100g");
  ("sugars_g", "sugars_100g");
  ("protein_g", "proteins_100g");
  ("vitamin_a_mcg_rae", "vitamin-a_100g");
  ("vitamin_c_mg", "vitamin-c_100g");
  ("vitamin_d_mcg", "vitamin-d_100g");
  ("vitamin_e_mg", "vitamin-e_100g");
  ("vitamin_k_mcg", "vitamin-k_100g");
  ("thiamin_mg", "vitamin-b1_100g");
  ("riboflavin_mg", "vitamin-b2_100g");
  ("niacin_mg", "vitamin-pp_100g");
  ("vitamin_b6_mg", "vitamin-b6_100g");
  ("folate_mcg", "vitamin-b9_100g");
  ("vitamin_b12_mcg", "vitamin-b12_100g");
  ("calcium_mg", "calcium_100g");
  ("iron_mg", "iron_100g");
  ("magnesium_mg", "magnesium_100g");
  ("phosphorus_mg", "phosphorus_100g");
  ("potassium_mg", "potassium_100g");
  ("zinc_mg", "zinc_100g");
  ("caffeine_mg", "caffeine_100g");
  ("alcohol_g", "alcohol_100g")
]%string.

(** [value if value else None] *)
Definition or_none (v : pyval) : pyval := if truthy v then v else PNone.

(** [d.get(key)] on a value that has to be a dict. *)
Definition method_get (v : pyval) (key : string) : outcome pyval :=
  match v with
  | PDict d => Return (get_or d key PNone)
  | _ => Raise AttributeError
  end.

Fixpoint read_nutriments (nutriments : pyval) (fields : list (string * string))
  : outcome (list (string * pyval)) :=
  match fields with
  | [] => Return []
  | (column, key) :: rest =>
      v ← method_get nutriments key;
      more ← read_nutriments nutriments rest;
      Return ((column, v) :: more)
  end.

(** The body of the [try]: the value returned and the table, or what was
    raised. *)
Definition import_product_try (sch : Sqlite.schema) (clock : string)
    (product : gmap string pyval) (category : pyval) (t : Sqlite.table)
  : outcome (bool * Sqlite.table) :=
  name ← method_strip (get_or product "product_name" (PStr ""));
  if PyStr.is_empty name then Return (false, t)
  else
    brands ← method_strip (get_or product "brands" (PStr ""));
    let barcode := get_or product "code" (PStr "") in
    let serving_size := get_or product "serving_size" (PStr "") in
    let nutriments := get_or product "nutriments" (PDict ∅) in
    values ← read_nutriments nutriments OFF_NUTRIMENTS;
    let food_data : gmap string pyval :=
      list_to_map ([("name", PStr name);
                    ("brand_name", or_none (PStr brands));
                    ("barcode", or_none barcode);
                    ("serving_size", or_none serving_size);
                    ("category", category);
                    ("data_source", PStr "OpenFoodFacts")]%string ++ values) in
    let food_data := filter (fun kv => is_none kv.2 = false) food_data in
    if bool_decide (is_Some (food_data !! "calories") \/ is_Some (food_data !! "protein_g"))
    then t' ← off_insert_food sch clock food_data t; Return (true, t')
    else Return (false, t).

(** [_import_product]: any exception is logged and the product counts as
    not imported. *)
Definition import_product (sch : Sqlite.schema) (clock : string)
    (product : gmap string pyval) (category : pyval) (t : Sqlite.table)
  : bool * Sqlite.table :=
  match import_product_try sch clock product category t with
  | Return r => r
  | Raise _ => (false, t)
  end.

(** The loop over the products of one category in
    [import_popular_products]: stop at [limit], count the imported ones. *)
Fixpoint import_products (sch : Sqlite.schema) (clock : string) (limit : Z)
    (products : list (gmap string pyval)) (category : pyval)
    (total_imported : Z) (t : Sqlite.table) : Z * Sqlite.table :=
  match products with
  | [] => (total_imported, t)
  | product :: rest =>
      if limit <=? total_imported then (total_imported, t)
      else
        let '(imported, t') := import_product sch clock product category t in
        import_products sch clock limit rest category
          (if imported then total_imported + 1 else total_imported) t'
  end.

(** ** add_chipotle_data.py: add_chipotle_to_database *)

(** [CHIPOTLE_DATA] *)
Definition CHIPOTLE_DATA : list (gmap string pyval) := [
  list_to_map [
    ("item_name", PStr "Flour Tortilla (burrito)");
    ("portion", PStr "1 ea");
    ("calories", PNum (PyNum.PyInt 320));
    ("calories_from_fat", PNum (PyNum.PyInt 80));
    ("total_fat_g", PNum (PyNum.PyInt 9));
    ("saturated_fat_g", PNum (PyNum.PyFloat (PyNum.float_lit 5 10)));
    ("trans_fat_g", PNum (PyNum.PyInt 0));
    ("cholesterol_mg", PNum (PyNum.PyInt 0));
    ("sodium_mg", PNum (PyNum.PyInt 600));
    ("carbohydrates_g", PNum (PyNum.PyInt 50));
    ("dietary_fiber_g", PNum (PyNum.PyInt 3));
    ("sugar_g", PNum (PyNum.PyInt 0));
    ("protein_g", PNum (PyNum.PyInt 8));
    ("tags", PStrs ["Chipotle"])];
  list_to_map [
    ("item_name", PStr "Flour Tortilla (taco)");
    ("portion", PStr "1 ea");
    ("calories", PNum (PyNum.PyInt 80));
    ("calories_from_fat", PNum (PyNum.PyInt 25));
    ("total_fat_g", PNum (PyNum.PyFloat (PyNum.float_lit 25 10)));
    ("saturated_fat_g", PNum (PyNum.PyInt 0));
    ("trans_fat_g", PNum (PyNum.PyInt 0));
    ("cholesterol_mg", PNum (PyNum.PyInt 0));
    ("sodium_mg", PNum (PyNum.PyInt 160));
    ("carbohydrates_g", PNum (PyNum.PyInt 13));
    ("dietary_fiber_g", PNum (PyNum.PyFloat (PyNum.float_lit 5 10)));
    ("sugar_g", PNum (PyNum.PyInt 0));
    ("protein_g", PNum (PyNum.PyInt 2));
    ("tags", PStrs ["Chipotle"])];
  list_to_map [
    ("item_name", PStr "Crispy Corn Tortilla");
    ("portion", PStr "1 ea");
    ("calories", PNum (PyNum.PyInt 70));
    ("calories_from_fat", PNum (PyNum.PyInt 25));
    ("total_fat_g", PNum (PyNum.PyInt 3));
    ("saturated_fat_g", PNum (PyNum.PyInt 0));
    ("trans_fat_g", PNum (PyNum.PyInt 0));
    ("cholesterol_mg", PNum (PyNum.PyInt 0));
    ("sodium_mg", PNum (PyNum.PyInt 0));
    ("carbohydrates_g", PNum (PyNum.PyInt 10));
    ("dietary_fiber_g", PNum (PyNum.PyInt 1));
    ("sugar_g", PNum (PyNum.PyInt 0));
    ("protein_g", PNum (PyNum.PyInt 1));
    ("tags", PStrs ["Chipotle"])];
  list_to_map [
    ("item_name", PStr "Cilantro-Lime Brown Rice");
    ("portion", PStr "4 oz");
    ("calories", PNum (PyNum.PyInt 210));
    ("calories_from_fat", PNum (PyNum.PyInt 50));
    ("total_fat_g", PNum (PyNum.PyInt 6));
    ("saturated_fat_g", PNum (PyNum.PyInt 0));
    ("trans_fat_g", PNum (PyNum.PyInt 0));
    ("cholesterol_mg", PNum (PyNum.PyInt 0));
    ("sodium_mg", PNum (PyNum.PyInt 190));
    ("carbohydrates_g", PNum (PyNum.PyInt 36));
    ("dietary_fiber_g", PNum (PyNum.PyInt 2));
    ("sugar_g", PNum (PyNum.PyInt 0));
    ("protein_g", PNum (PyNum.PyInt 4));
    ("tags", PStrs ["Chipotle"])];
  list_to_map [
    ("item_name", PStr "Cilantro-Lime White Rice");
    ("portion", PStr "4 oz");
    ("calories", PNum (PyNum.PyInt 210));
    ("calories_from_fat", PNum (PyNum.PyInt 35));
    ("total_fat_g", PNum (PyNum.PyInt 4));
    ("saturated_fat_g", PNum (PyNum.PyInt 1));
    ("trans_fat_g", PNum (PyNum.PyInt 0));
    ("cholesterol_mg", PNum (PyNum.PyInt 0));
    ("sodium_mg", PNum (PyNum.PyInt 350));
    ("carbohydrates_g", PNum (PyNum.PyInt 40));
    ("dietary_fiber_g", PNum (PyNum.PyInt 1));
    ("sugar_g", PNum (PyNum.PyInt 0));
    ("protein_g", PNum (PyNum.PyInt 4));
    ("tags", PStrs ["Chipotle"])];
  list_to_map [
    ("item_name", PStr "Black Beans");
    ("portion", PStr "4 oz");
    ("calories", PNum (PyNum.PyInt 130));
    ("calories_from_fat", PNum (PyNum.PyInt 15));
    ("total_fat_g", PNum (PyNum.PyFloat (PyNum.float_lit 15 10)));
    ("saturated_fat_g", PNum (PyNum.PyInt 0));
    ("trans_fat_g", PNum (PyNum.PyInt 0));
    ("cholesterol_mg", PNum (PyNum.PyInt 0));
    ("sodium_mg", PNum (PyNum.PyInt 210));
    ("carbohydrates_g", PNum (PyNum.PyInt 22));
    ("dietary_fiber_g", PNum (PyNum.PyInt 7));
    ("sugar_g", PNum (PyNum.PyInt 2));
    ("protein_g", PNum (PyNum.PyInt 8));
    ("tags", PStrs ["Chipotle"])];
  list_to_map [
    ("item_name", PStr "Pinto Beans");
    ("portion", PStr "4 oz");
    ("calories", PNum (PyNum.PyInt 130));
    ("calories_from_fat", PNum (PyNum.PyInt 10));
    ("total_fat_g", PNum (PyNum.PyFloat (PyNum.float_lit 15 10)));
    ("saturated_fat_g", PNum (PyNum.PyInt 0));
    ("trans_fat_g", PNum (PyNum.PyInt 0));
    ("cholesterol_mg", PNum (PyNum.PyInt 0));
    ("sodium_mg", PNum (PyNum.PyInt 210));
    ("carbohydrates_g", PNum (PyNum.PyInt 21));
    ("dietary_fiber_g", PNum (PyNum.PyInt 8));
    ("sugar_g", PNum (PyNum.PyInt 1));
    ("protein_g", PNum (PyNum.PyInt 8));
    ("tags", PStrs ["Chipotle"])];
  list_to_map [
    ("item_name", PStr "Fajita Vegetables");
    ("portion", PStr "2 oz");
    ("calories", PNum (PyNum.PyInt 20));
    ("calories_from_fat", PNum (PyNum.PyInt 0));
    ("total_fat_g", PNum (PyNum.PyInt 0));
    ("saturated_fat_g", PNum (PyNum.PyInt 0));
    ("trans_fat_g", PNum (PyNum.PyInt 0));
    ("cholesterol_mg", PNum (PyNum.PyInt 0));
    ("sodium_mg", PNum (PyNum.PyInt 150));
    ("carbohydrates_g", PNum (PyNum.PyInt 5));
    ("dietary_fiber_g", PNum (PyNum.PyInt 1));
    ("sugar_g", PNum (PyNum.PyInt 2));
    ("protein_g", PNum (PyNum.PyInt 1));
    ("tags", PStrs ["Chipotle"])];
  list_to_map [
    ("item_name", PStr "Barbacoa");
    ("portion", PStr "4 oz");
    ("calories", PNum (PyNum.PyInt 170));
    ("calories_from_fat", PNum (PyNum.PyInt 60));
    ("total_fat_g", PNum (PyNum.PyInt 7));
    ("saturated_fat_g", PNum (PyNum.PyFloat (PyNum.float_lit 25 10)));
    ("trans_fat_g", PNum (PyNum.PyInt 0));
    ("cholesterol_mg", PNum (PyNum.PyInt 65));
    ("sodium_mg", PNum (PyNum.PyInt 530));
    ("carbohydrates_g", PNum (PyNum.PyInt 2));
    ("dietary_fiber_g", PNum (PyNum.PyInt 1));
    ("sugar_g", PNum (PyNum.PyInt 0));
    ("protein_g", PNum (PyNum.PyInt 24));
    ("tags", PStrs ["Chipotle"])];
  list_to_map [
    ("item_name", PStr "Chicken");
    ("portion", PStr "4 oz");
    ("calories", PNum (PyNum.PyInt 180));
    ("calories_from_fat", PNum (PyNum.PyInt 60));
    ("total_fat_g", PNum (PyNum.PyInt 7));
    ("saturated_fat_g", PNum (PyNum.PyInt 3));
    ("trans_fat_g", PNum (PyNum.PyInt 0));
    ("cholesterol_mg", PNum (PyNum.PyInt 125));
    ("sodium_mg", PNum (PyNum.PyInt 310));
    ("carbohydrates_g", PNum (PyNum.PyInt 0));
    ("dietary_fiber_g", PNum (PyNum.PyInt 0));
    ("sugar_g", PNum (PyNum.PyInt 0));
    ("protein_g", PNum (PyNum.PyInt 32));
    ("tags", PStrs ["Chipotle"])];
  list_to_map [
    ("item_name", PStr "Carnitas");
    ("portion", PStr "4 oz");
    ("calories", PNum (PyNum.PyInt 210));
    ("calories_from_fat", PNum (PyNum.PyInt 120));
    ("total_fat_g", PNum (PyNum.PyInt 12));
    ("saturated_fat_g", PNum (PyNum.PyInt 7));
    ("trans_fat_g", PNum (PyNum.PyInt 0));
    ("cholesterol_mg", PNum (PyNum.PyInt 65));
    ("sodium_mg", PNum (PyNum.PyInt 450));
    ("carbohydrates_g", PNum (PyNum.PyInt 0));
    ("dietary_fiber_g", PNum (PyNum.PyInt 0));
    ("sugar_g", PNum (PyNum.PyInt 0));
    ("protein_g", PNum (PyNum.PyInt 23));
    ("tags", PStrs ["Chipotle"])];
  list_to_map [
    ("item_name", PStr "Steak");
    ("portion", PStr "4 oz");
    ("calories", PNum (PyNum.PyInt 150));
    ("calories_from_fat", PNum (PyNum.PyInt 60));
    ("total_fat_g", PNum (PyNum.PyInt 6));
    ("saturated_fat_g", PNum (PyNum.PyFloat (PyNum.float_lit 25 10)));
    ("trans_fat_g", PNum (PyNum.PyInt 0));
    ("cholesterol_mg", PNum (PyNum.PyInt 80));
    ("sodium_mg", PNum (PyNum.PyInt 330));
    ("carbohydrates_g", PNum (PyNum.PyInt 1));
    ("dietary_fiber_g", PNum (PyNum.PyInt 1));
    ("sugar_g", PNum (PyNum.PyInt 0));
    ("protein_g", PNum (PyNum.PyInt 21));
    ("tags", PStrs ["Chipotle"])];
  list_to_map [
    ("item_name", PStr "Sofritas");
    ("portion", PStr "4 oz");
    ("calories", PNum (PyNum.PyInt 150));
    ("calories_from_fat", PNum (PyNum.PyInt 80));
    ("total_fat_g", PNum (PyNum.PyInt 10));
    ("saturated_fat_g", PNum (PyNum.PyFloat (PyNum.float_lit 15 10)));
    ("trans_fat_g", PNum (PyNum.PyInt 0));
    ("cholesterol_mg", PNum (PyNum.PyInt 0));
    ("sodium_mg", PNum (PyNum.PyInt 560));
    ("carbohydrates_g", PNum (PyNum.PyInt 9));
    ("dietary_fiber_g", PNum (PyNum.PyInt 3));
    ("sugar_g", PNum (PyNum.PyInt 5));
    ("protein_g", PNum (PyNum.PyInt 8));
    ("tags", PStrs ["Chipotle"])];
  list_to_map [
    ("item_name", PStr "Fresh Tomato Salsa");
    ("portion", PStr "4 oz");
    ("calories", PNum (PyNum.PyInt 25));
    ("calories_from_fat", PNum (PyNum.PyInt 0));
    ("total_fat_g", PNum (PyNum.PyInt 0));
    ("saturated_fat_g", PNum (PyNum.PyInt 0));
    ("trans_fat_g", PNum (PyNum.PyInt 0));
    ("cholesterol_mg", PNum (PyNum.PyInt 0));
    ("sodium_mg", PNum (PyNum.PyInt 550));
    ("carbohydrates_g", PNum (PyNum.PyInt 4));
    ("dietary_fiber_g", PNum (PyNum.PyInt 1));
    ("sugar_g", PNum (PyNum.PyInt 1));
    ("protein_g", PNum (PyNum.PyInt 0));
    ("tags", PStrs ["Chipotle"])];
  list_to_map [
    ("item_name", PStr "Roasted Chili-Corn Salsa");
    ("portion", PStr "4 oz");
    ("calories", PNum (PyNum.PyInt 80));
    ("calories_from_fat", PNum (PyNum.PyInt 15));
    ("total_fat_g", PNum (PyNum.PyFloat (PyNum.float_lit 15 10)));
    ("saturated_fat_g", PNum (PyNum.PyInt 0));
    ("trans_fat_g", PNum (PyNum.PyInt 0));
    ("cholesterol_mg", PNum (PyNum.PyInt 0));
    ("sodium_mg", PNum (PyNum.PyInt 330));
    ("carbohydrates_g", PNum (PyNum.PyInt 16));
    ("dietary_fiber_g", PNum (PyNum.PyInt 3));
    ("sugar_g", PNum (PyNum.PyInt 4));
    ("protein_g", PNum (PyNum.PyInt 3));
    ("tags", PStrs ["Chipotle"])];
  list_to_map [
    ("item_name", PStr "Tomatillo-Green Chili Salsa");
    ("portion", PStr "2 fl oz");
    ("calories", PNum (PyNum.PyInt 15));
    ("calories_from_fat", PNum (PyNum.PyInt 5));
    ("total_fat_g", PNum (PyNum.PyInt 0));
    ("saturated_fat_g", PNum (PyNum.PyInt 0));
    ("trans_fat_g", PNum (PyNum.PyInt 0));
    ("cholesterol_mg", PNum (PyNum.PyInt 0));
    ("sodium_mg", PNum (PyNum.PyInt 260));
    ("carbohydrates_g", PNum (PyNum.PyInt 4));
    ("dietary_fiber_g", PNum (PyNum.PyInt 0));
    ("sugar_g", PNum (PyNum.PyInt 2));
    ("protein_g", PNum (PyNum.PyInt 0));
    ("tags", PStrs ["Chipotle"])];
  list_to_map [
    ("item_name", PStr "Tomatillo-Red Chili Salsa");
    ("portion", PStr "2 fl oz");
    ("calories", PNum (PyNum.PyInt 30));
    ("calories_from_fat", PNum (PyNum.PyInt 5));
    ("total_fat_g", PNum (PyNum.PyInt 0));
    ("saturated_fat_g", PNum (PyNum.PyInt 0));
    ("trans_fat_g", PNum (PyNum.PyInt 0));
    ("cholesterol_mg", PNum (PyNum.PyInt 0));
    ("sodium_mg", PNum (PyNum.PyInt 500));
    ("carbohydrates_g", PNum (PyNum.PyInt 4));
    ("dietary_fiber_g", PNum (PyNum.PyInt 1));
    ("sugar_g", PNum (PyNum.PyInt 0));
    ("protein_g", PNum (PyNum.PyInt 0));
    ("tags", PStrs ["Chipotle"])];
  list_to_map [
    ("item_name", PStr "Cheese");
    ("portion", PStr "1 oz");
    ("calories", PNum (PyNum.PyInt 110));
    ("calories_from_fat", PNum (PyNum.PyInt 70));
    ("total_fat_g", PNum (PyNum.PyInt 8));
    ("saturated_fat_g", PNum (PyNum.PyInt 5));
    ("trans_fat_g", PNum (PyNum.PyInt 0));
    ("cholesterol_mg", PNum (PyNum.PyInt 30));
    ("sodium_mg", PNum (PyNum.PyInt 190));
    ("carbohydrates_g", PNum (PyNum.PyInt 1));
    ("dietary_fiber_g", PNum (PyNum.PyInt 0));
    ("sugar_g", PNum (PyNum.PyInt 0));
    ("protein_g", PNum (PyNum.PyInt 6));
    ("tags", PStrs ["Chipotle"])];
  list_to_map [
    ("item_name", PStr "Sour Cream");
    ("portion", PStr "2 oz");
    ("calories", PNum (PyNum.PyInt 110));
    ("calories_from_fat", PNum (PyNum.PyInt 90));
    ("total_fat_g", PNum (PyNum.PyInt 9));
    ("saturated_fat_g", PNum (PyNum.PyInt 7));
    ("trans_fat_g", PNum (PyNum.PyInt 0));
    ("cholesterol_mg", PNum (PyNum.PyInt 40));
    ("sodium_mg", PNum (PyNum.PyInt 30));
    ("carbohydrates_g", PNum (PyNum.PyInt 2));
    ("dietary_fiber_g", PNum (PyNum.PyInt 0));
    ("sugar_g", PNum (PyNum.PyInt 2));
    ("protein_g", PNum (PyNum.PyInt 2));
    ("tags", PStrs ["Chipotle"])];
  list_to_map [
    ("item_name", PStr "Guacamole (topping/side)");
    ("portion", PStr "4 oz");
    ("calories", PNum (PyNum.PyInt 230));
    ("calories_from_fat", PNum (PyNum.PyInt 190));
    ("total_fat_g", PNum (PyNum.PyInt 22));
    ("saturated_fat_g", PNum (PyNum.PyFloat (PyNum.float_lit 35 10)));
    ("trans_fat_g", PNum (PyNum.PyInt 0));
    ("cholesterol_mg", PNum (PyNum.PyInt 0));
    ("sodium_mg", PNum (PyNum.PyInt 370));
    ("carbohydrates_g", PNum (PyNum.PyInt 8));
    ("dietary_fiber_g", PNum (PyNum.PyInt 6));
    ("sugar_g", PNum (PyNum.PyInt 1));
    ("protein_g", PNum (PyNum.PyInt 2));
    ("tags", PStrs ["Chipotle"])];
  list_to_map [
    ("item_name", PStr "Guacamole (large)");
    ("portion", PStr "8 oz");
    ("calories", PNum (PyNum.PyInt 460));
    ("calories_from_fat", PNum (PyNum.PyInt 380));
    ("total_fat_g", PNum (PyNum.PyInt 44));
    ("saturated_fat_g", PNum (PyNum.PyInt 7));
    ("trans_fat_g", PNum (PyNum.PyInt 0));
    ("cholesterol_mg", PNum (PyNum.PyInt 0));
    ("sodium_mg", PNum (PyNum.PyInt 740));
    ("carbohydrates_g", PNum (PyNum.PyInt 16));
    ("dietary_fiber_g", PNum (PyNum.PyInt 12));
    ("sugar_g", PNum (PyNum.PyInt 2));
    ("protein_g", PNum (PyNum.PyInt 4));
    ("tags", PStrs ["Chipotle"])];
  list_to_map [
    ("item_name", PStr "Queso Blanco (entreé)");
    ("portion", PStr "2 oz");
    ("calories", PNum (PyNum.PyInt 120));
    ("calories_from_fat", PNum (PyNum.PyInt 80));
    ("total_fat_g", PNum (PyNum.PyInt 9));
    ("saturated_fat_g", PNum (PyNum.PyInt 6));
    ("trans_fat_g", PNum (PyNum.PyInt 0));
    ("cholesterol_mg", PNum (PyNum.PyInt 30));
    ("sodium_mg", PNum (PyNum.PyInt 250));
    ("carbohydrates_g", PNum (PyNum.PyInt 4));
    ("dietary_fiber_g", PNum (PyNum.PyInt 0));
    ("sugar_g", PNum (PyNum.PyInt 1));
    ("protein_g", PNum (PyNum.PyInt 5));
    ("tags", PStrs ["Chipotle"])];
  list_to_map [
    ("item_name", PStr "Queso Blanco (side)");
    ("portion", PStr "4 oz");
    ("calories", PNum (PyNum.PyInt 240));
    ("calories_from_fat", PNum (PyNum.PyInt 170));
    ("total_fat_g", PNum (PyNum.PyInt 18));
    ("saturated_fat_g", PNum (PyNum.PyInt 12));
    ("trans_fat_g", PNum (PyNum.PyInt 1));
    ("cholesterol_mg", PNum (PyNum.PyInt 60));
    ("sodium_mg", PNum (PyNum.PyInt 490));
    ("carbohydrates_g", PNum (PyNum.PyInt 7));
    ("dietary_fiber_g", PNum (PyNum.PyInt 0));
    ("sugar_g", PNum (PyNum.PyInt 2));
    ("protein_g", PNum (PyNum.PyInt 10));
    ("tags", PStrs ["Chipotle"])];
  list_to_map [
    ("item_name", PStr "Queso Blanco (large)");
    ("portion", PStr "8 oz");
    ("calories", PNum (PyNum.PyInt 480));
    ("calories_from_fat", PNum (PyNum.PyInt 330));
    ("total_fat_g", PNum (PyNum.PyInt 37));
    ("saturated_fat_g", PNum (PyNum.PyInt 23));
    ("trans_fat_g", PNum (PyNum.PyFloat (PyNum.float_lit 15 10)));
    ("cholesterol_mg", PNum (PyNum.PyInt 120));
    ("sodium_mg", PNum (PyNum.PyInt 980));
    ("carbohydrates_g", PNum (PyNum.PyInt 14));
    ("dietary_fiber_g", PNum (PyNum.PyFloat (PyNum.float_lit 5 10)));
    ("sugar_g", PNum (PyNum.PyInt 5));
    ("protein_g", PNum (PyNum.PyInt 20));
    ("tags", PStrs ["Chipotle"])];
  list_to_map [
    ("item_name", PStr "Supergreens Salad Mix");
    ("portion", PStr "3 oz");
    ("calories", PNum (PyNum.PyInt 15));
    ("calories_from_fat", PNum (PyNum.PyInt 0));
    ("total_fat_g", PNum (PyNum.PyInt 0));
    ("saturated_fat_g", PNum (PyNum.PyInt 0));
    ("trans_fat_g", PNum (PyNum.PyInt 0));
    ("cholesterol_mg", PNum (PyNum.PyInt 0));
    ("sodium_mg", PNum (PyNum.PyInt 15));
    ("carbohydrates_g", PNum (PyNum.PyInt 3));
    ("dietary_fiber_g", PNum (PyNum.PyInt 2));
    ("sugar_g", PNum (PyNum.PyInt 1));
    ("protein_g", PNum (PyNum.PyInt 1));
    ("tags", PStrs ["Chipotle"])];
  list_to_map [
    ("item_name", PStr "Romaine Lettuce (tacos)");
    ("portion", PStr "1 oz");
    ("calories", PNum (PyNum.PyInt 5));
    ("calories_from_fat", PNum (PyNum.PyInt 0));
    ("total_fat_g", PNum (PyNum.PyInt 0));
    ("saturated_fat_g", PNum (PyNum.PyInt 0));
    ("trans_fat_g", PNum (PyNum.PyInt 0));
    ("cholesterol_mg", PNum (PyNum.PyInt 0));
    ("sodium_mg", PNum (PyNum.PyInt 0));
    ("carbohydrates_g", PNum (PyNum.PyInt 1));
    ("dietary_fiber_g", PNum (PyNum.PyInt 1));
    ("sugar_g", PNum (PyNum.PyInt 0));
    ("protein_g", PNum (PyNum.PyInt 0));
    ("tags", PStrs ["Chipotle"])];
  list_to_map [
    ("item_name", PStr "Chips (regular)");
    ("portion", PStr "4 oz");
    ("calories", PNum (PyNum.PyInt 540));
    ("calories_from_fat", PNum (PyNum.PyInt 230));
    ("total_fat_g", PNum (PyNum.PyInt 25));
    ("saturated_fat_g", PNum (PyNum.PyFloat (PyNum.float_lit 35 10)));
    ("trans_fat_g", PNum (PyNum.PyInt 0));
    ("cholesterol_mg", PNum (PyNum.PyInt 0));
    ("sodium_mg", PNum (PyNum.PyInt 390));
    ("carbohydrates_g", PNum (PyNum.PyInt 73));
    ("dietary_fiber_g", PNum (PyNum.PyInt 7));
    ("sugar_g", PNum (PyNum.PyInt 1));
    ("protein_g", PNum (PyNum.PyInt 7));
    ("tags", PStrs ["Chipotle"])];
  list_to_map [
    ("item_name", PStr "Chips (large)");
    ("portion", PStr "6 oz");
    ("calories", PNum (PyNum.PyInt 810));
    ("calories_from_fat", PNum (PyNum.PyInt 350));
    ("total_fat_g", PNum (PyNum.PyInt 38));
    ("saturated_fat_g", PNum (PyNum.PyInt 5));
    ("trans_fat_g", PNum (PyNum.PyInt 0));
    ("cholesterol_mg", PNum (PyNum.PyInt 0));
    ("sodium_mg", PNum (PyNum.PyInt 590));
    ("carbohydrates_g", PNum (PyNum.PyInt 110));
    ("dietary_fiber_g", PNum (PyNum.PyInt 11));
    ("sugar_g", PNum (PyNum.PyInt 2));
    ("protein_g", PNum (PyNum.PyInt 11));
    ("tags", PStrs ["Chipotle"])];
  list_to_map [
    ("item_name", PStr "Chipotle-Honey Vinaigrette");
    ("portion", PStr "2 fl oz");
    ("calories", PNum (PyNum.PyInt 220));
    ("calories_from_fat", PNum (PyNum.PyInt 140));
    ("total_fat_g", PNum (PyNum.PyInt 16));
    ("saturated_fat_g", PNum (PyNum.PyFloat (PyNum.float_lit 25 10)));
    ("trans_fat_g", PNum (PyNum.PyInt 0));
    ("cholesterol_mg", PNum (PyNum.PyInt 0));
    ("sodium_mg", PNum (PyNum.PyInt 850));
    ("carbohydrates_g", PNum (PyNum.PyInt 18));
    ("dietary_fiber_g", PNum (PyNum.PyInt 1));
    ("sugar_g", PNum (PyNum.PyInt 12));
    ("protein_g", PNum (PyNum.PyInt 1));
    ("tags", PStrs ["Chipotle"])]
]%string.

(** The nutrition columns of [foods] and the item keys bound to them, in
    the order of the parameter tuples. *)
Definition CHIPOTLE_NUTRITION : list (string * string) := [
  ("calories", "calories");
  ("calories_from_fat", "calories_from_fat");
  ("total_fat_g", "total_fat_g");
  ("saturated_fat_g", "saturated_fat_g");
  ("trans_fat_g", "trans_fat_g");
  ("cholesterol_mg", "cholesterol_mg");
  ("sodium_mg", "sodium_mg");
  ("total_carbohydrate_g", "carbohydrates_g");
  ("dietary_fiber_g", "dietary_fiber_g");
  ("sugars_g", "sugar_g");
  ("protein_g", "protein_g")
]%string.

Fixpoint read_items (item : gmap string pyval) (fields : list (string * string))
  : outcome (list (string * pyval)) :=
  match fields with
  | [] => Return []
  | (column, key) :: rest =>
      v ← getitem item key;
      more ← read_items item rest;
      Return ((column, v) :: more)
  end.

(** [','.join(v)]: the strings of a list, the characters of a str or the
    keys of a dict; anything else is not iterable. *)
Definition join_comma (v : pyval) : outcome string :=
  match v with
  | PStrs l => Return (PyStr.join "," l)
  | PStr s => Return (PyStr.join "," (map (fun c => String c EmptyString) (list_ascii_of_string s)))
  | PDict d => Return (PyStr.join "," ((map_to_list d).*1))
  | _ => Raise TypeError
  end.

(** [WHERE name = ? AND restaurant_name = 'Chipotle'] *)
Definition chipotle_row (name : option Sqlite.value) (r : gmap string Sqlite.value) : bool :=
  Sqlite.sql_eq (r !! "name") name &&
  Sqlite.sql_eq (r !! "restaurant_name") (Some (Sqlite.Text "Chipotle")).

(** [convert_portion_to_grams(v)]: [v.lower()] needs a str. *)
Definition call_convert_portion_to_grams (v : pyval) : outcome PyNum.number :=
  match v with
  | PStr portion_str => Return (convert_portion_to_grams portion_str)
  | _ => Raise AttributeError
  end.

(** The columns both statements write from the item, with the values of
    their parameters. *)
Definition chipotle_written (item : gmap string pyval) (serving_grams : PyNum.number)
    (search_terms : string) : outcome (list (string * pyval)) :=
  portion ← getitem item "portion";
  nutrition ← read_items item CHIPOTLE_NUTRITION;
  Return ([("serving_size", portion); ("serving_size_grams", PNum serving_grams)]%string
          ++ nutrition ++ [("search_terms", PStr search_terms)]%string).

(** The body of the [try] for one item. *)
Definition chipotle_item_try (sch : Sqlite.schema) (clock current_timestamp : string)
    (item : gmap string pyval) (t : Sqlite.table) : outcome Sqlite.table :=
  portion ← getitem item "portion";
  serving_grams ← call_convert_portion_to_grams portion;
  item_name ← getitem item "item_name";
  name_lower ← method_lower item_name;
  tags ← getitem item "tags";
  joined ← join_comma tags;
  let search_terms := ("chipotle," +:+ name_lower +:+ "," +:+ PyStr.lower joined)%string in
  name ← bind_param item_name;
  match Sqlite.select_one (chipotle_row name) t with
  | Some _ =>
      written ← chipotle_written item serving_grams search_terms;
      cols ← bind_all (list_to_map (written ++
                [("updated_at", PStr current_timestamp)]%string));
      Sqlite.update sch (chipotle_row name) cols t
  | None =>
      written ← chipotle_written item serving_grams search_terms;
      cols ← bind_all (list_to_map (written ++
                [("name", item_name);
                 ("restaurant_name", PStr "Chipotle");
                 ("data_source", PStr "Restaurant");
                 ("category", PStr "Mexican");
                 ("created_at", PStr current_timestamp);
                 ("updated_at", PStr current_timestamp)]%string));
      Sqlite.insert false sch clock cols t
  end.

(** One turn of the loop: the handler prints the item's name and goes on
    to the next item; without a name the handler itself raises. *)
Definition chipotle_item (sch : Sqlite.schema) (clock current_timestamp : string)
    (item : gmap string pyval) (t : Sqlite.table) : outcome Sqlite.table :=
  match chipotle_item_try sch clock current_timestamp item t with
  | Return t' => Return t'
  | Raise _ => _ ← getitem item "item_name"; Return t
  end.

Fixpoint chipotle_items (sch : Sqlite.schema) (clock current_timestamp : string)
    (data : list (gmap string pyval)) (t : Sqlite.table) : outcome Sqlite.table :=
  match data with
  | [] => Return t
  | item :: rest =>
      t' ← chipotle_item sch clock current_timestamp item t;
      chipotle_items sch clock current_timestamp rest t'
  end.

(** [add_chipotle_to_database]: [db] is the table [foods] of the database
    at [db_path], [None] when it has none; the result is the value returned
    and the table after the commit. *)
Definition add_chipotle_to_database (sch : Sqlite.schema)
    (clock current_timestamp : string) (db : option Sqlite.table)
  : outcome (bool * option Sqlite.table) :=
  match db with
  | None => Return (false, None)
  | Some t =>
      t' ← chipotle_items sch clock current_timestamp CHIPOTLE_DATA t;
      Return (true, Some t')
  end.

(** ** Sample records

    The first item of "Pho 24" in [ADDITIONAL_RESTAURANT_DATA]. *)
Definition PHO_TAI : gmap string pyval := list_to_map [
  ("name", PStr "Pho Tai (Rare Beef)");
  ("serving_size", PStr "1 large bowl");
  ("calories", PNum (PyNum.PyInt 480));
  ("total_fat_g", PNum (PyNum.PyInt 6));
  ("saturated_fat_g", PNum (PyNum.PyInt 3));
  ("trans_fat_g", PNum (PyNum.PyInt 0));
  ("cholesterol_mg", PNum (PyNum.PyInt 45));
  ("sodium_mg", PNum (PyNum.PyInt 1560));
  ("total_carbohydrate_g", PNum (PyNum.PyInt 68));
  ("dietary_fiber_g", PNum (PyNum.PyInt 3));
  ("sugars_g", PNum (PyNum.PyInt 5));
  ("protein_g", PNum (PyNum.PyInt 36))
]%string.

(** The item "Barbacoa" of [CHIPOTLE_DATA] (the ninth). *)
Definition BARBACOA : gmap string pyval :=
  default ∅ (CHIPOTLE_DATA !! 8%nat).

(** What a table shows of its rows: their identities, and one column. *)
Definition identities (t : Sqlite.table) : list (list (option Sqlite.value)) :=
  map Sqlite.identity (Sqlite.rows t).

Definition column (c : string) (t : Sqlite.table) : list (option Sqlite.value) :=
  map (fun r => r !! c) (Sqlite.rows t).

(** ** Well-formed Chipotle records

    The columns of the SET clause of the UPDATE. *)
Definition CHIPOTLE_UPDATED : list string :=
  ["serving_size"; "serving_size_grams"] ++ CHIPOTLE_NUTRITION.*1
  ++ ["search_terms"; "updated_at"].

(** A record with every key [add_chipotle_to_database] reads: a name and a
    portion that are strs, a list of tags, and the eleven nutrition values,
    each something [sqlite3] can bind ([None] included). *)
Definition complete_item (item : gmap string pyval) : bool :=
  match item !! "item_name", item !! "portion", item !! "tags" with
  | Some (PStr _), Some (PStr _), Some (PStrs _) =>
      forallb (fun ck : string * string =>
                 match item !! ck.2 with
                 | Some v => bool_decide (is_Some (bound_value v))
                 | None => false
                 end) CHIPOTLE_NUTRITION
  | _, _, _ => false
  end.

(** The str under a key, [""] if there is none. *)
Definition str_of (item : gmap string pyval) (key : string) : string :=
  match item !! key with
  | Some (PStr s) => s
  | _ => EmptyString
  end.

(** The search terms the importer computes for a well-formed record. *)
Definition chipotle_search_terms (item : gmap string pyval) : string :=
  match item !! "tags" with
  | Some (PStrs tags) =>
      ("chipotle," +:+ PyStr.lower (str_of item "item_name") +:+ ","
       +:+ PyStr.lower (PyStr.join "," tags))%string
  | _ => EmptyString
  end.

(** The values read from a record, as far as its keys go. *)
Definition fields_of (item : gmap string pyval) (fields : list (string * string))
  : list (string * pyval) :=
  map (fun ck => (ck.1, get_or item ck.2 PNone)) fields.

(** What the two statements write for a well-formed record. *)
Definition written_of (item : gmap string pyval) : list (string * pyval) :=
  [("serving_size", PStr (str_of item "portion"));
   ("serving_size_grams", PNum (convert_portion_to_grams (str_of item "portion")))]
  ++ fields_of item CHIPOTLE_NUTRITION
  ++ [("search_terms", PStr (chipotle_search_terms item))].

Definition update_cols (current_timestamp : string) (item : gmap string pyval)
  : gmap string (option Sqlite.value) :=
  bound <$> list_to_map (written_of item ++ [("updated_at", PStr current_timestamp)]).

Definition insert_cols (current_timestamp : string) (item : gmap string pyval)
  : gmap string (option Sqlite.value) :=
  bound <$> list_to_map (written_of item ++
    [("name", PStr (str_of item "item_name"));
     ("restaurant_name", PStr "Chipotle");
     ("data_source", PStr "Restaurant");
     ("category", PStr "Mexican");
     ("created_at", PStr current_timestamp);
     ("updated_at", PStr current_timestamp)]).

(** The row the INSERT makes. *)
Definition inserted_row (clock ts : string) (item : gmap string pyval) (t : Sqlite.table)
  : gmap string Sqlite.value :=
  <["id" := Sqlite.Integer (Sqlite.next_rowid t)]>
    (Sqlite.assign (insert_cols ts item) (Sqlite.default_row FOODS clock)).


(** ** build_comprehensive_nutrients_db.py: the table [nutrients]

    The sibling store: the same identity columns under other names, and
    [UNIQUE(food_name, brand_name, restaurant_name, source)]. *)
Definition NUTRIENTS : Sqlite.schema := {|
  Sqlite.columns := [
  "id"; "food_name"; "brand_name"; "restaurant_name"; "kcal_per_100g";
  "protein_g_per_100g"; "total_fat_g_per_100g"; "saturated_fat_g_per_100g";
  "trans_fat_g_per_100g"; "carbs_g_per_100g"; "fiber_g_per_100g";
  "sugar_g_per_100g"; "sodium_mg_per_100g"; "cholesterol_mg_per_100g";
  "calcium_mg_per_100g"; "iron_mg_per_100g"; "potassium_mg_per_100g";
  "vitamin_c_mg_per_100g"; "vitamin_a_ug_per_100g"; "vitamin_d_ug_per_100g";
  "omega3_mg_per_100g"; "omega6_mg_per_100g"; "glycemic_index";
  "glycemic_load"; "source"; "confidence_score"; "is_raw"; "is_cooked";
  "cooking_method"; "serving_size_g"; "serving_size_unit"; "fdc_id";
  "barcode"; "category"; "subcategory"; "tags"; "allergens"; "created_at";
  "updated_at" ];
  Sqlite.not_null := ["food_name"; "kcal_per_100g"; "source"];
  Sqlite.defaults := [("confidence_score", Sqlite.Real (PyNum.float_lit 1 1));
                      ("is_raw", Sqlite.Integer 0); ("is_cooked", Sqlite.Integer 0)];
  Sqlite.stamped := ["created_at"; "updated_at"];
  Sqlite.uniques := [["food_name"; "brand_name"; "restaurant_name"; "source"]]
|}.

(** The columns the INSERT OR REPLACE of [add_manual_overrides] binds from
    a tuple, in order; [source] and [confidence_score] are literals. *)
Definition MANUAL_OVERRIDE_COLUMNS : list string := [
  "food_name"; "brand_name"; "restaurant_name"; "kcal_per_100g";
  "protein_g_per_100g"; "total_fat_g_per_100g"; "saturated_fat_g_per_100g";
  "trans_fat_g_per_100g"; "carbs_g_per_100g"; "fiber_g_per_100g";
  "sugar_g_per_100g"; "sodium_mg_per_100g"; "cholesterol_mg_per_100g";
  "calcium_mg_per_100g"; "iron_mg_per_100g"; "potassium_mg_per_100g";
  "vitamin_c_mg_per_100g"; "vitamin_a_ug_per_100g"; "omega3_mg_per_100g";
  "is_raw"; "cooking_method"; "category"; "subcategory"; "tags"; "allergens" ].

(** One turn of the loop of [add_manual_overrides]: a tuple of another
    length than the placeholders is refused, and nothing catches what
    [execute] raises. *)
Definition add_manual_override (clock : string) (data : list pyval)
    (t : Sqlite.table) : outcome Sqlite.table :=
  if negb (length data =? length MANUAL_OVERRIDE_COLUMNS)%nat then Raise ProgrammingError
  else
    cols ← bind_all (list_to_map (zip MANUAL_OVERRIDE_COLUMNS data ++
                       [("source", PStr "Manual");
                        ("confidence_score", PNum (PyNum.PyFloat (PyNum.float_lit 1 1)))]));
    Sqlite.insert true NUTRIENTS clock cols t.

(** The first tuple of [overrides]. *)
Definition BANANA : list pyval := [
  PStr "Banana"; PNone; PNone; PNum (PyNum.PyInt 89);
  PNum (PyNum.PyFloat (PyNum.float_lit 11 10)); PNum (PyNum.PyFloat (PyNum.float_lit 3 10));
  PNum (PyNum.PyFloat (PyNum.float_lit 1 10)); PNum (PyNum.PyInt 0);
  PNum (PyNum.PyFloat (PyNum.float_lit 228 10)); PNum (PyNum.PyFloat (PyNum.float_lit 26 10));
  PNum (PyNum.PyFloat (PyNum.float_lit 122 10)); PNum (PyNum.PyInt 1); PNum (PyNum.PyInt 0);
  PNum (PyNum.PyInt 5); PNum (PyNum.PyFloat (PyNum.float_lit 3 10)); PNum (PyNum.PyInt 358);
  PNum (PyNum.PyFloat (PyNum.float_lit 87 10)); PNum (PyNum.PyInt 3); PNum (PyNum.PyInt 0);
  PStr "raw"; PNone; PStr "Fruit"; PStr "Fresh"; PStr ("[" +:+ String (ascii_of_nat 34) "potassium" +:+ String (ascii_of_nat 34) "]"); PNone
].

(** The identity of a row of [nutrients]. *)
Definition nutrient_identity (r : gmap string Sqlite.value) : list (option Sqlite.value) :=
  [r !! "food_name"; r !! "brand_name"; r !! "restaurant_name"; r !! "source"].

(** ** What a run of the Chipotle import leaves in the table *)

(** The rows the importer's SELECT finds for a record. *)
Definition rows_of_item (item : gmap string pyval) (r : gmap string Sqlite.value) : bool :=
  chipotle_row (Some (Sqlite.Text (str_of item "item_name"))) r.

(** A row holds every value the importer writes from the record. *)
Definition holds_written (item : gmap string pyval) (r : gmap string Sqlite.value) : Prop :=
  forall c v, dict_get (written_of item) c = Some v -> r !! c = bound v.

(** The record is in the table: it has a row there, and each of its rows
    holds its values. *)
Definition stored (item : gmap string pyval) (t : Sqlite.table) : Prop :=
  (exists r, r ∈ Sqlite.rows t /\ rows_of_item item r = true) /\
  (forall r, r ∈ Sqlite.rows t -> rows_of_item item r = true -> holds_written item r).

(** [restaurant_name = 'Chipotle'] *)
Definition is_chipotle (r : gmap string Sqlite.value) : bool :=
  Sqlite.sql_eq (r !! "restaurant_name") (Some (Sqlite.Text "Chipotle")).

(** Two rows that differ at most in the column [c0]. *)
Definition same_but (c0 : string) (r r' : gmap string Sqlite.value) : Prop :=
  forall c, c <> c0 -> r' !! c = r !! c.

(** The table a run leaves when it goes through. *)
Definition table_of (run : outcome Sqlite.table) : Sqlite.table :=
  match run with
  | Return t => t
  | Raise _ => Sqlite.empty_table
  end.

(** ** import_expanded_restaurants.py: insert_food

    The function of import_additional_restaurants.py without the terms for
    Vietnamese food. *)
Definition expanded_insert_food (sch : Sqlite.schema) (clock : string)
    (restaurant_name : string) (kwargs : gmap string pyval) (t : Sqlite.table)
  : outcome Sqlite.table :=
  let kwargs := <["restaurant_name" := PStr restaurant_name]> kwargs in
  let kwargs := <["data_source" := PStr "Restaurant Menu Data"]> kwargs in
  name_terms ← terms_of kwargs "name";
  let search_terms := name_terms ++ [PyStr.lower restaurant_name] in
  let kwargs := <["search_terms" := PStr (PyStr.join " " (set_elements search_terms))]> kwargs in
  Return (insert_columns sch clock kwargs t).

(** ** build_ultimate_nutrients_db.py: optimize_database, "Remove duplicates"

    [DELETE FROM foods WHERE id NOT IN
       (SELECT MIN(id) FROM foods GROUP BY name, brand_name, restaurant_name)] *)

(** GROUP BY puts two values in one group when they are equal or both
    NULL. *)
Definition group_eq (a b : option Sqlite.value) : bool :=
  match a, b with
  | None, None => true
  | Some x, Some y => Sqlite.value_eqb x y
  | _, _ => false
  end.

Definition GROUP_BY : list string := ["name"; "brand_name"; "restaurant_name"].

Definition same_group (a b : gmap string Sqlite.value) : bool :=
  forallb (fun c => group_eq (a !! c) (b !! c)) GROUP_BY.

(** [MIN] over a group: the least value that is not NULL, NULL when there
    is none. *)
Definition sql_min (values : list Z) : option Z :=
  match values with
  | [] => None
  | x :: rest => Some (fold_right Z.min x rest)
  end.

(** The subquery, with the [MIN(id)] of its group once for every row of
    the group (the subquery has it once per group; IN does not count). *)
Definition min_ids (rows : list (gmap string Sqlite.value)) : list (option Z) :=
  map (fun r => sql_min (omap Sqlite.rowid_of (List.filter (same_group r) rows))) rows.

(** [x NOT IN (...)] is true: never for a NULL [x] unless the list is
    empty, and never when the list holds a NULL. *)
Definition not_in (x : option Z) (among : list (option Z)) : bool :=
  match x with
  | None => match among with [] => true | _ => false end
  | Some n =>
      negb (existsb (fun y => match y with Some m => n =? m | None => true end) among)
  end.

(** The DELETE; it leaves the AUTOINCREMENT counter alone. *)
Definition remove_duplicates (t : Sqlite.table) : Sqlite.table :=
  Sqlite.Table
    (List.filter (fun r => negb (not_in (Sqlite.rowid_of r) (min_ids (Sqlite.rows t))))
                 (Sqlite.rows t))
    (Sqlite.last_rowid t).

(** The key of the grouping. *)
Definition group_key (r : gmap string Sqlite.value) : list (option Sqlite.value) :=
  map (fun c => r !! c) GROUP_BY.

(** A row as the table [foods] holds it: an integer rowid, and text or
    NULL in the three TEXT columns of the grouping. *)
Definition keyed_row (r : gmap string Sqlite.value) : bool :=
  bool_decide (is_Some (Sqlite.rowid_of r)) &&
  forallb (fun c => match r !! c with
                    | None | Some (Sqlite.Text _) => true
                    | _ => false
                    end) GROUP_BY.

(** ** update_glycemic_index.py: update_database_gi, the SELECT and the loop

    The UPDATE after the loop computes in SQL and is not modelled, nor are
    the statistics that follow it. *)

(** What [sqlite3] hands back for a stored value. *)
Definition fetched (v : option Sqlite.value) : pyval :=
  match v with
  | None => PNone
  | Some (Sqlite.Integer z) => PNum (PyNum.PyInt z)
  | Some (Sqlite.Real f) => PNum (PyNum.PyFloat f)
  | Some (Sqlite.Text s) => PStr s
  end.

(** [WHERE glycemic_index IS NULL OR glycemic_index = 0] *)
Definition without_gi (r : gmap string Sqlite.value) : bool :=
  match r !! "glycemic_index" with
  | None => true
  | Some v => Sqlite.value_eqb v (Sqlite.Integer 0)
  end.

(** [SELECT id, name, total_carbohydrate_g, glycemic_index ...] and
    [fetchall()]; the loop does not read the fourth column. *)
Definition food_to_update (r : gmap string Sqlite.value) : pyval * pyval * pyval :=
  (fetched (r !! "id"), fetched (r !! "name"), fetched (r !! "total_carbohydrate_g")).

Definition foods_to_update (t : Sqlite.table) : list (pyval * pyval * pyval) :=
  map food_to_update (List.filter without_gi (Sqlite.rows t)).

(** [find_gi_for_food(name)] on a fetched value: what is falsy returns
    [None], and only a str has [.lower()]. *)
Definition call_find_gi_for_food (name : pyval) : outcome (option Z) :=
  if negb (truthy name) then Return None
  else
    match name with
    | PStr s => Return (find_gi_for_food (Some s))
    | _ => Raise AttributeError
    end.

(** [calculate_glycemic_load(gi_value, carbs)] on a fetched value: an int
    times a str is a str, which cannot be divided. *)
Definition call_calculate_glycemic_load (gi_value : Z) (carbs : pyval) : outcome pyval :=
  match carbs with
  | PNone => Return PNone
  | PNum n =>
      load ← calculate_glycemic_load (Some (PyNum.PyInt gi_value)) (Some n);
      Return (match load with Some f => PNum (PyNum.PyFloat f) | None => PNone end)
  | _ => Raise TypeError
  end.

(** [gl_value = None; if carbs: gl_value = calculate_glycemic_load(...)] *)
Definition gl_value_of (gi_value : Z) (carbs : pyval) : outcome pyval :=
  if truthy carbs then call_calculate_glycemic_load gi_value carbs else Return PNone.

(** One turn of the loop. *)
Definition gi_turn (sch : Sqlite.schema) (food : pyval * pyval * pyval)
    (t : Sqlite.table) : outcome Sqlite.table :=
  let '(food_id, name, carbs) := food in
  gi_value ← call_find_gi_for_food name;
  match gi_value with
  | None => Return t
  | Some gi =>
      gl_value ← gl_value_of gi carbs;
      cols ← bind_all (list_to_map [("glycemic_index", PNum (PyNum.PyInt gi));
                                    ("glycemic_load", gl_value)]%string);
      id ← bind_param food_id;
      Sqlite.update sch (fun r => Sqlite.sql_eq (r !! "id") id) cols t
  end.

Fixpoint gi_turns (sch : Sqlite.schema) (foods : list (pyval * pyval * pyval))
    (t : Sqlite.table) : outcome Sqlite.table :=
  match foods with
  | [] => Return t
  | food :: rest =>
      t' ← gi_turn sch food t;
      gi_turns sch rest t'
  end.

Definition update_database_gi (sch : Sqlite.schema) (t : Sqlite.table)
  : outcome Sqlite.table :=
  gi_turns sch (foods_to_update t) t.

(** A row as the column types of [foods] make it: a 64-bit rowid, a text
    name, and a float or NULL as carbohydrates. *)
Definition typed_row (r : gmap string Sqlite.value) : bool :=
  match r !! "id", r !! "name" with
  | Some (Sqlite.Integer n), Some (Sqlite.Text _) =>
      (- 2 ^ 63 <=? n) && (n <? 2 ^ 63) &&
      match r !! "total_carbohydrate_g" with
      | None | Some (Sqlite.Real _) => true
      | _ => false
      end
  | _, _ => false
  end.

(** The row the UPDATE of a turn makes of [r]. *)
Definition gi_updated (gi : Z) (gl : pyval) (r : gmap string Sqlite.value)
  : gmap string Sqlite.value :=
  Sqlite.assign
    (bound <$> (list_to_map [("glycemic_index", PNum (PyNum.PyInt gi));
                             ("glycemic_load", gl)]%string : gmap string pyval)) r.

(** What the turn for the selected row [s] makes of a row [r] with the
    rowid of [s], when it goes through. *)
Definition gi_settled (s r r' : gmap string Sqlite.value) : Prop :=
  match call_find_gi_for_food (fetched (s !! "name")) with
  | Return (Some gi) =>
      exists gl, gl_value_of gi (fetched (s !! "total_carbohydrate_g")) = Return gl /\
                 r' = gi_updated gi gl r
  | _ => r' = r
  end.

(** ** The search terms of a record *)

(** The words a value contributes to the search terms: those of its
    lowercase form for a str, none for [None]. *)
Definition words_of (v : pyval) : list string :=
  match v with
  | PStr s => PyStr.split (PyStr.lower s)
  | _ => []
  end.

Definition text_or_none (v : pyval) : bool :=
  match v with
  | PNone | PStr _ => true
  | _ => false
  end.
(** The left-most variable of a boolean condition. *)
Ltac head_bool c :=
  lazymatch c with
  | orb ?a _ => head_bool a
  | andb ?a _ => head_bool a
  | negb ?a => head_bool a
  | _ => c
  end.

(** Decide the condition the chain on the left is about to test. *)
Ltac chain_step :=
  lazymatch goal with
  | |- (if ?c then _ else _) = _ =>
      let v := head_bool c in
      destruct v; cbn [orb andb negb fmap option_fmap option_map snd]
  end.

Lemma special_cases_rules (food_lower : string) :
  special_cases food_lower = GISpec.category_fallback food_lower.
Proof.
  unfold special_cases, GISpec.category_fallback, GISpec.first_rule, GISpec.FALLBACK_RULES.
  unfold any_in. cbn [List.find fst snd existsb].
  unfold GISpec.has_any, GISpec.both, GISpec.either, GISpec.has, GISpec.lacks.
  cbn [existsb].
  repeat match goal with
  | |- context [PyStr.contains ?t food_lower] =>
      generalize (PyStr.contains t food_lower); intro
  end.
  repeat first [ reflexivity | chain_step ].
Qed.

(** ** The estimator: cascade order, examples, determinism *)
Section EstimatorFacts.

Variable table : list (string * Z).

Lemma word_match_tokenized (words : list string) :
  word_match table words =
  match List.find (fun w => bool_decide (is_Some (dict_get table w))) words with
  | Some w => dict_get table w
  | None => None
  end.
Proof.
  induction words as [|w ws IH]; cbn; [reflexivity|].
  destruct (dict_get table w) as [gi|] eqn:Hw.
  - rewrite bool_decide_eq_true_2 by eauto. now rewrite Hw.
  - rewrite bool_decide_eq_false_2 by (intros [? ?]; discriminate). exact IH.
Qed.

Lemma partial_match_substring (items : list (string * Z)) (food_lower : string) :
  partial_match items food_lower = GISpec.substring_match items food_lower.
Proof.
  unfold GISpec.substring_match, GISpec.first_rule.
  induction items as [|[k v] rest IH]; cbn; [reflexivity|].
  destruct (PyStr.contains k food_lower); [reflexivity | exact IH].
Qed.

(** On a non-empty name the function is the four-stage cascade. *)
Lemma find_gi_in_cascade (name : string) :
  PyStr.is_empty name = false ->
  find_gi_in table (Some name) = GISpec.estimate_gi_in table name.
Proof.
  intros Hne. unfold find_gi_in, GISpec.estimate_gi_in. rewrite Hne.
  cbn [GISpec.first_stage]. unfold GISpec.exact_match, GISpec.tokenized_match.
  rewrite <- word_match_tokenized, <- partial_match_substring, <- special_cases_rules.
  destruct (dict_get table (PyStr.lower name)); [reflexivity|].
  destruct (word_match table (PyStr.split (PyStr.lower name))); [reflexivity|].
  destruct (partial_match table (PyStr.lower name)); [reflexivity|].
  destruct (special_cases (PyStr.lower name)); reflexivity.
Qed.

End EstimatorFacts.

(** C4: the estimator is the cascade exact match, token match, substring
    scan, category rules, each stage and rule tried in that order and the
    first one that matches giving the result; "Taco" gives 52 and
    "Brown Rice Bowl" gives 68. *)
Theorem find_gi_for_food_cascade :
  (forall name : string, find_gi_for_food (Some name) = GISpec.estimate_gi name) /\
  find_gi_for_food (Some "Taco"%string) = Some 52 /\
  find_gi_for_food (Some "Brown Rice Bowl"%string) = Some 68.
Proof.
  split; [|split; vm_compute; reflexivity].
  intros name. destruct (PyStr.is_empty name) eqn:Hne.
  - destruct name; [|discriminate]. vm_compute. reflexivity.
  - now apply find_gi_in_cascade.
Qed.

(** Which stage answers in the two examples: the exact match for "taco",
    the substring scan (key "brown rice") for "brown rice bowl". *)
Lemma taco_stage :
  GISpec.exact_match GLYCEMIC_INDEX_MAP (PyStr.lower "Taco") = Some 52.
Proof. vm_compute. reflexivity. Qed.

Lemma brown_rice_bowl_stage :
  let s := PyStr.lower "Brown Rice Bowl" in
  GISpec.exact_match GLYCEMIC_INDEX_MAP s = None /\
  GISpec.tokenized_match GLYCEMIC_INDEX_MAP s = None /\
  GISpec.substring_match GLYCEMIC_INDEX_MAP s = Some 68 /\
  PyStr.contains "brown rice" s = true.
Proof. vm_compute. repeat split; reflexivity. Qed.

(** C7, as stated: "Frosted Flakes" would be estimated at 74.  It is not. *)
Lemma frosted_flakes_not_74 :
  find_gi_for_food (Some "Frosted Flakes"%string) <> Some 74.
Proof. vm_compute. discriminate. Qed.

(** C7, amended: "Frosted Flakes" has no estimate.  No key of the table is
    the lowercase name, one of its tokens or a substring of it, and no
    category rule applies. *)
Theorem frosted_flakes_unknown :
  let s := PyStr.lower "Frosted Flakes" in
  find_gi_for_food (Some "Frosted Flakes"%string) = None /\
  GISpec.exact_match GLYCEMIC_INDEX_MAP s = None /\
  GISpec.tokenized_match GLYCEMIC_INDEX_MAP s = None /\
  GISpec.substring_match GLYCEMIC_INDEX_MAP s = None /\
  GISpec.category_fallback s = None.
Proof. vm_compute. repeat split; reflexivity. Qed.

(** *** Determinism and the scan order *)

Lemma GLYCEMIC_INDEX_MAP_keys : NoDup (GLYCEMIC_INDEX_MAP.*1).
Proof. apply (bool_decide_unpack _). vm_compute. exact I. Qed.

Lemma dict_get_elem_of {V : Type} (d : list (string * V)) (k : string) (v : V) :
  NoDup (d.*1) -> dict_get d k = Some v <-> (k, v) ∈ d.
Proof.
  induction d as [|[k' v'] d IH]; cbn; intros Hnd.
  - split; [discriminate | intros H; inversion H].
  - apply NoDup_cons in Hnd as [Hk' Hnd]. rewrite elem_of_cons.
    destruct (String.eqb_spec k k') as [->|Hne].
    + split.
      * intros [= ->]. now left.
      * intros [[= ->]|Hin]; [reflexivity|].
        exfalso. apply Hk'. apply (list_elem_of_fmap_2 fst) in Hin. exact Hin.
    + rewrite (IH Hnd). split; [tauto|].
      intros [[= -> ->]|Hin]; [congruence | exact Hin].
Qed.





(** ** The glycemic load calculator *)


(** *** Signs of rounded results

    Rounding a non-negative mantissa never yields NaN, and the result
    carries the sign it was given. *)










Lemma int_to_float_100 :
  PyNum.int_to_float 100 = Return (S754_finite false 7036874417766400 (-46)).
Proof. vm_compute. reflexivity. Qed.




(** *** [float(z)] of a non-zero int is not zero

    Shifting a mantissa right keeps it at or above the power of two it
    started above, so rounding never flushes a value that lies above the
    smallest subnormal. *)
Lemma shr_1_pow (j : Z) (mrs : shr_record) :
  0 <= j -> 2 ^ (j + 1) <= shr_m mrs -> 2 ^ j <= shr_m (shr_1 mrs).
Proof.
  intros Hj. rewrite Z.pow_add_r, Z.pow_1_r by lia.
  assert (0 < 2 ^ j) by (apply Z.pow_pos_nonneg; lia).
  destruct mrs as [m r s]. cbn. destruct m as [|[p|p|]|[p|p|]]; cbn; lia.
Qed.

Lemma iter_shr_pow (p : positive) :
  forall (j : Z) (mrs : shr_record),
    0 <= j -> 2 ^ (j + Z.pos p) <= shr_m mrs ->
    2 ^ j <= shr_m (SpecFloat.iter_pos shr_1 p mrs).
Proof.
  induction p as [p IH|p IH|]; intros j mrs Hj H; cbn [SpecFloat.iter_pos].
  - apply IH; [lia|]. apply IH; [lia|]. apply shr_1_pow; [lia|].
    replace (j + Z.pos p + Z.pos p + 1) with (j + Z.pos p~1) by lia. exact H.
  - apply IH; [lia|]. apply IH; [lia|].
    replace (j + Z.pos p + Z.pos p) with (j + Z.pos p~0) by lia. exact H.
  - now apply shr_1_pow.
Qed.

Lemma digits2_pos_le (m : positive) :
  2 ^ (Z.pos (digits2_pos m) - 1) <= Z.pos m.
Proof.
  induction m as [m IH|m IH|]; cbn [digits2_pos]; [| |cbn; lia].
  - rewrite Pos2Z.inj_succ.
    replace (Z.succ (Z.pos (digits2_pos m)) - 1) with (Z.pos (digits2_pos m) - 1 + 1) by lia.
    rewrite Z.pow_add_r, Z.pow_1_r by lia. lia.
  - rewrite Pos2Z.inj_succ.
    replace (Z.succ (Z.pos (digits2_pos m)) - 1) with (Z.pos (digits2_pos m) - 1 + 1) by lia.
    rewrite Z.pow_add_r, Z.pow_1_r by lia. lia.
Qed.

Lemma shr_fexp_positive (prec emax : Z) (m : positive) (e : Z) (l : location) :
  1 <= prec -> emin prec emax < e + Z.pos (digits2_pos m) ->
  1 <= shr_m (fst (shr_fexp prec emax (Z.pos m) e l)) /\
  emin prec emax <= snd (shr_fexp prec emax (Z.pos m) e l).
Proof.
  intros Hp He. unfold shr_fexp. cbn [Zdigits2].
  set (d := Z.pos (digits2_pos m)) in *.
  assert (Hm : shr_m (shr_record_of_loc (Z.pos m) l) = Z.pos m)
    by (destruct l as [|[| |]]; reflexivity).
  pose proof (digits2_pos_le m) as Hd. fold d in Hd.
  unfold shr. destruct (fexp prec emax (d + e) - e) as [|n|n] eqn:Hn; cbn [fst snd].
  - rewrite Hm. unfold fexp in Hn. lia.
  - split.
    + change 1 with (2 ^ 0). apply iter_shr_pow; [lia|]. rewrite Hm.
      etransitivity; [|exact Hd]. apply Z.pow_le_mono_r; [lia|].
      unfold fexp in Hn. lia.
    + unfold fexp in Hn. lia.
  - rewrite Hm. unfold fexp in Hn. lia.
Qed.

Lemma binary_round_aux_not_zero (prec emax : Z) (s : bool) (m : positive) (e : Z)
    (l : location) :
  1 <= prec -> emin prec emax < e + Z.pos (digits2_pos m) ->
  forall s', binary_round_aux prec emax s (Z.pos m) e l <> S754_zero s'.
Proof.
  intros Hp He s'. unfold binary_round_aux.
  destruct (shr_fexp_positive prec emax m e l Hp He) as [H1 H1e].
  destruct (shr_fexp prec emax (Z.pos m) e l) as [mrs' e']. cbn [fst snd] in H1, H1e.
  assert (H2 : 1 <= round_nearest_even (shr_m mrs') (loc_of_shr_record mrs')).
  { destruct (loc_of_shr_record mrs') as [|[| |]]; cbn; try lia.
    destruct (Z.even (shr_m mrs')); lia. }
  destruct (round_nearest_even (shr_m mrs') (loc_of_shr_record mrs')) as [|m2|m2]; try lia.
  assert (He2 : emin prec emax < e' + Z.pos (digits2_pos m2)) by lia.
  destruct (shr_fexp_positive prec emax m2 e' loc_Exact Hp He2) as [H3 _].
  destruct (shr_fexp prec emax (Z.pos m2) e' loc_Exact) as [mrs'' e'']. cbn [fst] in H3.
  destruct (shr_m mrs'') as [|m3|m3]; try lia.
  destruct (e'' <=? emax - prec); discriminate.
Qed.

Lemma binary_round_not_zero (s : bool) (m : positive) :
  forall s', binary_round 53 1024 s m 0 <> S754_zero s'.
Proof.
  intros s'. unfold binary_round.
  destruct (shl_align m 0 (fexp 53 1024 (Z.pos (digits2_pos m) + 0))) as [mz ez] eqn:Hs.
  apply binary_round_aux_not_zero; [lia|].
  unfold shl_align in Hs.
  assert (0 < Z.pos (digits2_pos mz)) by lia.
  destruct (fexp 53 1024 (Z.pos (digits2_pos m) + 0) - 0) eqn:Hf; injection Hs as <- <-;
    unfold emin, fexp in *; lia.
Qed.

Lemma int_to_float_not_zero (z : Z) (f : spec_float) :
  z <> 0 -> PyNum.int_to_float z = Return f -> PyNum.is_zero f = false.
Proof.
  intros Hz. unfold PyNum.int_to_float, binary_normalize.
  destruct z as [|p|p]; [congruence| |].
  - pose proof (binary_round_not_zero false p) as H.
    change (binary_round PyNum.prec PyNum.emax false p 0)
      with (binary_round 53 1024 false p 0).
    destruct (binary_round 53 1024 false p 0) as [s'| | |]; intros [= <-];
      [now destruct (H s') | reflexivity | reflexivity].
  - pose proof (binary_round_not_zero true p) as H.
    change (binary_round PyNum.prec PyNum.emax true p 0)
      with (binary_round 53 1024 true p 0).
    destruct (binary_round 53 1024 true p 0) as [s'| | |]; intros [= <-];
      [now destruct (H s') | reflexivity | reflexivity].
Qed.

Lemma to_float_raises_overflow (x : PyNum.number) (e : exn) :
  PyNum.to_float x = Raise e -> e = OverflowError.
Proof.
  destruct x as [z|f]; cbn; [|discriminate].
  unfold PyNum.int_to_float. destruct (binary_normalize _ _ _ _ _); congruence.
Qed.

Lemma to_float_not_zero (x : PyNum.number) (f : spec_float) :
  PyNum.eq_zero x = false -> PyNum.to_float x = Return f -> PyNum.is_zero f = false.
Proof.
  destruct x as [z|g]; cbn.
  - intros Hz%Z.eqb_neq. now apply int_to_float_not_zero.
  - now intros Hz [= <-].
Qed.

(** [convert_to_per_100g] never divides by zero. *)
Lemma convert_to_per_100g_no_zero_division (value serving : PyNum.number) :
  convert_to_per_100g value serving <> Raise ZeroDivisionError.
Proof.
  unfold convert_to_per_100g.
  destruct (PyNum.eq_zero serving) eqn:Hz; [discriminate|].
  assert (Hmul : forall r, PyNum.mul value (PyNum.PyFloat hundred) = r ->
            (exists g, r = Return (PyNum.PyFloat g)) \/ r = Raise OverflowError).
  { intros r <-. unfold PyNum.mul.
    destruct value as [a|g]; cbn [PyNum.to_float].
    - destruct (PyNum.int_to_float a) as [fa|e] eqn:Ha; cbn; [eauto|].
      right. f_equal. exact (to_float_raises_overflow (PyNum.PyInt a) e Ha).
    - cbn. eauto. }
  destruct (Hmul _ eq_refl) as [[g ->]| ->]; cbn [mbind outcome_bind]; [|discriminate].
  unfold PyNum.truediv. cbn [PyNum.to_float mbind outcome_bind].
  destruct (PyNum.to_float serving) as [fs|e] eqn:Hs; cbn [mbind outcome_bind].
  - rewrite (to_float_not_zero serving fs Hz Hs). discriminate.
  - rewrite (to_float_raises_overflow serving e Hs). discriminate.
Qed.

(** ** The unit-conversion helpers *)

(** A float never divides by a value that does not compare equal to zero
    with [ZeroDivisionError] when both operands are floats. *)
Lemma convert_to_per_100g_floats (value serving : spec_float) :
  exists r, convert_to_per_100g (PyNum.PyFloat value) (PyNum.PyFloat serving) = Return r.
Proof.
  unfold convert_to_per_100g. cbn [PyNum.eq_zero].
  destruct (PyNum.is_zero serving) eqn:Hz; [eexists; reflexivity|].
  cbn. rewrite Hz. eexists; reflexivity.
Qed.

(** The weight returned is the default or a value of the table. *)
Lemma convert_portion_to_grams_range (s : string) :
  convert_portion_to_grams s = PyNum.PyFloat hundred \/
  exists key, In (key, convert_portion_to_grams s) conversions.
Proof.
  unfold convert_portion_to_grams.
  destruct (dict_get conversions _) as [g|] eqn:Hg; [right | now left].
  exists (PyStr.strip (PyStr.lower s)).
  revert Hg. generalize (PyStr.strip (PyStr.lower s)) as k, conversions as d.
  induction d as [|[k' v'] d IH]; cbn; [discriminate|].
  destruct (String.eqb_spec k k') as [->|_].
  - intros [= ->]. now left.
  - intros H. right. now apply IH.
Qed.

(** C10: [convert_portion_to_grams] answers every string, with the default
    [100.0] whenever the lookup of the lowercased, stripped string misses
    the table; [convert_to_per_100g] returns [0] whenever the serving size
    compares equal to zero, and never raises [ZeroDivisionError]. *)
Theorem unit_conversions_total :
  (forall s : string,
      dict_get conversions (PyStr.strip (PyStr.lower s)) = None ->
      convert_portion_to_grams s = PyNum.PyFloat hundred) /\
  (forall s : string,
      convert_portion_to_grams s = PyNum.PyFloat hundred \/
      exists key, In (key, convert_portion_to_grams s) conversions) /\
  (forall value serving : PyNum.number,
      PyNum.eq_zero serving = true ->
      convert_to_per_100g value serving = Return (PyNum.PyInt 0)) /\
  (forall value serving : PyNum.number,
      convert_to_per_100g value serving <> Raise ZeroDivisionError).
Proof.
  split; [|split; [|split; [|exact convert_to_per_100g_no_zero_division]]].
  - intros s Hs. unfold convert_portion_to_grams. now rewrite Hs.
  - exact convert_portion_to_grams_range.
  - intros value serving Hz. unfold convert_to_per_100g. now rewrite Hz.
Qed.

Lemma unit_conversions_total_witness :
  convert_portion_to_grams "1 cup" = PyNum.PyFloat hundred /\
  convert_to_per_100g (PyNum.PyInt 170) (PyNum.PyFloat (S754_zero false)) =
  Return (PyNum.PyInt 0).
Proof.
  split.
  - apply (proj1 unit_conversions_total "1 cup"%string). vm_compute. reflexivity.
  - apply (proj1 (proj2 (proj2 unit_conversions_total))). vm_compute. reflexivity.
Defined.

(** ** The record store: what re-importing does *)

(** C1, at the input that breaks it: importing the same "Pho 24" item twice
    with [insert_food] leaves two rows with the same identity
    (name, brand, restaurant, source).  [foods] has no UNIQUE constraint, so
    INSERT OR REPLACE finds nothing to replace. *)
Theorem insert_food_reimport_duplicates :
  (t ← insert_food FOODS "2025-01-01 00:00:00" "Pho 24" PHO_TAI Sqlite.empty_table;
   t' ← insert_food FOODS "2025-01-02 00:00:00" "Pho 24" PHO_TAI t;
   Return (identities t', column "id" t')) =
  Return ([[Some (Sqlite.Text "Pho Tai (Rare Beef)"); None;
            Some (Sqlite.Text "Pho 24"); Some (Sqlite.Text "Restaurant Menu Data")];
           [Some (Sqlite.Text "Pho Tai (Rare Beef)"); None;
            Some (Sqlite.Text "Pho 24"); Some (Sqlite.Text "Restaurant Menu Data")]],
          [Some (Sqlite.Integer 1); Some (Sqlite.Integer 2)]).
Proof. vm_compute. reflexivity. Qed.

(** C3, at the input that breaks it: [_insert_food] of the database
    builder, called twice with the same keyword arguments, stores the record
    twice. *)
Theorem ultimate_insert_food_twice_duplicates :
  let kwargs := <["restaurant_name" := PStr "Pho 24"]>
                  (<["data_source" := PStr "Restaurant Menu Data"]> PHO_TAI) in
  (t ← ultimate_insert_food FOODS "2025-01-01 00:00:00" kwargs Sqlite.empty_table;
   t' ← ultimate_insert_food FOODS "2025-01-01 00:00:00" kwargs t;
   Return (length (Sqlite.rows t), length (Sqlite.rows t'), column "name" t')) =
  Return (1%nat, 2%nat, [Some (Sqlite.Text "Pho Tai (Rare Beef)");
                         Some (Sqlite.Text "Pho Tai (Rare Beef)")]).
Proof. vm_compute. reflexivity. Qed.

(** C8, at the input that breaks it: [insert_food] stores a record whose
    name is the empty string, and a name of [None] raises out of the
    function and ends the batch. *)
Theorem insert_food_empty_name_stored :
  (t ← insert_food FOODS "2025-01-01 00:00:00" "Pho 24"
         (<["name" := PStr ""]> PHO_TAI) Sqlite.empty_table;
   Return (column "name" t, column "calories" t)) =
  Return ([Some (Sqlite.Text "")], [Some (Sqlite.Integer 480)]) /\
  import_restaurants FOODS "2025-01-01 00:00:00"
    [("Pho 24"%string, [<["name" := PNone]> PHO_TAI; PHO_TAI])] Sqlite.empty_table =
  Raise AttributeError.
Proof. split; vm_compute; reflexivity. Qed.

(** C2, as stated: [B] supplies only the name and new calories; after the
    first import of "Barbacoa" (170 calories) and the import of [B] the row
    would hold 175.  [B] lacks the other keys, is rejected whole, and the
    row keeps 170. *)
Lemma partial_reimport_not_merged :
  let B : gmap string pyval :=
    list_to_map [("item_name", PStr "Barbacoa"); ("calories", PNum (PyNum.PyInt 175))]%string in
  (t ← chipotle_item FOODS "c" "2025-01-01T00:00:00" BARBACOA Sqlite.empty_table;
   t' ← chipotle_item FOODS "c" "2025-01-02T00:00:00" B t;
   Return (column "name" t', column "calories" t')) =
  Return ([Some (Sqlite.Text "Barbacoa")], [Some (Sqlite.Integer 170)]).
Proof. vm_compute. reflexivity. Qed.

(** The sibling table: under its UNIQUE constraint INSERT OR REPLACE does
    keep one row per identity, the later write winning, as long as no
    identity column is NULL; the tuples of [overrides] have no brand and no
    restaurant, and NULLs never conflict. *)
Lemma nutrients_unique_replaces :
  let branded := <[1%nat := PStr "Chiquita"]> (<[2%nat := PStr "Market"]> BANANA) in
  (t ← add_manual_override "1" branded Sqlite.empty_table;
   t' ← add_manual_override "2" (<[3%nat := PNum (PyNum.PyInt 90)]> branded) t;
   Return (map nutrient_identity (Sqlite.rows t'), column "kcal_per_100g" t')) =
  Return ([[Some (Sqlite.Text "Banana"); Some (Sqlite.Text "Chiquita");
            Some (Sqlite.Text "Market"); Some (Sqlite.Text "Manual")]],
          [Some (Sqlite.Integer 90)]) /\
  (t ← add_manual_override "1" BANANA Sqlite.empty_table;
   t' ← add_manual_override "2" BANANA t;
   Return (map nutrient_identity (Sqlite.rows t'))) =
  Return [[Some (Sqlite.Text "Banana"); None; None; Some (Sqlite.Text "Manual")];
          [Some (Sqlite.Text "Banana"); None; None; Some (Sqlite.Text "Manual")]].
Proof. split; vm_compute; reflexivity. Qed.

(** ** Statements on a table without UNIQUE constraints *)
Section StoreFacts.

Import Sqlite.

Lemma lookup_assign (cols : gmap string (option value)) (old : gmap string value)
    (c : string) :
  assign cols old !! c = match cols !! c with Some v => v | None => old !! c end.
Proof.
  unfold assign. rewrite lookup_merge.
  destruct (cols !! c) as [v|], (old !! c); reflexivity.
Qed.

Lemma fold_max_ge (a : Z) (l : list Z) (n : Z) :
  n ∈ l -> n <= fold_right Z.max a l.
Proof.
  induction l as [|x l IH]; cbn; intros H.
  - inversion H.
  - apply elem_of_cons in H as [->|H]; [lia|]. specialize (IH H). lia.
Qed.

(** The next rowid is above every rowid in the table. *)
Lemma next_rowid_fresh (t : table) (r : gmap string value) (n : Z) :
  r ∈ rows t -> rowid_of r = Some n -> n < next_rowid t.
Proof.
  intros Hr Hn. unfold next_rowid.
  assert (n <= fold_right Z.max (last_rowid t) (omap rowid_of (rows t))); [|lia].
  apply fold_max_ge. apply list_elem_of_omap. eauto.
Qed.

Lemma rowid_of_insert (r : gmap string value) (n : Z) :
  rowid_of (<["id" := Integer n]> r) = Some n.
Proof. unfold rowid_of. now rewrite lookup_insert_eq. Qed.

Lemma fresh_row_no_conflict (sch : schema) (t : table) (r old : gmap string value) :
  uniques sch = [] -> old ∈ rows t ->
  conflicts sch (<["id" := Integer (next_rowid t)]> r) old = false.
Proof.
  intros Hu Hold. unfold conflicts. rewrite Hu, rowid_of_insert. cbn.
  destruct (rowid_of old) as [o|] eqn:Ho; [|reflexivity].
  apply (next_rowid_fresh t old o Hold) in Ho. rewrite orb_false_r. lia.
Qed.

Lemma filter_all {A : Type} (f : A -> bool) (l : list A) :
  (forall x, x ∈ l -> f x = true) -> List.filter f l = l.
Proof.
  induction l as [|x l IH]; cbn; intros H; [reflexivity|].
  rewrite (H x) by apply list_elem_of_here.
  f_equal. apply IH. intros y Hy. apply H. now apply list_elem_of_further.
Qed.

Lemma existsb_none {A : Type} (f : A -> bool) (l : list A) :
  (forall x, x ∈ l -> f x = false) -> existsb f l = false.
Proof.
  induction l as [|x l IH]; cbn; intros H; [reflexivity|].
  rewrite (H x) by apply list_elem_of_here.
  apply IH. intros y Hy. apply H. now apply list_elem_of_further.
Qed.

(** An INSERT that lists no [id], with or without OR REPLACE, either fails
    or appends exactly one row with the next rowid: it never touches a row
    that is there. *)
Lemma insert_appends (or_replace : bool) (sch : schema) (clock : string)
    (cols : gmap string (option value)) (t t' : table) :
  uniques sch = [] ->
  default_row sch clock !! "id" = None ->
  cols !! "id" = None ->
  insert or_replace sch clock cols t = Return t' ->
  t' = Table (rows t ++ [<["id" := Integer (next_rowid t)]>
                           (assign cols (default_row sch clock))])
             (Z.max (last_rowid t) (next_rowid t)).
Proof.
  intros Hu Hd Hid. unfold insert.
  destruct (negb (known_columns sch cols)); [discriminate|].
  rewrite lookup_assign, Hid, Hd.
  destruct (negb (satisfies_not_null sch _)); [discriminate|].
  rewrite existsb_none by (intros old Hold; now apply fresh_row_no_conflict).
  rewrite andb_false_r.
  rewrite filter_all.
  - now intros [= <-].
  - intros old Hold. now rewrite fresh_row_no_conflict.
Qed.

End StoreFacts.

(** ** The importers built on INSERT OR REPLACE *)
Section ImporterFacts.

Variable clock : string.

Lemma FOODS_default_row_id : Sqlite.default_row FOODS clock !! "id" = None.
Proof. reflexivity. Qed.

Lemma FOODS_default_row_name : Sqlite.default_row FOODS clock !! "name" = None.
Proof. reflexivity. Qed.

Lemma bind_all_lookup (params : gmap string pyval)
    (cols : gmap string (option Sqlite.value)) (c : string) :
  bind_all params = Return cols -> cols !! c = bound <$> params !! c.
Proof.
  unfold bind_all. destruct (bool_decide _); [|discriminate].
  intros [= <-]. now rewrite lookup_fmap.
Qed.

(** The shared tail of the four functions leaves the table alone or
    appends one row; with no [id] among the keyword arguments it never
    replaces a row. *)
Lemma insert_columns_appends (kwargs : gmap string pyval) (t : Sqlite.table) :
  kwargs !! "id" = None ->
  insert_columns FOODS clock kwargs t = t \/
  exists cols,
    bind_all (filter (fun kv => is_none kv.2 = false) kwargs) = Return cols /\
    insert_columns FOODS clock kwargs t =
    Sqlite.Table (Sqlite.rows t ++
                    [<["id" := Sqlite.Integer (Sqlite.next_rowid t)]>
                       (Sqlite.assign cols (Sqlite.default_row FOODS clock))])
                 (Z.max (Sqlite.last_rowid t) (Sqlite.next_rowid t)).
Proof.
  intros Hid. unfold insert_columns.
  destruct (bool_decide _); [now left|].
  destruct (bind_all _) as [cols|e] eqn:Hb; cbn; [|now left].
  destruct (Sqlite.insert true FOODS clock cols t) as [t'|e] eqn:Hi; [|now left].
  right. exists cols. split; [reflexivity|].
  apply (insert_appends true FOODS clock cols t t'); try reflexivity; [|exact Hi].
  rewrite (bind_all_lookup _ _ _ Hb), map_lookup_filter, Hid. reflexivity.
Qed.

(** [insert_food] never replaces: whatever is imported, and however often,
    the rows that were there stay and at most one is added. *)
Lemma insert_food_never_replaces (restaurant : string) (kwargs : gmap string pyval)
    (t t' : Sqlite.table) :
  kwargs !! "id" = None ->
  insert_food FOODS clock restaurant kwargs t = Return t' ->
  exists added, Sqlite.rows t' = Sqlite.rows t ++ added /\ (length added <= 1)%nat.
Proof.
  intros Hid. unfold insert_food.
  destruct (terms_of _ _) as [name_terms|e]; cbn; [|discriminate].
  destruct (method_lower _) as [name_lower|e]; cbn; [|discriminate].
  intros [= <-].
  match goal with |- context [insert_columns _ _ ?kw t] =>
    destruct (insert_columns_appends kw t) as [->|(cols & _ & ->)] end.
  - now rewrite !lookup_insert_ne by discriminate.
  - exists []. rewrite app_nil_r. split; [reflexivity | cbn; lia].
  - eexists. split; [reflexivity | cbn; lia].
Qed.

(** A record without a name is rejected by the NOT NULL constraint and the
    import goes on. *)
Lemma insert_food_missing_name_rejected (restaurant : string)
    (kwargs : gmap string pyval) (t : Sqlite.table) :
  kwargs !! "name" = None ->
  insert_food FOODS clock restaurant kwargs t = Return t.
Proof.
  intros Hname. unfold insert_food, terms_of, get_or.
  rewrite !lookup_insert_ne, Hname by discriminate. cbn.
  f_equal. unfold insert_columns.
  destruct (bool_decide _); [reflexivity|].
  destruct (bind_all _) as [cols|e] eqn:Hb; cbn; [|reflexivity].
  assert (Hc : cols !! "name" = None).
  { rewrite (bind_all_lookup _ _ _ Hb), map_lookup_filter.
    now rewrite !lookup_insert_ne, Hname by discriminate. }
  unfold Sqlite.insert.
  destruct (negb (Sqlite.known_columns FOODS cols)); [reflexivity|].
  destruct (Sqlite.assign cols _ !! "id") as [[n|f|s]|]; try reflexivity.
  - unfold Sqlite.satisfies_not_null. cbn [Sqlite.not_null FOODS forallb].
    rewrite lookup_insert_ne, lookup_assign, Hc, FOODS_default_row_name by discriminate.
    reflexivity.
  - unfold Sqlite.satisfies_not_null. cbn [Sqlite.not_null FOODS forallb].
    rewrite lookup_insert_ne, lookup_assign, Hc, FOODS_default_row_name by discriminate.
    reflexivity.
Qed.

End ImporterFacts.

(** ** The OpenFoodFacts importer: records without a name *)

(** A product whose name is missing, is not a str, or is empty once
    stripped, is not imported and the table stays as it was. *)
Lemma import_product_rejects_nameless (sch : Sqlite.schema) (clock : string)
    (product : gmap string pyval) (category : pyval) (t : Sqlite.table) :
  (forall s, get_or product "product_name" (PStr "") = PStr s -> PyStr.strip s = EmptyString) ->
  import_product sch clock product category t = (false, t).
Proof.
  intros H. unfold import_product, import_product_try.
  destruct (get_or product "product_name" (PStr "")) as [|n|s|l|d] eqn:Hn;
    cbn; try reflexivity.
  now rewrite (H s eq_refl).
Qed.

Lemma import_product_missing_name (sch : Sqlite.schema) (clock : string)
    (product : gmap string pyval) (category : pyval) (t : Sqlite.table) :
  product !! "product_name" = None \/ product !! "product_name" = Some (PStr "") ->
  import_product sch clock product category t = (false, t).
Proof.
  intros H. apply import_product_rejects_nameless. unfold get_or.
  destruct H as [-> | ->]; cbn; intros s [= <-]; reflexivity.
Qed.

(** The loop goes on with the next product after a rejected one. *)
Lemma import_products_skips_nameless (sch : Sqlite.schema) (clock : string)
    (limit : Z) (product : gmap string pyval) (rest : list (gmap string pyval))
    (category : pyval) (total_imported : Z) (t : Sqlite.table) :
  product !! "product_name" = None \/ product !! "product_name" = Some (PStr "") ->
  total_imported < limit ->
  import_products sch clock limit (product :: rest) category total_imported t =
  import_products sch clock limit rest category total_imported t.
Proof.
  intros H Hl. cbn [import_products].
  rewrite (import_product_missing_name _ _ _ _ _ H).
  destruct (limit <=? total_imported) eqn:E; [lia | reflexivity].
Qed.

(** ** The Chipotle importer on well-formed records *)

(** A map built from an item list is read like the list. *)
Lemma list_to_map_dict_get {A : Type} (l : list (string * A)) (c : string) :
  (list_to_map l : gmap string A) !! c = dict_get l c.
Proof.
  induction l as [|[k v] l IH]; cbn; [reflexivity|].
  destruct (String.eqb_spec c k) as [->|Hne].
  - apply lookup_insert_eq.
  - rewrite lookup_insert_ne by congruence. exact IH.
Qed.

Lemma dict_get_app {A : Type} (l1 l2 : list (string * A)) (c : string) :
  dict_get (l1 ++ l2) c =
  match dict_get l1 c with Some v => Some v | None => dict_get l2 c end.
Proof.
  induction l1 as [|[k v] l1 IH]; cbn; [reflexivity|].
  destruct (String.eqb c k); [reflexivity | exact IH].
Qed.

Lemma dict_get_None {A : Type} (l : list (string * A)) (c : string) :
  c ∉ l.*1 -> dict_get l c = None.
Proof.
  induction l as [|[k v] l IH]; cbn; intros H; [reflexivity|].
  apply not_elem_of_cons in H as [Hne H].
  destruct (String.eqb_spec c k); [congruence | now apply IH].
Qed.

Lemma bind_all_list (l : list (string * pyval)) :
  Forall (fun kv => is_Some (bound_value kv.2)) l ->
  bind_all (list_to_map l) = Return (bound <$> list_to_map l).
Proof.
  intros H. unfold bind_all. rewrite bool_decide_eq_true_2; [reflexivity|].
  apply map_Forall_lookup. intros k v Hkv.
  apply elem_of_list_to_map_2 in Hkv.
  rewrite Forall_forall in H. exact (H (k, v) Hkv).
Qed.

Lemma read_items_fields (item : gmap string pyval) (fields : list (string * string)) :
  Forall (fun ck => is_Some (item !! ck.2)) fields ->
  read_items item fields = Return (fields_of item fields).
Proof.
  induction fields as [|[c k] fields IH]; cbn; intros H; [reflexivity|].
  apply Forall_cons in H as [[v Hv] H]. cbn in Hv.
  unfold getitem, get_or. rewrite Hv. cbn. rewrite (IH H). reflexivity.
Qed.

Lemma read_items_missing (item : gmap string pyval) (fields : list (string * string))
    (key : string) :
  key ∈ fields.*2 -> item !! key = None -> exists e, read_items item fields = Raise e.
Proof.
  induction fields as [|[c k] fields IH]; cbn; intros Hin Hk.
  - inversion Hin.
  - apply elem_of_cons in Hin as [<-|Hin].
    + unfold getitem. rewrite Hk. cbn. eauto.
    + destruct (getitem item k); cbn; [|eauto].
      destruct (IH Hin Hk) as [e ->]. cbn. eauto.
Qed.

Lemma complete_item_inv (item : gmap string pyval) :
  complete_item item = true ->
  exists name portion tags,
    item !! "item_name" = Some (PStr name) /\
    item !! "portion" = Some (PStr portion) /\
    item !! "tags" = Some (PStrs tags) /\
    Forall (fun ck : string * string =>
              exists v, item !! ck.2 = Some v /\ is_Some (bound_value v))
           CHIPOTLE_NUTRITION.
Proof.
  unfold complete_item.
  destruct (item !! "item_name") as [[| |name| |]|]; try discriminate.
  destruct (item !! "portion") as [[| |portion| |]|]; try discriminate.
  destruct (item !! "tags") as [[| | |tags|]|]; try discriminate.
  intros H. exists name, portion, tags. repeat split.
  rewrite forallb_forall in H. apply Forall_forall. intros ck Hck.
  apply list_elem_of_In in Hck. specialize (H ck Hck).
  destruct (item !! ck.2) as [v|]; [|discriminate].
  exists v. split; [reflexivity|]. now apply bool_decide_eq_true in H.
Qed.

Lemma serving_grams_bindable (s : string) :
  is_Some (bound_value (PNum (convert_portion_to_grams s))).
Proof.
  destruct (convert_portion_to_grams_range s) as [->|[key Hin]].
  - vm_compute. eauto.
  - revert Hin. generalize (convert_portion_to_grams s) as g. intros g Hin.
    cbn in Hin.
    repeat (destruct Hin as [[= <- <-]|Hin]; [vm_compute; eauto|]).
    destruct Hin.
Qed.

Lemma written_of_bindable (item : gmap string pyval) :
  complete_item item = true ->
  Forall (fun kv => is_Some (bound_value kv.2)) (written_of item).
Proof.
  intros (name & portion & tags & _ & _ & _ & Hn)%complete_item_inv.
  unfold written_of. rewrite !Forall_app. repeat split.
  - repeat constructor; cbn [snd]; [cbn; eauto | apply serving_grams_bindable].
  - unfold fields_of. rewrite Forall_map. eapply Forall_impl; [exact Hn|].
    intros [c k] (v & Hv & Hb). cbn in *. unfold get_or. now rewrite Hv.
  - repeat constructor. cbn. eauto.
Qed.

Lemma written_of_read (item : gmap string pyval) :
  complete_item item = true ->
  chipotle_written item (convert_portion_to_grams (str_of item "portion"))
                   (chipotle_search_terms item) = Return (written_of item).
Proof.
  intros (name & portion & tags & Hname & Hp & Ht & Hn)%complete_item_inv.
  unfold chipotle_written, getitem, written_of, str_of. rewrite Hp.
  cbn [mbind outcome_bind].
  rewrite read_items_fields; [reflexivity|].
  eapply Forall_impl; [exact Hn|]. intros ck (v & -> & _). eauto.
Qed.

(** On a well-formed record the step is one UPDATE when a Chipotle row of
    that name exists and one INSERT when none does. *)
Lemma chipotle_item_try_complete (sch : Sqlite.schema) (clock ts : string)
    (item : gmap string pyval) (t : Sqlite.table) :
  complete_item item = true ->
  chipotle_item_try sch clock ts item t =
  let name := Some (Sqlite.Text (str_of item "item_name")) in
  match Sqlite.select_one (chipotle_row name) t with
  | Some _ => Sqlite.update sch (chipotle_row name) (update_cols ts item) t
  | None => Sqlite.insert false sch clock (insert_cols ts item) t
  end.
Proof.
  intros Hc. pose proof (written_of_read item Hc) as Hw.
  pose proof (written_of_bindable item Hc) as Hb.
  destruct (complete_item_inv item Hc) as (name & portion & tags & Hname & Hp & Ht & Hn).
  unfold chipotle_item_try, getitem.
  rewrite Hp, Hname, Ht.
  cbn [mbind outcome_bind call_convert_portion_to_grams method_lower join_comma bind_param
       bound_value].
  assert (Hst : ("chipotle," +:+ PyStr.lower name +:+ "," +:+ PyStr.lower (PyStr.join "," tags))
                = chipotle_search_terms item).
  { unfold chipotle_search_terms, str_of. now rewrite Ht, Hname. }
  assert (Hportion : portion = str_of item "portion") by (unfold str_of; now rewrite Hp).
  assert (Hnm : name = str_of item "item_name") by (unfold str_of; now rewrite Hname).
  rewrite Hst, Hportion, Hw. rewrite Hnm. cbn [mbind outcome_bind].
  destruct (Sqlite.select_one _ t).
  - rewrite bind_all_list; [reflexivity|].
    apply Forall_app. split; [exact Hb|]. repeat constructor; cbn; eauto.
  - rewrite bind_all_list; [reflexivity|].
    apply Forall_app. split; [exact Hb|]. repeat constructor; cbn; eauto.
Qed.

Section ChipotleFacts.

Variable clock : string.

Lemma fields_of_keys (item : gmap string pyval) (fields : list (string * string)) :
  (fields_of item fields).*1 = fields.*1.
Proof. unfold fields_of. induction fields as [|[c k] l IH]; cbn; congruence. Qed.

Lemma written_of_keys (item : gmap string pyval) :
  (written_of item).*1 =
  ["serving_size"; "serving_size_grams"] ++ CHIPOTLE_NUTRITION.*1 ++ ["search_terms"].
Proof. unfold written_of. rewrite !fmap_app, fields_of_keys. reflexivity. Qed.

Lemma known_columns_list {A B : Type} (sch : Sqlite.schema) (f : A -> B)
    (l : list (string * A)) :
  Forall (fun c => c ∈ Sqlite.columns sch) l.*1 ->
  Sqlite.known_columns sch (f <$> (list_to_map l : gmap string A)) = true.
Proof.
  intros H. unfold Sqlite.known_columns. apply bool_decide_eq_true_2.
  apply map_Forall_lookup. intros c b Hc.
  rewrite lookup_fmap in Hc. destruct (list_to_map l !! c) as [a|] eqn:Ha; [|discriminate].
  apply elem_of_list_to_map_2 in Ha. rewrite Forall_forall in H. apply H.
  now apply (list_elem_of_fmap_2 fst) in Ha.
Qed.

Lemma cols_lookup (l : list (string * pyval)) (c : string) :
  (bound <$> (list_to_map l : gmap string pyval)) !! c = bound <$> dict_get l c.
Proof. now rewrite lookup_fmap, list_to_map_dict_get. Qed.

Lemma update_cols_known (ts : string) (item : gmap string pyval) :
  Sqlite.known_columns FOODS (update_cols ts item) = true.
Proof.
  apply known_columns_list. rewrite fmap_app, written_of_keys.
  apply (bool_decide_unpack _). vm_compute. exact I.
Qed.

Lemma insert_cols_known (ts : string) (item : gmap string pyval) :
  Sqlite.known_columns FOODS (insert_cols ts item) = true.
Proof.
  apply known_columns_list. rewrite fmap_app, written_of_keys.
  apply (bool_decide_unpack _). vm_compute. exact I.
Qed.

(** A column outside the SET clause is not assigned by the UPDATE. *)
Lemma update_cols_other (ts : string) (item : gmap string pyval) (c : string) :
  c ∉ CHIPOTLE_UPDATED -> update_cols ts item !! c = None.
Proof.
  intros Hc. unfold update_cols. rewrite cols_lookup, dict_get_None; [reflexivity|].
  rewrite fmap_app, written_of_keys. exact Hc.
Qed.

Lemma written_not_key (item : gmap string pyval) (c : string) :
  c ∉ ["serving_size"; "serving_size_grams"] ++ CHIPOTLE_NUTRITION.*1 ++ ["search_terms"] ->
  dict_get (written_of item) c = None.
Proof. intros H. apply dict_get_None. now rewrite written_of_keys. Qed.

Lemma written_key (item : gmap string pyval) (c : string) (v : pyval) :
  dict_get (written_of item) c = Some v ->
  c ∈ ["serving_size"; "serving_size_grams"] ++ CHIPOTLE_NUTRITION.*1 ++ ["search_terms"].
Proof.
  intros H. destruct (decide (c ∈ ["serving_size"; "serving_size_grams"]
                                  ++ CHIPOTLE_NUTRITION.*1 ++ ["search_terms"])) as [|Hn];
    [assumption|].
  rewrite (written_not_key item c Hn) in H. discriminate.
Qed.

Lemma update_cols_lookup (ts : string) (item : gmap string pyval) (c : string) :
  update_cols ts item !! c =
  match dict_get (written_of item) c with
  | Some v => Some (bound v)
  | None => if String.eqb c "updated_at" then Some (Some (Sqlite.Text ts)) else None
  end.
Proof.
  unfold update_cols. rewrite cols_lookup, dict_get_app.
  destruct (dict_get (written_of item) c); [reflexivity|].
  cbn. destruct (String.eqb c "updated_at"); reflexivity.
Qed.

Lemma insert_cols_written (ts : string) (item : gmap string pyval) (c : string) (v : pyval) :
  dict_get (written_of item) c = Some v -> insert_cols ts item !! c = Some (bound v).
Proof.
  intros H. unfold insert_cols. now rewrite cols_lookup, dict_get_app, H.
Qed.

Lemma insert_cols_tail (ts : string) (item : gmap string pyval) (c : string) :
  c ∉ ["serving_size"; "serving_size_grams"] ++ CHIPOTLE_NUTRITION.*1 ++ ["search_terms"] ->
  insert_cols ts item !! c =
  bound <$> dict_get [("name", PStr (str_of item "item_name"));
                      ("restaurant_name", PStr "Chipotle");
                      ("data_source", PStr "Restaurant");
                      ("category", PStr "Mexican");
                      ("created_at", PStr ts);
                      ("updated_at", PStr ts)] c.
Proof.
  intros H. unfold insert_cols. now rewrite cols_lookup, dict_get_app, written_not_key.
Qed.

Lemma chipotle_insert_ok (ts : string) (item : gmap string pyval) (t : Sqlite.table) :
  Sqlite.insert false FOODS clock (insert_cols ts item) t =
  Return (Sqlite.Table (Sqlite.rows t ++ [inserted_row clock ts item t])
                       (Z.max (Sqlite.last_rowid t) (Sqlite.next_rowid t))).
Proof.
  assert (Hid : insert_cols ts item !! "id" = None).
  { rewrite insert_cols_tail; [reflexivity|]. apply (bool_decide_unpack _). vm_compute. exact I. }
  unfold Sqlite.insert. rewrite insert_cols_known. cbn [negb].
  rewrite lookup_assign, Hid, FOODS_default_row_id.
  assert (Hnn : Sqlite.satisfies_not_null FOODS
            (<["id" := Sqlite.Integer (Sqlite.next_rowid t)]>
               (Sqlite.assign (insert_cols ts item) (Sqlite.default_row FOODS clock))) = true).
  { unfold Sqlite.satisfies_not_null. cbn [Sqlite.not_null FOODS forallb].
    rewrite lookup_insert_ne, lookup_assign by discriminate.
    rewrite insert_cols_tail; [reflexivity|]. apply (bool_decide_unpack _). vm_compute. exact I. }
  rewrite Hnn. cbn [negb andb].
  rewrite existsb_none by (intros old Hold; now apply fresh_row_no_conflict).
  rewrite filter_all; [reflexivity|].
  intros old Hold. now rewrite fresh_row_no_conflict.
Qed.

End ChipotleFacts.

Section ChipotleReimport.

Variable clock : string.

Lemma not_updated_name : "name" ∉ CHIPOTLE_UPDATED.
Proof. apply (bool_decide_unpack _). vm_compute. exact I. Qed.

Lemma not_updated_restaurant : "restaurant_name" ∉ CHIPOTLE_UPDATED.
Proof. apply (bool_decide_unpack _). vm_compute. exact I. Qed.

Lemma chipotle_row_assign (nm : option Sqlite.value)
    (cols : gmap string (option Sqlite.value)) (r : gmap string Sqlite.value) :
  cols !! "name" = None -> cols !! "restaurant_name" = None ->
  chipotle_row nm (Sqlite.assign cols r) = chipotle_row nm r.
Proof.
  intros H1 H2. unfold chipotle_row. now rewrite !lookup_assign, H1, H2.
Qed.

Lemma chipotle_row_update (nm : option Sqlite.value) (ts : string)
    (item : gmap string pyval) (r : gmap string Sqlite.value) :
  chipotle_row nm (Sqlite.assign (update_cols ts item) r) = chipotle_row nm r.
Proof.
  apply chipotle_row_assign; apply update_cols_other;
    [exact not_updated_name | exact not_updated_restaurant].
Qed.

Lemma chipotle_row_has_name (nm : option Sqlite.value) (r : gmap string Sqlite.value) :
  chipotle_row nm r = true -> is_Some (r !! "name").
Proof.
  unfold chipotle_row, Sqlite.sql_eq. destruct (r !! "name"); [eauto | discriminate].
Qed.

(** The UPDATE goes through on any table, rewriting the matching rows. *)
Lemma chipotle_update_ok (nm : option Sqlite.value) (ts : string)
    (item : gmap string pyval) (t : Sqlite.table) :
  Sqlite.update FOODS (chipotle_row nm) (update_cols ts item) t =
  Return (Sqlite.Table
            (map (fun r => if chipotle_row nm r
                           then Sqlite.assign (update_cols ts item) r else r)
                 (Sqlite.rows t))
            (Sqlite.last_rowid t)).
Proof.
  unfold Sqlite.update. rewrite update_cols_known. cbn [negb].
  rewrite existsb_none; [reflexivity|].
  intros r _. destruct (chipotle_row nm r) eqn:Hm; [|reflexivity].
  cbn [andb]. unfold Sqlite.satisfies_not_null. cbn [Sqlite.not_null FOODS forallb].
  rewrite lookup_assign, (update_cols_other _ _ _ not_updated_name).
  rewrite bool_decide_eq_true_2 by (now apply (chipotle_row_has_name nm)).
  reflexivity.
Qed.

Lemma written_not_updated_at (item : gmap string pyval) (c : string) (v : pyval) :
  dict_get (written_of item) c = Some v -> c <> "updated_at" /\ c <> "id".
Proof.
  intros H%written_key. split; intros ->; revert H;
    apply (bool_decide_unpack _); vm_compute; exact I.
Qed.

(** On a row that already holds what the record writes, the UPDATE only
    sets [updated_at]. *)
Lemma assign_again (ts : string) (item : gmap string pyval) (r : gmap string Sqlite.value) :
  (forall c v, dict_get (written_of item) c = Some v -> r !! c = bound v) ->
  Sqlite.assign (update_cols ts item) r = <["updated_at" := Sqlite.Text ts]> r.
Proof.
  intros H. apply map_eq. intros c.
  rewrite lookup_assign, update_cols_lookup.
  destruct (dict_get (written_of item) c) as [v|] eqn:Hc.
  - destruct (written_not_updated_at item c v Hc) as [Hne _].
    rewrite lookup_insert_ne by congruence. symmetry. now apply H.
  - destruct (String.eqb_spec c "updated_at") as [->|Hne].
    + now rewrite lookup_insert_eq.
    + now rewrite lookup_insert_ne by congruence.
Qed.

Lemma updated_row_written (ts : string) (item : gmap string pyval)
    (r : gmap string Sqlite.value) (c : string) (v : pyval) :
  dict_get (written_of item) c = Some v ->
  Sqlite.assign (update_cols ts item) r !! c = bound v.
Proof. intros H. now rewrite lookup_assign, update_cols_lookup, H. Qed.

Lemma inserted_row_written (ts : string) (item : gmap string pyval) (t : Sqlite.table)
    (c : string) (v : pyval) :
  dict_get (written_of item) c = Some v ->
  inserted_row clock ts item t !! c = bound v.
Proof.
  intros H. destruct (written_not_updated_at item c v H) as [_ Hid].
  unfold inserted_row. rewrite lookup_insert_ne by congruence.
  now rewrite lookup_assign, (insert_cols_written ts item c v H).
Qed.

Lemma inserted_row_tail (ts : string) (item : gmap string pyval) (t : Sqlite.table) :
  inserted_row clock ts item t !! "name" = Some (Sqlite.Text (str_of item "item_name")) /\
  inserted_row clock ts item t !! "restaurant_name" = Some (Sqlite.Text "Chipotle") /\
  inserted_row clock ts item t !! "data_source" = Some (Sqlite.Text "Restaurant") /\
  inserted_row clock ts item t !! "category" = Some (Sqlite.Text "Mexican") /\
  inserted_row clock ts item t !! "created_at" = Some (Sqlite.Text ts) /\
  inserted_row clock ts item t !! "updated_at" = Some (Sqlite.Text ts) /\
  inserted_row clock ts item t !! "id" = Some (Sqlite.Integer (Sqlite.next_rowid t)).
Proof.
  unfold inserted_row.
  repeat split;
    try (rewrite lookup_insert_ne, lookup_assign by discriminate;
         rewrite insert_cols_tail;
         [reflexivity | apply (bool_decide_unpack _); vm_compute; exact I]).
  apply lookup_insert_eq.
Qed.

Lemma inserted_row_matches (ts : string) (item : gmap string pyval) (t : Sqlite.table) :
  chipotle_row (Some (Sqlite.Text (str_of item "item_name")))
               (inserted_row clock ts item t) = true.
Proof.
  destruct (inserted_row_tail ts item t) as (Hn & Hr & _).
  unfold chipotle_row. rewrite Hn, Hr. cbn. now rewrite String.eqb_refl.
Qed.

Lemma find_some_exists {A : Type} (f : A -> bool) (l : list A) (x : A) :
  x ∈ l -> f x = true -> exists y, List.find f l = Some y.
Proof.
  intros Hx Hf. destruct (List.find f l) as [y|] eqn:E; [eauto|].
  apply list_elem_of_In in Hx. rewrite (find_none f l E x Hx) in Hf. discriminate.
Qed.

Lemma find_none_all {A : Type} (f : A -> bool) (l : list A) (x : A) :
  List.find f l = None -> x ∈ l -> f x = false.
Proof. intros E Hx. apply (find_none f l E). now apply list_elem_of_In. Qed.

(** The second import of a record into a table whose matching rows hold
    what the record writes: one UPDATE that sets [updated_at] on them. *)
Lemma chipotle_item_settled (ts : string) (item : gmap string pyval) (t : Sqlite.table) :
  complete_item item = true ->
  let nm := Some (Sqlite.Text (str_of item "item_name")) in
  (exists r, r ∈ Sqlite.rows t /\ chipotle_row nm r = true) ->
  (forall r, r ∈ Sqlite.rows t -> chipotle_row nm r = true ->
             forall c v, dict_get (written_of item) c = Some v -> r !! c = bound v) ->
  chipotle_item FOODS clock ts item t =
  Return (Sqlite.Table
            (map (fun r => if chipotle_row nm r
                           then <["updated_at" := Sqlite.Text ts]> r else r)
                 (Sqlite.rows t))
            (Sqlite.last_rowid t)).
Proof.
  intros Hc nm (r0 & Hr0 & Hm0) Hheld.
  unfold chipotle_item. rewrite (chipotle_item_try_complete _ _ _ _ _ Hc). cbn zeta.
  fold nm. destruct (find_some_exists _ _ _ Hr0 Hm0) as [y Hy].
  unfold Sqlite.select_one. rewrite Hy, chipotle_update_ok. do 2 f_equal.
  apply map_ext_in. intros r Hr%list_elem_of_In.
  destruct (chipotle_row nm r) eqn:Hm; [|reflexivity].
  apply assign_again. now apply Hheld.
Qed.

(** Importing a well-formed record once more changes nothing but
    [updated_at]: no row is added, and every row of that name keeps all its
    other columns. *)
Lemma chipotle_item_idempotent (ts1 ts2 : string) (item : gmap string pyval)
    (t t1 : Sqlite.table) :
  complete_item item = true ->
  chipotle_item FOODS clock ts1 item t = Return t1 ->
  chipotle_item FOODS clock ts2 item t1 =
  Return (Sqlite.Table
            (map (fun r => if chipotle_row (Some (Sqlite.Text (str_of item "item_name"))) r
                           then <["updated_at" := Sqlite.Text ts2]> r else r)
                 (Sqlite.rows t1))
            (Sqlite.last_rowid t1)).
Proof.
  intros Hc H1. apply chipotle_item_settled; [exact Hc| |];
    unfold chipotle_item in H1;
    rewrite (chipotle_item_try_complete _ _ _ _ _ Hc) in H1; cbn zeta in H1;
    set (nm := Some (Sqlite.Text (str_of item "item_name"))) in *;
    destruct (Sqlite.select_one (chipotle_row nm) t) as [r0|] eqn:Hsel.
  - rewrite chipotle_update_ok in H1. injection H1 as <-. cbn [Sqlite.rows].
    unfold Sqlite.select_one in Hsel. apply find_some in Hsel as [Hin Hm].
    exists (Sqlite.assign (update_cols ts1 item) r0). split.
    + apply list_elem_of_In, in_map_iff. exists r0. now rewrite Hm.
    + now rewrite chipotle_row_update.
  - rewrite chipotle_insert_ok in H1. injection H1 as <-. cbn [Sqlite.rows].
    exists (inserted_row clock ts1 item t). split.
    + apply elem_of_app. right. apply list_elem_of_here.
    + apply inserted_row_matches.
  - rewrite chipotle_update_ok in H1. injection H1 as <-. cbn [Sqlite.rows].
    intros r' Hr' Hm' c v Hcv.
    apply list_elem_of_In, in_map_iff in Hr' as (r & <- & Hr).
    destruct (chipotle_row nm r) eqn:Hm.
    + now apply updated_row_written.
    + congruence.
  - rewrite chipotle_insert_ok in H1. injection H1 as <-. cbn [Sqlite.rows].
    intros r' Hr' Hm' c v Hcv.
    apply elem_of_app in Hr' as [Hr'|Hr'].
    + rewrite (find_none_all _ _ _ Hsel Hr') in Hm'. discriminate.
    + apply list_elem_of_singleton in Hr' as ->. now apply inserted_row_written.
Qed.

End ChipotleReimport.

Section ChipotleOverwrite.

Variable clock : string.

Lemma written_serving_size (item : gmap string pyval) :
  dict_get (written_of item) "serving_size" = Some (PStr (str_of item "portion")) /\
  dict_get (written_of item) "serving_size_grams" =
    Some (PNum (convert_portion_to_grams (str_of item "portion"))) /\
  dict_get (written_of item) "search_terms" = Some (PStr (chipotle_search_terms item)).
Proof. repeat split; reflexivity. Qed.

Lemma written_nutrition (item : gmap string pyval) (col key : string) :
  (col, key) ∈ CHIPOTLE_NUTRITION ->
  dict_get (written_of item) col = Some (get_or item key PNone).
Proof.
  intros H. unfold CHIPOTLE_NUTRITION in H.
  repeat (apply elem_of_cons in H as [[= -> ->]|H]; [reflexivity|]).
  inversion H.
Qed.

(** First import of [A], then import of [B] under the same name: one row,
    the columns of the SET clause from [B], every other column from [A]. *)
Lemma chipotle_import_then_update (ts1 ts2 : string) (A B : gmap string pyval)
    (t : Sqlite.table) :
  complete_item A = true -> complete_item B = true ->
  str_of A "item_name" = str_of B "item_name" ->
  Sqlite.select_one (chipotle_row (Some (Sqlite.Text (str_of A "item_name")))) t = None ->
  chipotle_item FOODS clock ts1 A t =
    Return (Sqlite.Table (Sqlite.rows t ++ [inserted_row clock ts1 A t])
                         (Z.max (Sqlite.last_rowid t) (Sqlite.next_rowid t))) /\
  chipotle_item FOODS clock ts2 B
    (Sqlite.Table (Sqlite.rows t ++ [inserted_row clock ts1 A t])
                  (Z.max (Sqlite.last_rowid t) (Sqlite.next_rowid t))) =
    Return (Sqlite.Table
              (Sqlite.rows t ++
                 [Sqlite.assign (update_cols ts2 B) (inserted_row clock ts1 A t)])
              (Z.max (Sqlite.last_rowid t) (Sqlite.next_rowid t))).
Proof.
  intros HA HB Hname Hsel. split.
  - unfold chipotle_item. rewrite (chipotle_item_try_complete _ _ _ _ _ HA). cbn zeta.
    now rewrite Hsel, chipotle_insert_ok.
  - unfold chipotle_item. rewrite (chipotle_item_try_complete _ _ _ _ _ HB). cbn zeta.
    rewrite <- Hname.
    set (nm := Some (Sqlite.Text (str_of A "item_name"))) in *.
    set (rA := inserted_row clock ts1 A t).
    assert (HmA : chipotle_row nm rA = true) by apply inserted_row_matches.
    destruct (find_some_exists (chipotle_row nm) (Sqlite.rows t ++ [rA]) rA) as [y Hy];
      [apply elem_of_app; right; apply list_elem_of_here | exact HmA |].
    unfold Sqlite.select_one at 1. cbn [Sqlite.rows]. rewrite Hy.
    rewrite chipotle_update_ok. cbn [Sqlite.rows Sqlite.last_rowid].
    do 2 f_equal. rewrite map_app. cbn [map]. rewrite HmA. f_equal.
    rewrite <- (map_id (Sqlite.rows t)) at 2. apply map_ext_in.
    intros r Hr%list_elem_of_In. now rewrite (find_none_all _ _ _ Hsel Hr).
Qed.

(** A record that lacks one of the keys the importer reads is rejected
    whole: nothing is written, and the loop goes on (the handler needs the
    name to report the record). *)
Lemma chipotle_item_rejects_partial (ts : string) (item : gmap string pyval)
    (key : string) (t : Sqlite.table) :
  key ∈ ["portion"; "tags"] ++ CHIPOTLE_NUTRITION.*2 ->
  item !! key = None ->
  is_Some (item !! "item_name") ->
  chipotle_item FOODS clock ts item t = Return t.
Proof.
  intros Hkey Hnone [nm Hnm].
  assert (Hraise : exists e, chipotle_item_try FOODS clock ts item t = Raise e).
  { unfold chipotle_item_try.
    destruct (getitem item "portion") as [portion|e] eqn:Hp; cbn [mbind outcome_bind]; [|eauto].
    destruct (call_convert_portion_to_grams portion) as [g|e];
      cbn [mbind outcome_bind]; [|eauto].
    destruct (getitem item "item_name") as [item_name|e];
      cbn [mbind outcome_bind]; [|eauto].
    destruct (method_lower item_name) as [name_lower|e]; cbn [mbind outcome_bind]; [|eauto].
    destruct (getitem item "tags") as [tags|e] eqn:Ht; cbn [mbind outcome_bind]; [|eauto].
    destruct (join_comma tags) as [joined|e]; cbn [mbind outcome_bind]; [|eauto].
    destruct (bind_param item_name) as [name|e]; cbn [mbind outcome_bind]; [|eauto].
    assert (Hw : forall g st, exists e, chipotle_written item g st = Raise e).
    { intros g' st. unfold chipotle_written. rewrite Hp. cbn [mbind outcome_bind].
      apply elem_of_cons in Hkey as [->|Hkey];
        [unfold getitem in Hp; rewrite Hnone in Hp; discriminate|].
      apply elem_of_cons in Hkey as [->|Hkey];
        [unfold getitem in Ht; rewrite Hnone in Ht; discriminate|].
      destruct (read_items_missing item CHIPOTLE_NUTRITION key Hkey Hnone) as [e ->].
      cbn. eauto. }
    destruct (Sqlite.select_one _ t);
      destruct (Hw g (("chipotle," +:+ name_lower +:+ "," +:+ PyStr.lower joined))) as [e ->];
      cbn; eauto. }
  destruct Hraise as [e He]. unfold chipotle_item, getitem. now rewrite He, Hnm.
Qed.

(** What [insert_food] stores for a column the record does not supply:
    NULL, unless the function or the schema fills the column. *)
Lemma insert_food_omitted_null (restaurant : string) (kwargs : gmap string pyval)
    (t t' : Sqlite.table) :
  kwargs !! "id" = None ->
  insert_food FOODS clock restaurant kwargs t = Return t' ->
  t' = t \/
  exists new,
    Sqlite.rows t' = Sqlite.rows t ++ [new] /\
    forall col,
      kwargs !! col = None \/ kwargs !! col = Some PNone ->
      col ∉ ["id"; "restaurant_name"; "data_source"; "search_terms";
             "is_raw"; "is_cooked"; "popularity_score"; "created_at"; "updated_at"] ->
      new !! col = None.
Proof.
  intros Hid. unfold insert_food.
  destruct (terms_of _ _) as [name_terms|e]; cbn; [|discriminate].
  destruct (method_lower _) as [name_lower|e]; cbn; [|discriminate].
  intros [= <-].
  match goal with |- context [insert_columns _ _ ?kw0 t] => set (kw := kw0) end.
  assert (Hkw : forall c, c <> "restaurant_name" -> c <> "data_source" ->
                          c <> "search_terms" -> kw !! c = kwargs !! c).
  { intros c ? ? ?. unfold kw. now rewrite !lookup_insert_ne by congruence. }
  clearbody kw.
  destruct (insert_columns_appends clock kw t) as [->|(cols & Hb & ->)].
  - now rewrite Hkw by discriminate.
  - now left.
  - right. eexists. split; [reflexivity|].
    intros col Hcol Hnot.
    assert (Hne : col <> "id" /\ col <> "restaurant_name" /\ col <> "data_source"
                  /\ col <> "search_terms").
    { repeat split; intros ->; apply Hnot;
        apply (bool_decide_unpack _); vm_compute; exact I. }
    destruct Hne as (H1 & H2 & H3 & H4).
    rewrite lookup_insert_ne, lookup_assign, (bind_all_lookup _ _ _ Hb) by congruence.
    rewrite map_lookup_filter, Hkw by congruence.
    assert (Hd : Sqlite.default_row FOODS clock !! col = None).
    { unfold Sqlite.default_row. rewrite list_to_map_dict_get. apply dict_get_None.
      intros Hin. apply Hnot. cbn in Hin.
      repeat (apply elem_of_cons in Hin as [->|Hin];
              [apply (bool_decide_unpack _); vm_compute; exact I|]).
      inversion Hin. }
    destruct Hcol as [-> | ->]; cbn; exact Hd.
Qed.

End ChipotleOverwrite.

(** C2, amended: for two well-formed Chipotle records [A] and [B] of the
    same name, importing [B] after the first import of [A] leaves a single
    row for them; every column of the UPDATE's SET clause holds [B]'s value
    (NULL where [B] gives [None]) and every other column still holds what
    the import of [A] stored.  A record that lacks a key is rejected whole
    and changes nothing.  A column the keyword arguments of [insert_food]
    do not supply is stored as NULL, not as zero. *)
Theorem reimport_overwrites_written_columns (clock ts1 ts2 : string) :
  (forall (A B : gmap string pyval) (t : Sqlite.table),
      complete_item A = true -> complete_item B = true ->
      str_of A "item_name" = str_of B "item_name" ->
      Sqlite.select_one (chipotle_row (Some (Sqlite.Text (str_of A "item_name")))) t = None ->
      exists (rA rAB : gmap string Sqlite.value) (t1 t2 : Sqlite.table),
        chipotle_item FOODS clock ts1 A t = Return t1 /\
        Sqlite.rows t1 = Sqlite.rows t ++ [rA] /\
        chipotle_item FOODS clock ts2 B t1 = Return t2 /\
        Sqlite.rows t2 = Sqlite.rows t ++ [rAB] /\
        rAB !! "serving_size" = Some (Sqlite.Text (str_of B "portion")) /\
        rAB !! "serving_size_grams" =
          bound (PNum (convert_portion_to_grams (str_of B "portion"))) /\
        (forall col key, (col, key) ∈ CHIPOTLE_NUTRITION ->
                         rAB !! col = bound (get_or B key PNone)) /\
        rAB !! "search_terms" = Some (Sqlite.Text (chipotle_search_terms B)) /\
        rAB !! "updated_at" = Some (Sqlite.Text ts2) /\
        (forall c, c ∉ CHIPOTLE_UPDATED -> rAB !! c = rA !! c)) /\
  (forall (item : gmap string pyval) (key : string) (t : Sqlite.table),
      key ∈ ["portion"; "tags"] ++ CHIPOTLE_NUTRITION.*2 ->
      item !! key = None ->
      is_Some (item !! "item_name") ->
      chipotle_item FOODS clock ts2 item t = Return t) /\
  (forall (restaurant : string) (kwargs : gmap string pyval) (t t' : Sqlite.table),
      kwargs !! "id" = None ->
      insert_food FOODS clock restaurant kwargs t = Return t' ->
      t' = t \/
      exists new,
        Sqlite.rows t' = Sqlite.rows t ++ [new] /\
        forall col,
          kwargs !! col = None \/ kwargs !! col = Some PNone ->
          col ∉ ["id"; "restaurant_name"; "data_source"; "search_terms";
                 "is_raw"; "is_cooked"; "popularity_score"; "created_at"; "updated_at"] ->
          new !! col = None).
Proof.
  split; [|split].
  - intros A B t HA HB Hname Hsel.
    destruct (chipotle_import_then_update clock ts1 ts2 A B t HA HB Hname Hsel) as [H1 H2].
    eexists _, _, _, _. split; [exact H1|]. split; [reflexivity|].
    split; [exact H2|]. split; [reflexivity|].
    destruct (written_serving_size B) as (Hs & Hg & Ht).
    split; [exact (updated_row_written ts2 B _ _ _ Hs)|].
    split; [exact (updated_row_written ts2 B _ _ _ Hg)|].
    split; [intros col key Hck;
            exact (updated_row_written ts2 B _ _ _ (written_nutrition B col key Hck))|].
    split; [exact (updated_row_written ts2 B _ _ _ Ht)|].
    split.
    + rewrite lookup_assign, update_cols_lookup. reflexivity.
    + intros c Hc. now rewrite lookup_assign, update_cols_other.
  - intros item key t. apply chipotle_item_rejects_partial.
  - intros restaurant kwargs t t'. apply insert_food_omitted_null.
Qed.

Lemma reimport_overwrites_written_columns_witness :
  exists (rA rAB : gmap string Sqlite.value) (t1 t2 : Sqlite.table),
    chipotle_item FOODS "now" "2025-01-01T00:00:00" BARBACOA Sqlite.empty_table = Return t1 /\
    Sqlite.rows t1 = [rA] /\
    chipotle_item FOODS "now" "2025-01-02T00:00:00"
      (<["calories" := PNum (PyNum.PyInt 175)]> BARBACOA) t1 = Return t2 /\
    Sqlite.rows t2 = [rAB] /\
    rAB !! "calories" = Some (Sqlite.Integer 175) /\
    rAB !! "sodium_mg" = Some (Sqlite.Integer 530) /\
    rAB !! "created_at" = rA !! "created_at".
Proof.
  assert (HA : complete_item BARBACOA = true) by (vm_compute; reflexivity).
  assert (HB : complete_item (<["calories" := PNum (PyNum.PyInt 175)]> BARBACOA) = true)
    by (vm_compute; reflexivity).
  assert (Hname : str_of BARBACOA "item_name" =
                  str_of (<["calories" := PNum (PyNum.PyInt 175)]> BARBACOA) "item_name")
    by (vm_compute; reflexivity).
  assert (Hsel : Sqlite.select_one
                   (chipotle_row (Some (Sqlite.Text (str_of BARBACOA "item_name"))))
                   Sqlite.empty_table = None) by reflexivity.
  destruct (proj1 (reimport_overwrites_written_columns
                     "now" "2025-01-01T00:00:00" "2025-01-02T00:00:00")
              BARBACOA (<["calories" := PNum (PyNum.PyInt 175)]> BARBACOA)
              Sqlite.empty_table HA HB Hname Hsel)
    as (rA & rAB & t1 & t2 & H1 & H2 & H3 & H4 & _ & _ & Hn & _ & _ & Ho).
  exists rA, rAB, t1, t2. repeat split; try assumption.
  - rewrite (Hn "calories" "calories"); [reflexivity|].
    apply (bool_decide_unpack _). vm_compute. exact I.
  - rewrite (Hn "sodium_mg" "sodium_mg"); [reflexivity|].
    apply (bool_decide_unpack _). vm_compute. exact I.
  - apply Ho. apply (bool_decide_unpack _). vm_compute. exact I.
Defined.

(** ** More on the estimator: case, table entries, range *)

Lemma lower_char_idempotent (c : ascii) :
  PyStr.lower_char (PyStr.lower_char c) = PyStr.lower_char c.
Proof. destruct c as [[] [] [] [] [] [] [] []]; reflexivity. Qed.

Lemma lower_idempotent (s : string) : PyStr.lower (PyStr.lower s) = PyStr.lower s.
Proof.
  induction s as [|c s IH]; cbn; [reflexivity|].
  now rewrite lower_char_idempotent, IH.
Qed.

Lemma is_empty_lower (s : string) : PyStr.is_empty (PyStr.lower s) = PyStr.is_empty s.
Proof. destruct s; reflexivity. Qed.

Lemma append_cons (c : ascii) (a b : string) : String c a +:+ b = String c (a +:+ b).
Proof. reflexivity. Qed.

Lemma startswith_app (p x : string) : PyStr.startswith p (p +:+ x) = true.
Proof.
  induction p as [|c p IH]; [reflexivity|].
  rewrite append_cons. simpl. now rewrite Ascii.eqb_refl.
Qed.

Lemma contains_prefix (p x : string) : PyStr.contains p (p +:+ x) = true.
Proof.
  assert (H : forall y, PyStr.startswith p y = true -> PyStr.contains p y = true).
  { intros y Hy. destruct y; simpl; now rewrite Hy. }
  apply H, startswith_app.
Qed.

Lemma contains_suffix (t a x : string) :
  PyStr.contains t x = true -> PyStr.contains t (a +:+ x) = true.
Proof.
  intros H. induction a as [|c a IH]; [exact H|].
  rewrite append_cons. simpl. rewrite IH. apply orb_true_r.
Qed.

Lemma append_nil_r (s : string) : s +:+ EmptyString = s.
Proof. induction s as [|c s IH]; [reflexivity|]. now rewrite append_cons, IH. Qed.

Lemma append_assoc (a b c : string) : (a +:+ b) +:+ c = a +:+ (b +:+ c).
Proof. induction a as [|x a IH]; [reflexivity|]. now rewrite !append_cons, IH. Qed.

Lemma contains_refl (s : string) : PyStr.contains s s = true.
Proof. rewrite <- (append_nil_r s) at 2. apply contains_prefix. Qed.

(** A token of [s.split()] occurs in [s]. *)
Lemma split_from_contains (s : string) :
  forall (w tok : string),
    tok ∈ PyStr.split_from w s -> PyStr.contains tok (w +:+ s) = true.
Proof.
  induction s as [|c s IH]; intros w tok Hin; cbn [PyStr.split_from] in Hin.
  - destruct (PyStr.is_empty w); [inversion Hin|].
    apply list_elem_of_singleton in Hin as ->. apply contains_prefix.
  - destruct (PyStr.isspace c).
    + destruct (PyStr.is_empty w) eqn:Hw.
      * destruct w; [|discriminate]. change (EmptyString +:+ String c s) with (String c s).
        apply (contains_suffix tok (String c EmptyString) s).
        exact (IH EmptyString tok Hin).
      * apply elem_of_cons in Hin as [->|Hin]; [apply contains_prefix|].
        apply contains_suffix. apply (contains_suffix tok (String c EmptyString) s).
        exact (IH EmptyString tok Hin).
    + specialize (IH _ tok Hin). now rewrite append_assoc in IH.
Qed.

Lemma split_contains (s tok : string) :
  tok ∈ PyStr.split s -> PyStr.contains tok s = true.
Proof. intros H. exact (split_from_contains s EmptyString tok H). Qed.

Lemma dict_get_Some_elem_of {V : Type} (d : list (string * V)) (k : string) (v : V) :
  dict_get d k = Some v -> (k, v) ∈ d.
Proof.
  induction d as [|[k' v'] d IH]; cbn; [discriminate|].
  destruct (String.eqb_spec k k') as [->|_].
  - intros [= ->]. apply list_elem_of_here.
  - intros H. apply list_elem_of_further. now apply IH.
Qed.

Lemma word_match_Some (table : list (string * Z)) (words : list string) (gi : Z) :
  word_match table words = Some gi ->
  exists w, w ∈ words /\ (w, gi) ∈ table.
Proof.
  induction words as [|w ws IH]; cbn; [discriminate|].
  destruct (dict_get table w) as [g|] eqn:Hw.
  - intros [= ->]. exists w. split; [apply list_elem_of_here|].
    now apply dict_get_Some_elem_of.
  - intros H. destruct (IH H) as (w' & Hin & Ht). exists w'. split; [|exact Ht].
    now apply list_elem_of_further.
Qed.

Lemma partial_match_Some (items : list (string * Z)) (s : string) (gi : Z) :
  partial_match items s = Some gi ->
  exists k, (k, gi) ∈ items /\ PyStr.contains k s = true.
Proof.
  induction items as [|[k v] items IH]; cbn; [discriminate|].
  destruct (PyStr.contains k s) eqn:Hk.
  - intros [= ->]. exists k. split; [apply list_elem_of_here | exact Hk].
  - intros H. destruct (IH H) as (k' & Hin & Hc). exists k'. split; [|exact Hc].
    now apply list_elem_of_further.
Qed.

Lemma partial_match_None (items : list (string * Z)) (s : string) (k : string) (v : Z) :
  partial_match items s = None -> (k, v) ∈ items -> PyStr.contains k s = false.
Proof.
  induction items as [|[k' v'] items IH]; cbn; intros H Hin; [inversion Hin|].
  destruct (PyStr.contains k' s) eqn:Hk; [discriminate|].
  apply elem_of_cons in Hin as [[= -> ->]|Hin]; [exact Hk | now apply IH].
Qed.

Lemma GLYCEMIC_INDEX_MAP_nonempty_keys :
  Forall (fun kv : string * Z => PyStr.is_empty kv.1 = false) GLYCEMIC_INDEX_MAP.
Proof. apply (bool_decide_unpack _). vm_compute. exact I. Qed.

Lemma GLYCEMIC_INDEX_MAP_values :
  Forall (fun kv : string * Z => 0 <= kv.2 <= 103) GLYCEMIC_INDEX_MAP.
Proof. apply (bool_decide_unpack _). vm_compute. exact I. Qed.

Lemma FALLBACK_RULES_values :
  Forall (fun v : Z => 0 <= v <= 103) (map snd GISpec.FALLBACK_RULES).
Proof. apply (bool_decide_unpack _). vm_compute. exact I. Qed.

Lemma special_cases_value (s : string) (gi : Z) :
  special_cases s = Some gi -> gi ∈ map snd GISpec.FALLBACK_RULES.
Proof.
  rewrite special_cases_rules. unfold GISpec.category_fallback, GISpec.first_rule.
  destruct (List.find _ _) as [r|] eqn:Hf; [|discriminate].
  intros [= <-]. apply find_some in Hf as [Hin _].
  apply list_elem_of_In. now apply in_map.
Qed.

(** X1: a name that is, letter case aside, a key of the reference table is
    estimated at the value the table gives that key. *)
Theorem table_entry_estimate (name key : string) (value : Z) :
  (key, value) ∈ GLYCEMIC_INDEX_MAP ->
  PyStr.lower name = key ->
  find_gi_for_food (Some name) = Some value.
Proof.
  intros Hin Hl. unfold find_gi_for_food, find_gi_in.
  pose proof GLYCEMIC_INDEX_MAP_nonempty_keys as Hne.
  rewrite Forall_forall in Hne. specialize (Hne _ Hin). cbn in Hne.
  rewrite <- Hl, is_empty_lower in Hne. rewrite Hne, Hl.
  apply (dict_get_elem_of _ _ _ GLYCEMIC_INDEX_MAP_keys) in Hin. now rewrite Hin.
Qed.

Lemma table_entry_estimate_witness :
  find_gi_for_food (Some "Sweet Potato") = Some 54.
Proof.
  apply (table_entry_estimate "Sweet Potato" "sweet potato" 54); [|reflexivity].
  apply (bool_decide_unpack _). vm_compute. exact I.
Defined.

(** An estimate is a value of the table or of a category rule. *)
Lemma find_gi_for_food_bounds (name : option string) (gi : Z) :
  find_gi_for_food name = Some gi -> 0 <= gi <= 103.
Proof.
  intros H.
  pose proof GLYCEMIC_INDEX_MAP_values as Hv. rewrite Forall_forall in Hv.
  unfold find_gi_for_food, find_gi_in in H.
  destruct name as [name|]; [|discriminate].
  destruct (PyStr.is_empty name); [discriminate|].
  destruct (dict_get _ _) as [g|] eqn:H1.
  { injection H as <-. exact (Hv _ (dict_get_Some_elem_of _ _ _ H1)). }
  destruct (word_match _ _) as [g|] eqn:H2.
  { injection H as <-. destruct (word_match_Some _ _ _ H2) as (w & _ & Hin).
    exact (Hv _ Hin). }
  destruct (partial_match _ _) as [g|] eqn:H3.
  { injection H as <-. destruct (partial_match_Some _ _ _ H3) as (k & Hin & _).
    exact (Hv _ Hin). }
  apply special_cases_value in H.
  pose proof FALLBACK_RULES_values as Hr. rewrite Forall_forall in Hr. now apply Hr.
Qed.

(** X2: an estimate is never negative and never above 103; the table's own
    "dates" reaches 103, above the 0-100 scale. *)
Theorem estimate_range (name : option string) (gi : Z) :
  find_gi_for_food name = Some gi ->
  0 <= gi <= 103 /\ find_gi_for_food (Some "Dates") = Some 103.
Proof.
  intros H. split; [now apply (find_gi_for_food_bounds name) | vm_compute; reflexivity].
Qed.

Lemma estimate_range_witness :
  0 <= 52 <= 103 /\ find_gi_for_food (Some "Dates") = Some 103.
Proof. apply (estimate_range (Some "Taco") 52). vm_compute. reflexivity. Defined.

(** X3: when a key of the table occurs anywhere in the lowercase name, the
    estimate is the value of a key that occurs in it; the category rules
    are reached only by names that contain no key at all, so the rules
    keyed on words the table also has ("pizza", "taco", "tea", "coffee",
    "fettuccine", ...) never decide. *)
Theorem table_key_shadows_rules (name key : string) (value : Z) :
  (key, value) ∈ GLYCEMIC_INDEX_MAP ->
  PyStr.contains key (PyStr.lower name) = true ->
  exists key' value',
    (key', value') ∈ GLYCEMIC_INDEX_MAP /\
    PyStr.contains key' (PyStr.lower name) = true /\
    find_gi_for_food (Some name) = Some value'.
Proof.
  intros Hin Hc. unfold find_gi_for_food, find_gi_in.
  assert (Hne : PyStr.is_empty name = false).
  { rewrite <- is_empty_lower. destruct (PyStr.lower name); [|reflexivity].
    pose proof GLYCEMIC_INDEX_MAP_nonempty_keys as Hk.
    rewrite Forall_forall in Hk. specialize (Hk _ Hin). cbn in Hk.
    destruct key; [discriminate | discriminate Hc]. }
  rewrite Hne.
  destruct (dict_get _ _) as [g|] eqn:H1.
  { exists (PyStr.lower name), g. split; [now apply dict_get_Some_elem_of|].
    split; [apply contains_refl | reflexivity]. }
  destruct (word_match _ _) as [g|] eqn:H2.
  { destruct (word_match_Some _ _ _ H2) as (w & Hw & Ht).
    exists w, g. split; [exact Ht|]. split; [now apply split_contains | reflexivity]. }
  destruct (partial_match _ _) as [g|] eqn:H3.
  { destruct (partial_match_Some _ _ _ H3) as (k & Ht & Hk).
    exists k, g. repeat split; assumption. }
  rewrite (partial_match_None _ _ _ _ H3 Hin) in Hc. discriminate.
Qed.

Lemma table_key_shadows_rules_witness :
  exists key' value',
    (key', value') ∈ GLYCEMIC_INDEX_MAP /\
    PyStr.contains key' (PyStr.lower "Sweet Tea") = true /\
    find_gi_for_food (Some "Sweet Tea") = Some value'.
Proof.
  apply (table_key_shadows_rules "Sweet Tea" "tea" 0).
  - apply (bool_decide_unpack _). vm_compute. exact I.
  - vm_compute. reflexivity.
Defined.

(** X4: the estimate does not depend on letter case: two names with the
    same lowercase form get the same estimate. *)
Theorem estimate_case_insensitive (a b : string) :
  PyStr.lower a = PyStr.lower b ->
  find_gi_for_food (Some a) = find_gi_for_food (Some b).
Proof.
  intros H. unfold find_gi_for_food, find_gi_in.
  rewrite <- (is_empty_lower a), <- (is_empty_lower b), H. reflexivity.
Qed.

Lemma estimate_case_insensitive_witness :
  find_gi_for_food (Some "BROWN Rice") = find_gi_for_food (Some "brown rice").
Proof. apply estimate_case_insensitive. vm_compute. reflexivity. Defined.

(** ** The restaurant importers over whole batches *)
Section BatchFacts.

Variable clock : string.

(** An INSERT into a table without UNIQUE constraints that lists known
    columns, no [id], and leaves no NOT NULL column empty succeeds. *)
Lemma insert_succeeds (or_replace : bool) (sch : Sqlite.schema)
    (cols : gmap string (option Sqlite.value)) (t : Sqlite.table) :
  Sqlite.uniques sch = [] ->
  Sqlite.default_row sch clock !! "id" = None ->
  cols !! "id" = None ->
  Sqlite.known_columns sch cols = true ->
  Sqlite.satisfies_not_null sch
    (<["id" := Sqlite.Integer (Sqlite.next_rowid t)]>
       (Sqlite.assign cols (Sqlite.default_row sch clock))) = true ->
  Sqlite.insert or_replace sch clock cols t =
  Return (Sqlite.Table
            (Sqlite.rows t ++ [<["id" := Sqlite.Integer (Sqlite.next_rowid t)]>
                                 (Sqlite.assign cols (Sqlite.default_row sch clock))])
            (Z.max (Sqlite.last_rowid t) (Sqlite.next_rowid t))).
Proof.
  intros Hu Hd Hid Hk Hnn. unfold Sqlite.insert. rewrite Hk. cbn [negb].
  rewrite lookup_assign, Hid, Hd, Hnn. cbn [negb].
  rewrite existsb_none by (intros old Hold; now apply fresh_row_no_conflict).
  rewrite andb_false_r, filter_all; [reflexivity|].
  intros old Hold. now rewrite fresh_row_no_conflict.
Qed.

(** The shared tail of the four functions on keyword arguments that are
    columns of [foods] with values [sqlite3] can bind, a name among them:
    one row is appended, whatever the table holds. *)
Lemma insert_columns_stores (kwargs : gmap string pyval) (s : string) (t : Sqlite.table) :
  kwargs !! "name" = Some (PStr s) ->
  kwargs !! "id" = None ->
  map_Forall (fun c v => c ∈ Sqlite.columns FOODS /\ is_Some (bound_value v)) kwargs ->
  insert_columns FOODS clock kwargs t =
  Sqlite.Table
    (Sqlite.rows t ++
       [<["id" := Sqlite.Integer (Sqlite.next_rowid t)]>
          (Sqlite.assign (bound <$> filter (fun kv => is_none kv.2 = false) kwargs)
                         (Sqlite.default_row FOODS clock))])
    (Z.max (Sqlite.last_rowid t) (Sqlite.next_rowid t)).
Proof.
  intros Hname Hid Hall. unfold insert_columns.
  set (columns := filter (fun kv => is_none kv.2 = false) kwargs).
  assert (Hn : columns !! "name" = Some (PStr s)).
  { now apply map_lookup_filter_Some_2. }
  rewrite bool_decide_eq_false_2
    by (intros E; rewrite E, lookup_empty in Hn; discriminate).
  assert (Hb : bind_all columns = Return (bound <$> columns)).
  { unfold bind_all. rewrite bool_decide_eq_true_2; [reflexivity|].
    apply map_Forall_lookup. intros k v [Hkv _]%map_lookup_filter_Some.
    exact (proj2 (Hall k v Hkv)). }
  rewrite Hb. cbn [mbind outcome_bind].
  rewrite insert_succeeds; try reflexivity.
  - rewrite lookup_fmap. unfold columns. now rewrite map_lookup_filter, Hid.
  - unfold Sqlite.known_columns. apply bool_decide_eq_true_2.
    apply map_Forall_lookup. intros k v Hkv. rewrite lookup_fmap in Hkv.
    destruct (columns !! k) as [w|] eqn:Hw; [|discriminate].
    apply map_lookup_filter_Some in Hw as [Hw _]. exact (proj1 (Hall k w Hw)).
  - unfold Sqlite.satisfies_not_null. cbn [Sqlite.not_null FOODS forallb].
    rewrite lookup_insert_ne, lookup_assign, lookup_fmap, Hn by discriminate.
    reflexivity.
Qed.

Lemma get_or_Some (d : gmap string pyval) (key : string) (fallback v : pyval) :
  d !! key = Some v -> get_or d key fallback = v.
Proof. unfold get_or. now intros ->. Qed.

Lemma import_items_appends (restaurant : string) (items : list (gmap string pyval)) :
  forall t t' : Sqlite.table,
    Forall (fun item : gmap string pyval => item !! "id" = None) items ->
    import_items FOODS clock restaurant items t = Return t' ->
    exists added, Sqlite.rows t' = Sqlite.rows t ++ added /\
                  (length added <= length items)%nat.
Proof.
  induction items as [|item items IH]; intros t t' Hid; cbn [import_items].
  - intros [= <-]. exists []. rewrite app_nil_r. split; [reflexivity | cbn; lia].
  - apply Forall_cons in Hid as [Hi Hid].
    unfold call_insert_food. destruct (bool_decide _); [discriminate|].
    destruct (insert_food FOODS clock restaurant item t) as [t1|e] eqn:H1;
      cbn [mbind outcome_bind]; [|discriminate].
    intros H2. destruct (insert_food_never_replaces clock _ _ _ _ Hi H1) as (a1 & E1 & L1).
    destruct (IH t1 t' Hid H2) as (a2 & E2 & L2).
    exists (a1 ++ a2). rewrite E2, E1, <- app_assoc. split; [reflexivity|].
    rewrite length_app. cbn [length]. lia.
Qed.

(** X5: a run of the restaurant import over records that carry no [id]
    never removes or changes a row the table had, INSERT OR REPLACE
    notwithstanding: the rows of before stay in place and at most one row
    per record is added behind them. *)
Theorem import_restaurants_only_appends
    (data : list (string * list (gmap string pyval))) :
  forall t t' : Sqlite.table,
    Forall (fun ri : string * list (gmap string pyval) =>
              Forall (fun item : gmap string pyval => item !! "id" = None) ri.2) data ->
    import_restaurants FOODS clock data t = Return t' ->
    exists added, Sqlite.rows t' = Sqlite.rows t ++ added /\
                  (length added <= length (concat data.*2))%nat.
Proof.
  induction data as [|[restaurant items] data IH]; intros t t' Hid; cbn [import_restaurants].
  - intros [= <-]. exists []. rewrite app_nil_r. split; [reflexivity | cbn; lia].
  - apply Forall_cons in Hid as [Hi Hid]. cbn in Hi.
    destruct (import_items FOODS clock restaurant items t) as [t1|e] eqn:H1;
      cbn [mbind outcome_bind]; [|discriminate].
    intros H2. destruct (import_items_appends _ _ _ _ Hi H1) as (a1 & E1 & L1).
    destruct (IH t1 t' Hid H2) as (a2 & E2 & L2).
    exists (a1 ++ a2). rewrite E2, E1, <- app_assoc. split; [reflexivity|].
    cbn [fmap list_fmap concat]. rewrite !length_app. cbn [snd]. lia.
Qed.

(** X6: a record whose keys are columns of [foods], whose values [sqlite3]
    can bind, with a str as name and no [id], always adds exactly one row,
    whatever the table holds: it gets the next rowid, the name, the
    restaurant, the data source, and every value of the record that is not
    [None]. *)
Theorem insert_food_stores_record (restaurant s : string) (item : gmap string pyval)
    (t : Sqlite.table) :
  item !! "name" = Some (PStr s) ->
  item !! "id" = None ->
  map_Forall (fun c v => c ∈ Sqlite.columns FOODS /\ is_Some (bound_value v)) item ->
  exists r,
    insert_food FOODS clock restaurant item t =
      Return (Sqlite.Table (Sqlite.rows t ++ [r])
                           (Z.max (Sqlite.last_rowid t) (Sqlite.next_rowid t))) /\
    r !! "id" = Some (Sqlite.Integer (Sqlite.next_rowid t)) /\
    r !! "name" = Some (Sqlite.Text s) /\
    r !! "restaurant_name" = Some (Sqlite.Text restaurant) /\
    r !! "data_source" = Some (Sqlite.Text "Restaurant Menu Data") /\
    forall c v, item !! c = Some v -> is_none v = false ->
                c <> "restaurant_name"%string -> c <> "data_source"%string ->
                c <> "search_terms"%string ->
                r !! c = bound v.
Proof.
  intros Hname Hid Hall.
  assert (Hgo : exists terms,
    insert_food FOODS clock restaurant item t =
    Return (insert_columns FOODS clock
              (<["search_terms" := PStr terms]>
                 (<["data_source" := PStr "Restaurant Menu Data"]>
                    (<["restaurant_name" := PStr restaurant]> item))) t)).
  { unfold insert_food, terms_of.
    rewrite !(get_or_Some _ _ _ (PStr s))
      by (now rewrite !lookup_insert_ne by discriminate).
    cbn [method_lower].
    destruct (truthy (PStr s)); cbn [mbind outcome_bind]; eexists; reflexivity. }
  destruct Hgo as [terms ->].
  set (kwargs := <["search_terms" := PStr terms]> _).
  assert (Hk : forall c v, item !! c = Some v -> c <> "restaurant_name"%string ->
                c <> "data_source"%string -> c <> "search_terms"%string ->
                kwargs !! c = Some v).
  { intros c v Hc H1 H2 H3. unfold kwargs. now rewrite !lookup_insert_ne by congruence. }
  rewrite (insert_columns_stores kwargs s t).
  - eexists. split; [reflexivity|].
    split; [now rewrite lookup_insert_eq|].
    assert (Hr : forall c v, kwargs !! c = Some v -> is_none v = false -> c <> "id"%string ->
              (<["id" := Sqlite.Integer (Sqlite.next_rowid t)]>
                 (Sqlite.assign (bound <$> filter (fun kv => is_none kv.2 = false) kwargs)
                                (Sqlite.default_row FOODS clock))) !! c = bound v).
    { intros c v Hc Hv Hne. rewrite lookup_insert_ne, lookup_assign, lookup_fmap by congruence.
      rewrite (map_lookup_filter_Some_2 _ _ _ _ Hc Hv). cbn.
      destruct v; try reflexivity; discriminate. }
    split; [apply (Hr "name"%string (PStr s)); [apply Hk| |];
            first [assumption | reflexivity | discriminate]|].
    split.
    { apply (Hr "restaurant_name"%string (PStr restaurant)); [|reflexivity|discriminate].
      unfold kwargs. rewrite !lookup_insert_ne by discriminate. apply lookup_insert_eq. }
    split.
    { apply (Hr "data_source"%string (PStr "Restaurant Menu Data"));
        [|reflexivity|discriminate].
      unfold kwargs. rewrite !lookup_insert_ne by discriminate. apply lookup_insert_eq. }
    intros c v Hc Hv H1 H2 H3. apply Hr; [now apply Hk | exact Hv | congruence].
  - apply Hk; first [assumption | discriminate].
  - unfold kwargs. now rewrite !lookup_insert_ne by discriminate.
  - unfold kwargs. repeat apply map_Forall_insert_2; try exact Hall;
      (split; [apply (bool_decide_unpack _); vm_compute; exact I | eexists; reflexivity]).
Qed.

(** X7: a record without the key [name] is dropped by the NOT NULL
    constraint and the loop goes on as if it were not there. *)
Theorem import_items_skips_nameless (restaurant : string) (item : gmap string pyval)
    (rest : list (gmap string pyval)) (t : Sqlite.table) :
  item !! "name" = None ->
  item !! "cursor" = None ->
  item !! "restaurant_name" = None ->
  import_items FOODS clock restaurant (item :: rest) t =
  import_items FOODS clock restaurant rest t.
Proof.
  intros Hn Hc Hr. cbn [import_items]. unfold call_insert_food.
  rewrite bool_decide_eq_false_2.
  - now rewrite insert_food_missing_name_rejected.
  - rewrite Hc, Hr. intros [[x Hx]|[x Hx]]; discriminate.
Qed.

(** X8: a record whose [name] is there but is not a str ([None], a
    number, ...) is not skipped: [.lower()] raises outside the [try], the
    AttributeError leaves [insert_food] and ends the whole import before
    its commit. *)
Theorem import_items_name_not_str_aborts (sch : Sqlite.schema) (restaurant : string)
    (item : gmap string pyval) (v : pyval) (rest : list (gmap string pyval))
    (t : Sqlite.table) :
  item !! "name" = Some v ->
  (forall s, v <> PStr s) ->
  item !! "cursor" = None ->
  item !! "restaurant_name" = None ->
  insert_food sch clock restaurant item t = Raise AttributeError /\
  import_items sch clock restaurant (item :: rest) t = Raise AttributeError.
Proof.
  intros Hn Hv Hc Hr.
  assert (H : insert_food sch clock restaurant item t = Raise AttributeError).
  { unfold insert_food, terms_of.
    rewrite !(get_or_Some _ _ _ v)
      by (now rewrite !lookup_insert_ne by discriminate).
    destruct v as [|n|s|l|d]; try (now destruct (Hv s));
      repeat (match goal with |- context [truthy ?x] => destruct (truthy x) end;
              cbn [method_lower mbind outcome_bind]); reflexivity. }
  split; [exact H|].
  cbn [import_items]. unfold call_insert_food.
  rewrite bool_decide_eq_false_2.
  - now rewrite H.
  - rewrite Hc, Hr. intros [[x Hx]|[x Hx]]; discriminate.
Qed.

End BatchFacts.

Lemma import_restaurants_only_appends_witness :
  let data := [("Pho 24"%string, [PHO_TAI; PHO_TAI])] in
  let t := table_of (insert_food FOODS "c" "Pho 24" PHO_TAI Sqlite.empty_table) in
  let t' := table_of (import_restaurants FOODS "c" data t) in
  exists added, Sqlite.rows t' = Sqlite.rows t ++ added /\
                (length added <= length (concat data.*2))%nat.
Proof.
  cbv zeta. apply (import_restaurants_only_appends "c").
  - repeat constructor.
  - vm_compute. reflexivity.
Defined.

Lemma insert_food_stores_record_witness :
  exists r,
    insert_food FOODS "c" "Pho 24" PHO_TAI Sqlite.empty_table =
      Return (Sqlite.Table (Sqlite.rows Sqlite.empty_table ++ [r])
                (Z.max (Sqlite.last_rowid Sqlite.empty_table)
                       (Sqlite.next_rowid Sqlite.empty_table))) /\
    r !! "id" = Some (Sqlite.Integer (Sqlite.next_rowid Sqlite.empty_table)) /\
    r !! "name" = Some (Sqlite.Text "Pho Tai (Rare Beef)") /\
    r !! "restaurant_name" = Some (Sqlite.Text "Pho 24") /\
    r !! "data_source" = Some (Sqlite.Text "Restaurant Menu Data") /\
    forall c v, PHO_TAI !! c = Some v -> is_none v = false ->
                c <> "restaurant_name"%string -> c <> "data_source"%string ->
                c <> "search_terms"%string ->
                r !! c = bound v.
Proof.
  apply (insert_food_stores_record "c" "Pho 24" "Pho Tai (Rare Beef)" PHO_TAI).
  - vm_compute. reflexivity.
  - vm_compute. reflexivity.
  - apply (bool_decide_unpack _). vm_compute. exact I.
Defined.

Lemma import_items_skips_nameless_witness :
  import_items FOODS "c" "Pho 24" [delete "name"%string PHO_TAI; PHO_TAI] Sqlite.empty_table =
  import_items FOODS "c" "Pho 24" [PHO_TAI] Sqlite.empty_table.
Proof.
  apply (import_items_skips_nameless "c" "Pho 24" (delete "name"%string PHO_TAI));
    vm_compute; reflexivity.
Defined.

Lemma import_items_name_not_str_aborts_witness :
  insert_food FOODS "c" "Pho 24" (<["name" := PNone]> PHO_TAI) Sqlite.empty_table
    = Raise AttributeError /\
  import_items FOODS "c" "Pho 24" [<["name" := PNone]> PHO_TAI; PHO_TAI] Sqlite.empty_table
    = Raise AttributeError.
Proof.
  apply (import_items_name_not_str_aborts "c" FOODS "Pho 24" (<["name" := PNone]> PHO_TAI) PNone).
  - vm_compute. reflexivity.
  - intros s. discriminate.
  - vm_compute. reflexivity.
  - vm_compute. reflexivity.
Defined.

(** ** import_openfoodfacts.py: what a product has to bring, and the count *)
Section OpenFoodFactsFacts.

Variable clock : string.

Lemma read_nutriments_dict (d : gmap string pyval) (fields : list (string * string)) :
  read_nutriments (PDict d) fields =
  Return (map (fun ck : string * string => (ck.1, get_or d ck.2 PNone)) fields).
Proof.
  induction fields as [|[c k] fields IH]; [reflexivity|].
  cbn [read_nutriments method_get mbind outcome_bind]. rewrite IH. reflexivity.
Qed.

Lemma read_nutriments_keys (nutriments : pyval) (fields : list (string * string)) :
  forall values, read_nutriments nutriments fields = Return values -> values.*1 = fields.*1.
Proof.
  induction fields as [|[c k] fields IH]; intros values; cbn [read_nutriments].
  - now intros [= <-].
  - destruct (method_get nutriments k) as [v|e]; cbn [mbind outcome_bind]; [|discriminate].
    destruct (read_nutriments nutriments fields) as [more|e];
      cbn [mbind outcome_bind]; [|discriminate].
    intros [= <-]. cbn. f_equal. now apply IH.
Qed.

(** X9: a product whose nutriments give neither the energy nor the
    proteins per 100 g is not imported and not counted, whatever else it
    carries. *)
Theorem import_product_needs_energy_or_protein (sch : Sqlite.schema)
    (product d : gmap string pyval) (category : pyval) (t : Sqlite.table) :
  get_or product "nutriments" (PDict ∅) = PDict d ->
  get_or d "energy-kcal_100g" PNone = PNone ->
  get_or d "proteins_100g" PNone = PNone ->
  import_product sch clock product category t = (false, t).
Proof.
  intros Hn Hc Hp. unfold import_product, import_product_try.
  destruct (method_strip (get_or product "product_name" _)) as [name|e];
    cbn [mbind outcome_bind]; [|reflexivity].
  destruct (PyStr.is_empty name); [reflexivity|].
  destruct (method_strip (get_or product "brands" _)) as [brands|e];
    cbn [mbind outcome_bind]; [|reflexivity].
  rewrite Hn, read_nutriments_dict. cbn [mbind outcome_bind].
  set (g := fun k => get_or d k PNone).
  change (get_or d "energy-kcal_100g" PNone) with (g "energy-kcal_100g"%string) in Hc.
  change (get_or d "proteins_100g" PNone) with (g "proteins_100g"%string) in Hp.
  change (map (fun ck : string * string => (ck.1, get_or d ck.2 PNone)) OFF_NUTRIMENTS)
    with (map (fun ck : string * string => (ck.1, g ck.2)) OFF_NUTRIMENTS).
  clearbody g.
  match goal with |- context [filter ?P (list_to_map ?l)] =>
    set (food_data := filter P (list_to_map l : gmap string pyval));
    assert (H1 : dict_get l "calories" = Some (g "energy-kcal_100g"%string))
      by (vm_compute; reflexivity);
    assert (H2 : dict_get l "protein_g" = Some (g "proteins_100g"%string))
      by (vm_compute; reflexivity);
    assert (Hf : forall c, dict_get l c = Some PNone -> food_data !! c = None)
  end.
  { intros c H. unfold food_data. apply map_lookup_filter_None. right.
    intros x Hx. rewrite list_to_map_dict_get, H in Hx. injection Hx as <-.
    cbn. discriminate. }
  rewrite Hc in H1. rewrite Hp in H2.
  rewrite (Hf _ H1), (Hf _ H2).
  rewrite bool_decide_eq_false_2; [reflexivity|].
  intros [[x Hx]|[x Hx]]; discriminate.
Qed.

Lemma off_insert_food_appends (kwargs : gmap string pyval) (t t' : Sqlite.table) :
  kwargs !! "id" = None ->
  off_insert_food FOODS clock kwargs t = Return t' ->
  exists added, Sqlite.rows t' = Sqlite.rows t ++ added /\ (length added <= 1)%nat.
Proof.
  intros Hid. unfold off_insert_food.
  destruct (terms_of kwargs "name") as [name_terms|e]; cbn [mbind outcome_bind]; [|discriminate].
  destruct (terms_of kwargs "brand_name") as [brand_terms|e];
    cbn [mbind outcome_bind]; [|discriminate].
  intros [= <-].
  match goal with |- context [insert_columns _ _ ?kw t] =>
    destruct (insert_columns_appends clock kw t) as [->|(cols & _ & ->)] end.
  - now rewrite lookup_insert_ne by discriminate.
  - exists []. rewrite app_nil_r. split; [reflexivity | cbn; lia].
  - eexists. split; [reflexivity | cbn; lia].
Qed.

(** A product adds at most one row and touches no other; one that is not
    counted adds none. *)
Lemma import_product_appends (product : gmap string pyval) (category : pyval)
    (t t' : Sqlite.table) (imported : bool) :
  import_product FOODS clock product category t = (imported, t') ->
  exists added, Sqlite.rows t' = Sqlite.rows t ++ added /\
                (length added <= if imported then 1 else 0)%nat.
Proof.
  assert (Hnone : forall b t0, (false, t) = (b, t0) ->
            exists added, Sqlite.rows t0 = Sqlite.rows t ++ added /\
                          (length added <= if b then 1 else 0)%nat).
  { intros b t0 [= <- <-]. exists []. rewrite app_nil_r. split; [reflexivity | cbn; lia]. }
  unfold import_product, import_product_try.
  destruct (method_strip (get_or product "product_name" _)) as [name|e];
    cbn [mbind outcome_bind]; [|apply Hnone].
  destruct (PyStr.is_empty name); [apply Hnone|].
  destruct (method_strip (get_or product "brands" _)) as [brands|e];
    cbn [mbind outcome_bind]; [|apply Hnone].
  destruct (read_nutriments _ OFF_NUTRIMENTS) as [values|e] eqn:Hv;
    cbn [mbind outcome_bind]; [|apply Hnone].
  destruct (bool_decide _); [|apply Hnone].
  match goal with |- context [off_insert_food _ _ ?fd t] =>
    set (food_data := fd) end.
  destruct (off_insert_food FOODS clock food_data t) as [t1|e] eqn:Hi;
    cbn [mbind outcome_bind]; [|apply Hnone].
  intros [= <- <-]. apply (off_insert_food_appends food_data t t1); [|exact Hi].
  unfold food_data. apply map_lookup_filter_None. left.
  apply not_elem_of_list_to_map_1.
  rewrite fmap_app, (read_nutriments_keys _ _ _ Hv).
  apply (bool_decide_unpack _). vm_compute. exact I.
Qed.

(** X10: the count the product loop reports never passes the limit, and
    the table only grows at its end: the rows of before stay as they were
    and at most one row per counted product is added. *)
Theorem import_products_bounded (limit : Z) (category : pyval)
    (products : list (gmap string pyval)) :
  forall (total_imported : Z) (t : Sqlite.table) (n : Z) (t' : Sqlite.table),
    total_imported <= limit ->
    import_products FOODS clock limit products category total_imported t = (n, t') ->
    total_imported <= n <= limit /\
    exists added, Sqlite.rows t' = Sqlite.rows t ++ added /\
                  Z.of_nat (length added) <= n - total_imported.
Proof.
  induction products as [|product rest IH]; intros n0 t n t' Hle; cbn [import_products].
  - intros [= <- <-]. split; [lia|]. exists []. rewrite app_nil_r. cbn. split; [reflexivity | lia].
  - destruct (limit <=? n0) eqn:Hl.
    + intros [= <- <-]. split; [lia|]. exists []. rewrite app_nil_r. cbn.
      split; [reflexivity | lia].
    + apply Z.leb_gt in Hl.
      destruct (import_product FOODS clock product category t) as [imported t1] eqn:H1.
      intros H2. destruct (import_product_appends _ _ _ _ _ H1) as (a1 & E1 & L1).
      apply IH in H2 as (Hn & a2 & E2 & L2); [|destruct imported; lia].
      split; [destruct imported; lia|].
      exists (a1 ++ a2). rewrite E2, E1, <- app_assoc. split; [reflexivity|].
      rewrite length_app. destruct imported; lia.
Qed.

End OpenFoodFactsFacts.

Lemma import_product_needs_energy_or_protein_witness :
  import_product FOODS "c"
    (list_to_map [("product_name", PStr "Spring Water"); ("code", PStr "3057640257773");
                  ("nutriments", PDict (list_to_map [("sodium_100g", PNum (PyNum.PyInt 0))]))]%string)
    (PStr "beverages") Sqlite.empty_table
  = (false, Sqlite.empty_table).
Proof.
  apply (import_product_needs_energy_or_protein "c" FOODS _
           (list_to_map [("sodium_100g", PNum (PyNum.PyInt 0))]%string));
    vm_compute; reflexivity.
Defined.

Lemma import_products_bounded_witness :
  0 <= 1 <= 1 /\
  exists added,
    [<["id" := Sqlite.Integer 1]>
       (Sqlite.assign
          (bound <$> (list_to_map [("name", PStr "Cola"); ("data_source", PStr "OpenFoodFacts");
                                   ("category", PStr "sodas");
                                   ("calories", PNum (PyNum.PyInt 42));
                                   ("search_terms", PStr "cola")]%string : gmap string pyval))
          (Sqlite.default_row FOODS "c"))]
    = Sqlite.rows Sqlite.empty_table ++ added /\
    Z.of_nat (length added) <= 1 - 0.
Proof.
  apply (import_products_bounded "c" 1 (PStr "sodas")
           [list_to_map [("product_name", PStr "Cola");
                         ("nutriments",
                          PDict (list_to_map [("energy-kcal_100g", PNum (PyNum.PyInt 42))]))];
            list_to_map [("product_name", PStr "Lemonade");
                         ("nutriments",
                          PDict (list_to_map [("energy-kcal_100g", PNum (PyNum.PyInt 40))]))]]%string
           0 Sqlite.empty_table 1
           (Sqlite.Table
              [<["id" := Sqlite.Integer 1]>
                 (Sqlite.assign
                    (bound <$> (list_to_map [("name", PStr "Cola");
                                             ("data_source", PStr "OpenFoodFacts");
                                             ("category", PStr "sodas");
                                             ("calories", PNum (PyNum.PyInt 42));
                                             ("search_terms", PStr "cola")]%string
                                : gmap string pyval))
                    (Sqlite.default_row FOODS "c"))] 1)).
  - lia.
  - vm_compute. reflexivity.
Defined.

(** ** add_chipotle_data.py: a whole run of the import *)
Section ChipotleRun.

Variable clock : string.

Lemma chipotle_row_exclusive (s1 s2 : string) (r : gmap string Sqlite.value) :
  s1 <> s2 ->
  chipotle_row (Some (Sqlite.Text s1)) r = true ->
  chipotle_row (Some (Sqlite.Text s2)) r = false.
Proof.
  intros Hne. unfold chipotle_row, Sqlite.sql_eq.
  destruct (r !! "name") as [[z|f|x]|]; cbn; try discriminate.
  destruct (String.eqb_spec x s1) as [->|_]; [|discriminate].
  intros _. destruct (String.eqb_spec s1 s2) as [E|_]; [contradiction | reflexivity].
Qed.

Lemma chipotle_row_is_chipotle (nm : option Sqlite.value) (r : gmap string Sqlite.value) :
  chipotle_row nm r = true -> is_chipotle r = true.
Proof. unfold chipotle_row, is_chipotle. now intros [_ H]%andb_true_iff. Qed.

Lemma is_chipotle_update (ts : string) (item : gmap string pyval)
    (r : gmap string Sqlite.value) :
  is_chipotle (Sqlite.assign (update_cols ts item) r) = is_chipotle r.
Proof.
  unfold is_chipotle.
  now rewrite lookup_assign, (update_cols_other _ _ _ not_updated_restaurant).
Qed.

(** One turn of the loop on a well-formed record: an UPDATE of its rows
    when it has some, else an INSERT. *)
Lemma chipotle_item_step (ts : string) (item : gmap string pyval) (t : Sqlite.table) :
  complete_item item = true ->
  ((exists r0, r0 ∈ Sqlite.rows t /\ rows_of_item item r0 = true) /\
   chipotle_item FOODS clock ts item t =
   Return (Sqlite.Table
             (map (fun r => if rows_of_item item r
                            then Sqlite.assign (update_cols ts item) r else r)
                  (Sqlite.rows t))
             (Sqlite.last_rowid t))) \/
  ((forall r, r ∈ Sqlite.rows t -> rows_of_item item r = false) /\
   chipotle_item FOODS clock ts item t =
   Return (Sqlite.Table (Sqlite.rows t ++ [inserted_row clock ts item t])
                        (Z.max (Sqlite.last_rowid t) (Sqlite.next_rowid t)))).
Proof.
  intros Hc. unfold chipotle_item, rows_of_item.
  rewrite (chipotle_item_try_complete _ _ _ _ _ Hc). cbn zeta.
  destruct (Sqlite.select_one _ t) as [r0|] eqn:Hsel.
  - left. unfold Sqlite.select_one in Hsel. apply find_some in Hsel as [Hin Hm].
    split; [exists r0; split; [now apply list_elem_of_In | exact Hm]|].
    now rewrite chipotle_update_ok.
  - right. split; [intros r Hr; exact (find_none_all _ _ _ Hsel Hr)|].
    now rewrite chipotle_insert_ok.
Qed.

(** What a turn does for its record, for the other records and for the
    rows of other restaurants. *)
Lemma chipotle_item_first (ts : string) (item : gmap string pyval) (t : Sqlite.table) :
  complete_item item = true ->
  exists t',
    chipotle_item FOODS clock ts item t = Return t' /\
    stored item t' /\
    (forall other, str_of other "item_name" <> str_of item "item_name" ->
                   stored other t -> stored other t') /\
    List.filter (fun r => negb (is_chipotle r)) (Sqlite.rows t') =
      List.filter (fun r => negb (is_chipotle r)) (Sqlite.rows t) /\
    (length (Sqlite.rows t) <= length (Sqlite.rows t') <= length (Sqlite.rows t) + 1)%nat.
Proof.
  intros Hc. destruct (chipotle_item_step ts item t Hc) as [[(r0 & Hr0 & Hm0) ->]|[Hnone ->]];
    eexists; (split; [reflexivity|]); cbn [Sqlite.rows].
  - (* UPDATE *)
    set (f := fun r => if rows_of_item item r
                       then Sqlite.assign (update_cols ts item) r else r).
    assert (Hf : forall other r, rows_of_item other (f r) = rows_of_item other r).
    { intros other r. unfold f. destruct (rows_of_item item r); [|reflexivity].
      apply chipotle_row_update. }
    split; [|split; [|split]].
    + split.
      * exists (f r0). split; [apply list_elem_of_In, in_map; now apply list_elem_of_In|].
        now rewrite Hf.
      * intros r' Hr' Hm' c v Hcv.
        apply list_elem_of_In, in_map_iff in Hr' as (r & <- & Hr).
        rewrite Hf in Hm'. unfold f. rewrite Hm'. now apply updated_row_written.
    + intros other Hne [(r1 & Hr1 & Hm1) Hall].
      assert (Hsame : forall r, rows_of_item other r = true -> f r = r).
      { intros r Hm. unfold f, rows_of_item. unfold rows_of_item in Hm.
        now rewrite (chipotle_row_exclusive _ _ r Hne Hm). }
      split.
      * exists r1. split; [|exact Hm1]. rewrite <- (Hsame r1 Hm1).
        apply list_elem_of_In, in_map. now apply list_elem_of_In.
      * intros r' Hr' Hm'.
        apply list_elem_of_In, in_map_iff in Hr' as (r & <- & Hr).
        rewrite Hf in Hm'. rewrite (Hsame r Hm'). apply Hall; [|exact Hm'].
        now apply list_elem_of_In.
    + clear Hr0. induction (Sqlite.rows t) as [|r l IH]; [reflexivity|].
      cbn [map List.filter].
      assert (Hi : is_chipotle (f r) = is_chipotle r).
      { unfold f. destruct (rows_of_item item r); [apply is_chipotle_update | reflexivity]. }
      rewrite Hi. destruct (is_chipotle r) eqn:Hr; cbn [negb].
      * exact IH.
      * unfold f at 1. destruct (rows_of_item item r) eqn:Hm.
        -- apply chipotle_row_is_chipotle in Hm. congruence.
        -- now rewrite IH.
    + rewrite length_map. lia.
  - (* INSERT *)
    set (new := inserted_row clock ts item t).
    assert (Hnew : rows_of_item item new = true) by apply inserted_row_matches.
    split; [|split; [|split]].
    + split.
      * exists new. split; [apply elem_of_app; right; apply list_elem_of_here | exact Hnew].
      * intros r [Hr| ->%list_elem_of_singleton]%elem_of_app Hm.
        -- rewrite (Hnone r Hr) in Hm. discriminate.
        -- intros c v Hcv. now apply inserted_row_written.
    + intros other Hne [(r1 & Hr1 & Hm1) Hall]. split.
      * exists r1. split; [apply elem_of_app; now left | exact Hm1].
      * intros r [Hr| ->%list_elem_of_singleton]%elem_of_app Hm.
        -- now apply Hall.
        -- assert (Hne' : str_of item "item_name" <> str_of other "item_name") by congruence.
           unfold rows_of_item in Hm, Hnew.
           rewrite (chipotle_row_exclusive _ _ new Hne' Hnew) in Hm. discriminate.
    + rewrite List.filter_app. cbn [List.filter].
      rewrite (chipotle_row_is_chipotle _ _ Hnew). cbn [negb]. apply app_nil_r.
    + rewrite length_app. cbn [length]. lia.
Qed.

Lemma chipotle_items_first (ts : string) (data : list (gmap string pyval)) :
  forall t : Sqlite.table,
    Forall (fun item => complete_item item = true) data ->
    NoDup (map (fun item => str_of item "item_name") data) ->
    exists t',
      chipotle_items FOODS clock ts data t = Return t' /\
      Forall (fun item => stored item t') data /\
      (forall other, str_of other "item_name" ∉ map (fun item => str_of item "item_name") data ->
                     stored other t -> stored other t') /\
      List.filter (fun r => negb (is_chipotle r)) (Sqlite.rows t') =
        List.filter (fun r => negb (is_chipotle r)) (Sqlite.rows t) /\
      (length (Sqlite.rows t) <= length (Sqlite.rows t')
       <= length (Sqlite.rows t) + length data)%nat.
Proof.
  induction data as [|item data IH]; intros t Hc Hnd; cbn [chipotle_items].
  - exists t. split; [reflexivity|]. split; [constructor|]. split; [auto|].
    split; [reflexivity | cbn; lia].
  - apply Forall_cons in Hc as [Hi Hc]. cbn [map] in Hnd. apply NoDup_cons in Hnd as [Hni Hnd].
    destruct (chipotle_item_first ts item t Hi) as (t1 & -> & Hs1 & Ho1 & Hf1 & Hl1).
    cbn [mbind outcome_bind].
    destruct (IH t1 Hc Hnd) as (t' & -> & Hs & Ho & Hf & Hl).
    exists t'. split; [reflexivity|]. split; [|split; [|split]].
    + constructor; [now apply Ho | exact Hs].
    + intros other Hn Hst. cbn [map] in Hn. apply not_elem_of_cons in Hn as [Hn1 Hn2].
      apply Ho; [exact Hn2|]. now apply Ho1.
    + now rewrite Hf, Hf1.
    + cbn [length]. lia.
Qed.

Lemma same_but_stored (t t' : Sqlite.table) (item : gmap string pyval) :
  Forall2 (same_but "updated_at") (Sqlite.rows t) (Sqlite.rows t') ->
  stored item t -> stored item t'.
Proof.
  intros H2 [(r0 & Hr0 & Hm0) Hall].
  assert (Hrow : forall r r', same_but "updated_at" r r' ->
            rows_of_item item r' = rows_of_item item r).
  { intros r r' Hs. unfold rows_of_item, chipotle_row.
    now rewrite !Hs by discriminate. }
  split.
  - apply list_elem_of_lookup in Hr0 as [i Hi].
    destruct (Forall2_lookup_l _ _ _ _ _ H2 Hi) as (r' & Hi' & Hs).
    exists r'. split; [now apply list_elem_of_lookup_2 in Hi'|].
    now rewrite (Hrow _ _ Hs).
  - intros r' Hr' Hm' c v Hcv.
    apply list_elem_of_lookup in Hr' as [i Hi'].
    destruct (Forall2_lookup_r _ _ _ _ _ H2 Hi') as (r & Hi & Hs).
    rewrite (Hrow _ _ Hs) in Hm'.
    destruct (written_not_updated_at item c v Hcv) as [Hne _].
    rewrite (Hs c Hne). apply (Hall r); [now apply list_elem_of_lookup_2 in Hi | exact Hm' | exact Hcv].
Qed.

Lemma same_but_map (c0 : string)
    (f : gmap string Sqlite.value -> gmap string Sqlite.value)
    (l : list (gmap string Sqlite.value)) :
  (forall r, same_but c0 r (f r)) -> Forall2 (same_but c0) l (map f l).
Proof. intros H. induction l as [|r l IH]; constructor; [apply H | exact IH]. Qed.

Lemma chipotle_items_again (ts : string) (data : list (gmap string pyval)) :
  forall t : Sqlite.table,
    Forall (fun item => complete_item item = true) data ->
    Forall (fun item => stored item t) data ->
    exists t',
      chipotle_items FOODS clock ts data t = Return t' /\
      Forall2 (same_but "updated_at") (Sqlite.rows t) (Sqlite.rows t') /\
      Sqlite.last_rowid t' = Sqlite.last_rowid t.
Proof.
  induction data as [|item data IH]; intros t Hc Hs; cbn [chipotle_items].
  - exists t. split; [reflexivity|]. split; [|reflexivity].
    rewrite <- (map_id (Sqlite.rows t)) at 2. apply same_but_map.
    intros r c _. reflexivity.
  - apply Forall_cons in Hc as [Hi Hc]. apply Forall_cons in Hs as [[Hex Hall] Hs].
    rewrite (chipotle_item_settled clock ts item t Hi Hex Hall). cbn [mbind outcome_bind].
    set (t1 := Sqlite.Table _ _).
    assert (H1 : Forall2 (same_but "updated_at") (Sqlite.rows t) (Sqlite.rows t1)).
    { unfold t1. cbn [Sqlite.rows]. apply same_but_map.
      intros r c Hne. destruct (chipotle_row _ r); [|reflexivity].
      now rewrite lookup_insert_ne by congruence. }
    destruct (IH t1 Hc) as (t' & -> & H2 & Hl).
    { eapply Forall_impl; [exact Hs|]. intros other Ho. now apply (same_but_stored t t1). }
    exists t'. split; [reflexivity|]. split; [|now rewrite Hl].
    eapply Forall2_trans; [|exact H1|exact H2].
    intros r1 r2 r3 Ha Hb c Hne. now rewrite (Hb c Hne), (Ha c Hne).
Qed.

Lemma CHIPOTLE_DATA_complete :
  Forall (fun item => complete_item item = true) CHIPOTLE_DATA.
Proof. apply (bool_decide_unpack _). vm_compute. exact I. Qed.

Lemma CHIPOTLE_DATA_names :
  NoDup (map (fun item => str_of item "item_name") CHIPOTLE_DATA).
Proof. apply (bool_decide_unpack _). vm_compute. exact I. Qed.


(** X12: the Chipotle import leaves the rows of every other restaurant as
    they were and in their order, and adds at most one row per record of
    [CHIPOTLE_DATA]; it never deletes a row. *)
Theorem add_chipotle_to_database_keeps_others (ts : string) (t : Sqlite.table) :
  exists t',
    add_chipotle_to_database FOODS clock ts (Some t) = Return (true, Some t') /\
    List.filter (fun r => negb (is_chipotle r)) (Sqlite.rows t') =
      List.filter (fun r => negb (is_chipotle r)) (Sqlite.rows t) /\
    (length (Sqlite.rows t) <= length (Sqlite.rows t')
     <= length (Sqlite.rows t) + length CHIPOTLE_DATA)%nat.
Proof.
  destruct (chipotle_items_first ts CHIPOTLE_DATA t CHIPOTLE_DATA_complete CHIPOTLE_DATA_names)
    as (t' & H & _ & _ & Hf & Hl).
  exists t'. unfold add_chipotle_to_database. rewrite H.
  split; [reflexivity|]. split; [exact Hf | exact Hl].
Qed.

(** X13: running the Chipotle import a second time adds no row and changes
    no column but [updated_at]: the table after the second run has the rows
    of the first, one for one, equal in every other column. *)
Theorem add_chipotle_to_database_rerun (ts1 ts2 : string) (t : Sqlite.table) :
  exists t1 t2,
    add_chipotle_to_database FOODS clock ts1 (Some t) = Return (true, Some t1) /\
    add_chipotle_to_database FOODS clock ts2 (Some t1) = Return (true, Some t2) /\
    Forall2 (same_but "updated_at") (Sqlite.rows t1) (Sqlite.rows t2) /\
    Sqlite.last_rowid t2 = Sqlite.last_rowid t1.
Proof.
  destruct (chipotle_items_first ts1 CHIPOTLE_DATA t CHIPOTLE_DATA_complete CHIPOTLE_DATA_names)
    as (t1 & H1 & Hs & _).
  destruct (chipotle_items_again ts2 CHIPOTLE_DATA t1 CHIPOTLE_DATA_complete Hs)
    as (t2 & H2 & Hsame & Hl).
  exists t1, t2. unfold add_chipotle_to_database. rewrite H1, H2.
  repeat split; assumption.
Qed.

(** X23: for any well-formed record and any table [foods], importing the
    record and importing it again leaves, after the second import, the rows
    of the first, one for one, equal in every column but [updated_at]. *)
Theorem chipotle_item_rerun (ts1 ts2 : string) (item : gmap string pyval)
    (t : Sqlite.table) :
  complete_item item = true ->
  exists t1 t2,
    chipotle_item FOODS clock ts1 item t = Return t1 /\
    chipotle_item FOODS clock ts2 item t1 = Return t2 /\
    Forall2 (same_but "updated_at") (Sqlite.rows t1) (Sqlite.rows t2) /\
    Sqlite.last_rowid t2 = Sqlite.last_rowid t1.
Proof.
  intros Hc. destruct (chipotle_item_first ts1 item t Hc) as (t1 & H1 & [Hex Hall] & _).
  exists t1. eexists. split; [exact H1|]. split.
  - exact (chipotle_item_settled clock ts2 item t1 Hc Hex Hall).
  - split; [|reflexivity]. cbn [Sqlite.rows]. apply same_but_map.
    intros r c Hne. destruct (chipotle_row _ r); [|reflexivity].
    now rewrite lookup_insert_ne by congruence.
Qed.

End ChipotleRun.

Lemma chipotle_item_rerun_witness :
  exists t1 t2,
    chipotle_item FOODS "c" "2025-01-01T00:00:00" BARBACOA Sqlite.empty_table = Return t1 /\
    chipotle_item FOODS "c" "2025-01-02T00:00:00" BARBACOA t1 = Return t2 /\
    Forall2 (same_but "updated_at") (Sqlite.rows t1) (Sqlite.rows t2) /\
    Sqlite.last_rowid t2 = Sqlite.last_rowid t1.
Proof.
  apply (chipotle_item_rerun "c" "2025-01-01T00:00:00" "2025-01-02T00:00:00" BARBACOA).
  vm_compute. reflexivity.
Defined.

(** ** build_comprehensive_nutrients_db.py: the UNIQUE constraint and NULL *)

Lemma next_rowid_no_conflict_null (sch : Sqlite.schema) (t : Sqlite.table)
    (r old : gmap string Sqlite.value) :
  Forall (fun key => exists c, c ∈ key /\ c <> "id"%string /\ r !! c = None) (Sqlite.uniques sch) ->
  old ∈ Sqlite.rows t ->
  Sqlite.conflicts sch (<["id" := Sqlite.Integer (Sqlite.next_rowid t)]> r) old = false.
Proof.
  intros Hu Hold. unfold Sqlite.conflicts. rewrite rowid_of_insert.
  apply orb_false_iff. split.
  - destruct (Sqlite.rowid_of old) as [o|] eqn:Ho; [|reflexivity].
    apply (next_rowid_fresh t old o Hold) in Ho. lia.
  - apply existsb_none. intros key Hkey. rewrite Forall_forall in Hu.
    destruct (Hu key Hkey) as (c & Hc & Hne & Hnull).
    unfold Sqlite.same_key. apply not_true_is_false. intros H.
    rewrite forallb_forall in H. specialize (H c (proj1 (list_elem_of_In _ _) Hc)).
    rewrite lookup_insert_ne, Hnull in H by congruence. discriminate.
Qed.

(** X14: the UNIQUE constraint of [nutrients] cannot see an entry that has
    no brand or no restaurant, since NULLs never conflict: INSERT OR REPLACE
    then replaces nothing, and each such manual override is added as one
    more row behind the rows that are there, also when it is there
    already. *)
Theorem manual_override_null_key_appends (clock : string) (data : list pyval)
    (t t' : Sqlite.table) :
  data !! 1%nat = Some PNone \/ data !! 2%nat = Some PNone ->
  add_manual_override clock data t = Return t' ->
  exists r, Sqlite.rows t' = Sqlite.rows t ++ [r] /\
            r !! "food_name" = (data !! 0%nat) ≫= bound.
Proof.
  intros Hnull. unfold add_manual_override.
  destruct (length data =? length MANUAL_OVERRIDE_COLUMNS)%nat eqn:Hlen;
    cbn [negb]; [|discriminate].
  apply Nat.eqb_eq in Hlen.
  do 25 (destruct data as [|? data]; [discriminate Hlen|]).
  destruct data; [|discriminate Hlen]. clear Hlen.
  match goal with |- context [bind_all (list_to_map ?l)] => set (params := l) end.
  destruct (bind_all (list_to_map params)) as [cols|e] eqn:Hb;
    cbn [mbind outcome_bind]; [|discriminate].
  assert (Hcols : forall c, cols !! c = bound <$> dict_get params c).
  { intros c. now rewrite (bind_all_lookup _ _ _ Hb), list_to_map_dict_get. }
  unfold Sqlite.insert.
  destruct (negb (Sqlite.known_columns NUTRIENTS cols)); [discriminate|].
  set (given := Sqlite.assign cols (Sqlite.default_row NUTRIENTS clock)).
  assert (Hgiven : forall c, given !! c =
            match dict_get params c with
            | Some v => bound v
            | None => Sqlite.default_row NUTRIENTS clock !! c
            end).
  { intros c. unfold given. rewrite lookup_assign, Hcols.
    destruct (dict_get params c); reflexivity. }
  rewrite (Hgiven "id"%string).
  change (dict_get params "id") with (@None pyval).
  change (Sqlite.default_row NUTRIENTS clock !! "id") with (@None Sqlite.value).
  destruct (negb (Sqlite.satisfies_not_null NUTRIENTS _)); [discriminate|].
  cbn [andb negb]. intros [= <-]. cbn [Sqlite.rows].
  rewrite filter_all.
  - eexists. split; [reflexivity|].
    rewrite lookup_insert_ne, (Hgiven "food_name"%string) by discriminate. reflexivity.
  - intros old Hold. rewrite next_rowid_no_conflict_null; [reflexivity| |exact Hold].
    repeat constructor. cbn in Hnull. destruct Hnull as [[= ->]|[= ->]].
    + exists "brand_name"%string. split; [apply (bool_decide_unpack _); vm_compute; exact I|].
      split; [discriminate|]. now rewrite (Hgiven "brand_name"%string).
    + exists "restaurant_name"%string. split; [apply (bool_decide_unpack _); vm_compute; exact I|].
      split; [discriminate|]. now rewrite (Hgiven "restaurant_name"%string).
Qed.

Lemma manual_override_null_key_appends_witness :
  let t1 := table_of (add_manual_override "c" BANANA Sqlite.empty_table) in
  let t2 := table_of (add_manual_override "c" BANANA t1) in
  exists r, Sqlite.rows t2 = Sqlite.rows t1 ++ [r] /\
            r !! "food_name" = (BANANA !! 0%nat) ≫= bound.
Proof.
  cbv zeta.
  apply (manual_override_null_key_appends "c" BANANA).
  - left. reflexivity.
  - vm_compute. reflexivity.
Defined.

(** ** The two restaurant importers side by side *)
Section ImporterVariants.

Variable clock : string.

(** X15: on a record whose lowercase name holds none of "pho", "banh mi",
    "bun", "com", the [insert_food] of import_additional_restaurants.py and
    the one of import_expanded_restaurants.py do the same to the table. *)
Theorem insert_food_variants_agree (sch : Sqlite.schema) (restaurant s : string)
    (kwargs : gmap string pyval) (t : Sqlite.table) :
  get_or kwargs "name" (PStr "") = PStr s ->
  existsb (fun term => PyStr.contains term (PyStr.lower s))
          ["pho"; "banh mi"; "bun"; "com"]%string = false ->
  insert_food sch clock restaurant kwargs t =
  expanded_insert_food sch clock restaurant kwargs t.
Proof.
  intros Hn Hv. unfold insert_food, expanded_insert_food.
  destruct (terms_of _ "name") as [name_terms|e]; cbn [mbind outcome_bind]; [|reflexivity].
  assert (Hg : get_or (<["data_source" := PStr "Restaurant Menu Data"]>
                         (<["restaurant_name" := PStr restaurant]> kwargs)) "name" (PStr "")
               = PStr s).
  { unfold get_or in *. now rewrite !lookup_insert_ne by discriminate. }
  rewrite Hg. cbn [method_lower mbind outcome_bind]. now rewrite Hv.
Qed.

(** X16: a record whose [name] is [None] or missing is dropped without an
    error by the [insert_food] of import_expanded_restaurants.py: nothing
    calls [.lower()] on it, and the NOT NULL constraint rejects the row. *)
Theorem expanded_insert_food_none_name_skipped (restaurant : string)
    (kwargs : gmap string pyval) (t : Sqlite.table) :
  kwargs !! "name" = None \/ kwargs !! "name" = Some PNone ->
  expanded_insert_food FOODS clock restaurant kwargs t = Return t.
Proof.
  intros Hname. unfold expanded_insert_food, terms_of.
  assert (Hg : get_or (<["data_source" := PStr "Restaurant Menu Data"]>
                         (<["restaurant_name" := PStr restaurant]> kwargs)) "name" PNone
               = PNone).
  { unfold get_or. rewrite !lookup_insert_ne by discriminate.
    destruct Hname as [-> | ->]; reflexivity. }
  rewrite Hg. cbn [truthy mbind outcome_bind]. f_equal. unfold insert_columns.
  destruct (bool_decide _); [reflexivity|].
  destruct (bind_all _) as [cols|e] eqn:Hb; cbn [mbind outcome_bind]; [|reflexivity].
  assert (Hc : cols !! "name" = None).
  { rewrite (bind_all_lookup _ _ _ Hb), map_lookup_filter.
    rewrite !lookup_insert_ne by discriminate.
    destruct Hname as [-> | ->]; reflexivity. }
  unfold Sqlite.insert.
  destruct (negb (Sqlite.known_columns FOODS cols)); [reflexivity|].
  destruct (Sqlite.assign cols _ !! "id") as [[n|f|x]|]; try reflexivity;
    unfold Sqlite.satisfies_not_null; cbn [Sqlite.not_null FOODS forallb];
    rewrite lookup_insert_ne, lookup_assign, Hc, FOODS_default_row_name by discriminate;
    reflexivity.
Qed.

(** X17: the search terms [insert_food] stores with a well-formed record:
    the words of the lowercase name and the lowercase restaurant name (as
    one term), each once, and "vietnamese" and "asian" exactly when the
    lowercase name holds "pho", "banh mi", "bun" or "com" anywhere, inside
    a word included. *)
Theorem insert_food_search_terms (restaurant s : string) (item : gmap string pyval)
    (t : Sqlite.table) :
  item !! "name" = Some (PStr s) ->
  item !! "id" = None ->
  map_Forall (fun c v => c ∈ Sqlite.columns FOODS /\ is_Some (bound_value v)) item ->
  exists r terms,
    insert_food FOODS clock restaurant item t =
      Return (Sqlite.Table (Sqlite.rows t ++ [r])
                           (Z.max (Sqlite.last_rowid t) (Sqlite.next_rowid t))) /\
    r !! "search_terms" = Some (Sqlite.Text (PyStr.join " " terms)) /\
    NoDup terms /\
    forall w, w ∈ terms <->
      w ∈ PyStr.split (PyStr.lower s) \/ w = PyStr.lower restaurant \/
      (existsb (fun term => PyStr.contains term (PyStr.lower s))
               ["pho"; "banh mi"; "bun"; "com"]%string = true /\
       (w = "vietnamese"%string \/ w = "asian"%string)).
Proof.
  intros Hname Hid Hall.
  set (vietnamese := existsb (fun term => PyStr.contains term (PyStr.lower s))
                             ["pho"; "banh mi"; "bun"; "com"]%string).
  set (words := if truthy (PStr s) then PyStr.split (PyStr.lower s) else []).
  set (search_terms := if vietnamese
                       then (words ++ [PyStr.lower restaurant]) ++ ["vietnamese"; "asian"]%string
                       else words ++ [PyStr.lower restaurant]).
  assert (Hgo : insert_food FOODS clock restaurant item t =
    Return (insert_columns FOODS clock
              (<["search_terms" := PStr (PyStr.join " " (set_elements search_terms))]>
                 (<["data_source" := PStr "Restaurant Menu Data"]>
                    (<["restaurant_name" := PStr restaurant]> item))) t)).
  { unfold insert_food, terms_of.
    rewrite !(get_or_Some _ _ _ (PStr s))
      by (now rewrite !lookup_insert_ne by discriminate).
    cbn [method_lower]. unfold search_terms, words, vietnamese.
    destruct (truthy (PStr s)); cbn [mbind outcome_bind]; reflexivity. }
  rewrite Hgo. set (kwargs := <["search_terms" := _]> _).
  rewrite (insert_columns_stores clock kwargs s t).
  - eexists. exists (set_elements search_terms). split; [reflexivity|].
    split; [|split].
    + rewrite lookup_insert_ne, lookup_assign, lookup_fmap by discriminate.
      rewrite (map_lookup_filter_Some_2 _ _ "search_terms"%string
                 (PStr (PyStr.join " " (set_elements search_terms)))); [reflexivity| |reflexivity].
      apply lookup_insert_eq.
    + apply NoDup_remove_dups.
    + intros w. unfold set_elements. rewrite elem_of_remove_dups.
      assert (Hw : w ∈ words <-> w ∈ PyStr.split (PyStr.lower s)).
      { unfold words. cbn [truthy]. destruct s; [|reflexivity]. reflexivity. }
      unfold search_terms. destruct vietnamese.
      * rewrite !elem_of_app, Hw, list_elem_of_singleton, !elem_of_cons, elem_of_nil.
        intuition congruence.
      * rewrite !elem_of_app, Hw, list_elem_of_singleton. intuition congruence.
  - unfold kwargs. now rewrite !lookup_insert_ne by discriminate.
  - unfold kwargs. now rewrite !lookup_insert_ne by discriminate.
  - unfold kwargs. repeat apply map_Forall_insert_2; try exact Hall;
      (split; [apply (bool_decide_unpack _); vm_compute; exact I | eexists; reflexivity]).
Qed.

End ImporterVariants.

Lemma insert_food_variants_agree_witness :
  insert_food FOODS "c" "Pho 24" (<["name" := PStr "Spring Rolls"]> PHO_TAI) Sqlite.empty_table =
  expanded_insert_food FOODS "c" "Pho 24" (<["name" := PStr "Spring Rolls"]> PHO_TAI)
    Sqlite.empty_table.
Proof.
  apply (insert_food_variants_agree "c" FOODS "Pho 24" "Spring Rolls"); vm_compute; reflexivity.
Defined.

Lemma expanded_insert_food_none_name_skipped_witness :
  expanded_insert_food FOODS "c" "Pho 24" (<["name" := PNone]> PHO_TAI) Sqlite.empty_table =
  Return Sqlite.empty_table.
Proof.
  apply (expanded_insert_food_none_name_skipped "c" "Pho 24" (<["name" := PNone]> PHO_TAI)).
  right. vm_compute. reflexivity.
Defined.

Lemma insert_food_search_terms_witness :
  exists r terms,
    insert_food FOODS "c" "Five Guys" (<["name" := PStr "Bacon Burger Combo"]> PHO_TAI)
      Sqlite.empty_table =
      Return (Sqlite.Table (Sqlite.rows Sqlite.empty_table ++ [r])
                (Z.max (Sqlite.last_rowid Sqlite.empty_table)
                       (Sqlite.next_rowid Sqlite.empty_table))) /\
    r !! "search_terms" = Some (Sqlite.Text (PyStr.join " " terms)) /\
    NoDup terms /\
    forall w, w ∈ terms <->
      w ∈ PyStr.split (PyStr.lower "Bacon Burger Combo") \/ w = PyStr.lower "Five Guys" \/
      (existsb (fun term => PyStr.contains term (PyStr.lower "Bacon Burger Combo"))
               ["pho"; "banh mi"; "bun"; "com"]%string = true /\
       (w = "vietnamese"%string \/ w = "asian"%string)).
Proof.
  apply (insert_food_search_terms "c" "Five Guys" "Bacon Burger Combo"
           (<["name" := PStr "Bacon Burger Combo"]> PHO_TAI)).
  - vm_compute. reflexivity.
  - vm_compute. reflexivity.
  - apply (bool_decide_unpack _). vm_compute. exact I.
Defined.

(** ** optimize_database: one row per name, brand and restaurant *)
Section RemoveDuplicates.

Implicit Types r : gmap string Sqlite.value.
Implicit Types l : list (gmap string Sqlite.value).

Lemma keyed_row_id r : keyed_row r = true -> exists n, Sqlite.rowid_of r = Some n.
Proof.
  unfold keyed_row. intros [H _]%andb_true_iff. apply bool_decide_eq_true in H as [n Hn]. eauto.
Qed.

Lemma same_group_key a b :
  keyed_row a = true -> keyed_row b = true ->
  same_group a b = true <-> group_key a = group_key b.
Proof.
  unfold keyed_row, same_group, group_key, GROUP_BY.
  intros [_ Ha]%andb_true_iff [_ Hb]%andb_true_iff. cbn in *.
  destruct (a !! "name") as [[| |x1]|], (a !! "brand_name") as [[| |x2]|],
           (a !! "restaurant_name") as [[| |x3]|]; try discriminate;
  destruct (b !! "name") as [[| |y1]|], (b !! "brand_name") as [[| |y2]|],
           (b !! "restaurant_name") as [[| |y3]|]; try discriminate; cbn;
  repeat match goal with
         | |- context [String.eqb ?x ?y] => destruct (String.eqb_spec x y) as [->|?]
         end; cbn; split; intros H; try reflexivity; try discriminate; congruence.
Qed.

Lemma sql_min_lower (values : list Z) (m : Z) :
  sql_min values = Some m -> m ∈ values /\ forall k, k ∈ values -> m <= k.
Proof.
  destruct values as [|x rest]; [discriminate|]. cbn. intros [= <-].
  induction rest as [|y rest [IH1 IH2]]; cbn.
  - split; [apply list_elem_of_here|]. intros k ->%list_elem_of_singleton. lia.
  - split.
    + destruct (Z.min_spec y (fold_right Z.min x rest)) as [[_ ->]|[_ ->]].
      * apply list_elem_of_further, list_elem_of_here.
      * apply elem_of_cons in IH1 as [->|IH1]; [apply list_elem_of_here|].
        now do 2 apply list_elem_of_further.
    + intros k [->|[->|Hk]%elem_of_cons]%elem_of_cons.
      * specialize (IH2 x (list_elem_of_here _ _)). lia.
      * lia.
      * specialize (IH2 k (list_elem_of_further _ _ _ Hk)). lia.
Qed.

Lemma elem_of_filter_bool {A : Type} (f : A -> bool) (xs : list A) (x : A) :
  x ∈ List.filter f xs <-> x ∈ xs /\ f x = true.
Proof. rewrite !list_elem_of_In. apply filter_In. Qed.

Lemma filter_sublist {A : Type} (f : A -> bool) (xs : list A) :
  sublist (List.filter f xs) xs.
Proof.
  induction xs as [|x xs IH]; cbn; [constructor|].
  destruct (f x); [now apply sublist_skip | now apply sublist_cons].
Qed.

Lemma filter_map_sublist {A B : Type} (f : A -> bool) (g : A -> B) (xs : list A) :
  sublist (map g (List.filter f xs)) (map g xs).
Proof.
  induction xs as [|x xs IH]; cbn; [constructor|].
  destruct (f x); [now apply sublist_skip | now apply sublist_cons].
Qed.

Lemma NoDup_fmap_eq {A B : Type} (f : A -> B) (xs : list A) (x y : A) :
  NoDup (map f xs) -> x ∈ xs -> y ∈ xs -> f x = f y -> x = y.
Proof.
  induction xs as [|z xs IH]; cbn; intros Hnd Hx Hy E; [inversion Hx|].
  apply NoDup_cons in Hnd as [Hz Hnd].
  apply elem_of_cons in Hx as [->|Hx]; apply elem_of_cons in Hy as [->|Hy]; auto.
  - exfalso. apply Hz. rewrite E. now apply (list_elem_of_fmap_2 f).
  - exfalso. apply Hz. rewrite <- E. now apply (list_elem_of_fmap_2 f).
Qed.

(** The least rowid of the group of a row: some row of the group has it,
    and no row of the group has a smaller one. *)
Lemma group_min l r :
  Forall (fun r => keyed_row r = true) l -> r ∈ l ->
  exists r0 m,
    sql_min (omap Sqlite.rowid_of (List.filter (same_group r) l)) = Some m /\
    r0 ∈ l /\ group_key r0 = group_key r /\ Sqlite.rowid_of r0 = Some m /\
    forall r1 k, r1 ∈ l -> group_key r1 = group_key r -> Sqlite.rowid_of r1 = Some k -> m <= k.
Proof.
  intros Hk Hr. rewrite Forall_forall in Hk.
  destruct (keyed_row_id r (Hk r Hr)) as [n Hn].
  assert (Hin : n ∈ omap Sqlite.rowid_of (List.filter (same_group r) l)).
  { apply list_elem_of_omap. exists r. split; [|exact Hn].
    apply elem_of_filter_bool. split; [exact Hr|].
    now apply same_group_key; auto. }
  destruct (sql_min _) as [m|] eqn:Hm.
  - destruct (sql_min_lower _ _ Hm) as [Hmem Hle].
    apply list_elem_of_omap in Hmem as (r0 & [Hr0 Hg]%elem_of_filter_bool & Hid).
    exists r0, m. split; [reflexivity|]. split; [exact Hr0|].
    split; [symmetry; now apply same_group_key; auto|]. split; [exact Hid|].
    intros r1 k Hr1 Hg1 Hk1. apply Hle. apply list_elem_of_omap. exists r1.
    split; [|exact Hk1]. apply elem_of_filter_bool. split; [exact Hr1|].
    apply same_group_key; auto.
  - destruct (omap _ _); [inversion Hin | discriminate].
Qed.

(** A row stays exactly when no row of its group has a smaller rowid. *)
Lemma kept_iff l r (n : Z) :
  Forall (fun r => keyed_row r = true) l ->
  NoDup (map Sqlite.rowid_of l) ->
  r ∈ l -> Sqlite.rowid_of r = Some n ->
  negb (not_in (Sqlite.rowid_of r) (min_ids l)) = true <->
  forall r1 k, r1 ∈ l -> group_key r1 = group_key r -> Sqlite.rowid_of r1 = Some k -> n <= k.
Proof.
  intros Hk Hnd Hr Hn. rewrite Hn. unfold not_in. rewrite negb_involutive.
  rewrite existsb_exists. split.
  - intros (y & Hy & Hm). unfold min_ids in Hy. apply in_map_iff in Hy as (g & <- & Hg).
    apply list_elem_of_In in Hg.
    destruct (group_min l g Hk Hg) as (r0 & m & Hmin & Hr0 & Hkey & Hid & Hle).
    rewrite Hmin in Hm. apply Z.eqb_eq in Hm as <-.
    assert (r0 = r) as ->.
    { apply (NoDup_fmap_eq Sqlite.rowid_of l); [exact Hnd | exact Hr0 | exact Hr | congruence]. }
    intros r1 k Hr1 Hk1. apply Hle; [exact Hr1 | congruence].
  - intros Hle.
    destruct (group_min l r Hk Hr) as (r0 & m & Hmin & Hr0 & Hkey & Hid & Hle0).
    exists (Some m). split.
    + rewrite <- Hmin. unfold min_ids.
      apply (in_map (fun r => sql_min (omap Sqlite.rowid_of (List.filter (same_group r) l)))).
      now apply list_elem_of_In.
    + apply Z.eqb_eq. specialize (Hle r0 m Hr0 Hkey Hid).
      specialize (Hle0 r n Hr eq_refl Hn). lia.
Qed.

Lemma remove_duplicates_rows (t : Sqlite.table) r :
  r ∈ Sqlite.rows (remove_duplicates t) <->
  r ∈ Sqlite.rows t /\
  negb (not_in (Sqlite.rowid_of r) (min_ids (Sqlite.rows t))) = true.
Proof.
  unfold remove_duplicates. cbn [Sqlite.rows].
  apply (elem_of_filter_bool
           (fun r => negb (not_in (Sqlite.rowid_of r) (min_ids (Sqlite.rows t))))).
Qed.

Lemma kept_rows_distinct (t : Sqlite.table) (a b : gmap string Sqlite.value) :
  Forall (fun r => keyed_row r = true) (Sqlite.rows t) ->
  NoDup (map Sqlite.rowid_of (Sqlite.rows t)) ->
  a ∈ Sqlite.rows (remove_duplicates t) -> b ∈ Sqlite.rows (remove_duplicates t) ->
  group_key a = group_key b -> a = b.
Proof.
  intros Hk Hnd [Ha Ka]%remove_duplicates_rows [Hb Kb]%remove_duplicates_rows E.
  pose proof Hk as Hk'. rewrite Forall_forall in Hk'.
  destruct (keyed_row_id a (Hk' a Ha)) as [n Hn].
  destruct (keyed_row_id b (Hk' b Hb)) as [m Hm].
  pose proof (proj1 (kept_iff _ _ n Hk Hnd Ha Hn) Ka b m Hb (eq_sym E) Hm).
  pose proof (proj1 (kept_iff _ _ m Hk Hnd Hb Hm) Kb a n Ha E Hn).
  apply (NoDup_fmap_eq Sqlite.rowid_of (Sqlite.rows t)); [exact Hnd | exact Ha | exact Hb|].
  rewrite Hn, Hm. f_equal. lia.
Qed.

Lemma remove_duplicates_keeps_form (t : Sqlite.table) :
  Forall (fun r => keyed_row r = true) (Sqlite.rows t) ->
  NoDup (map Sqlite.rowid_of (Sqlite.rows t)) ->
  Forall (fun r => keyed_row r = true) (Sqlite.rows (remove_duplicates t)) /\
  NoDup (map Sqlite.rowid_of (Sqlite.rows (remove_duplicates t))).
Proof.
  intros Hk Hnd.
  split.
  - rewrite Forall_forall in Hk. apply Forall_forall.
    intros r [Hr _]%remove_duplicates_rows. now apply Hk.
  - apply (sublist_NoDup _ (map Sqlite.rowid_of (Sqlite.rows t))); [exact Hnd|].
    apply filter_map_sublist.
Qed.

(** X18: after the DELETE of [optimize_database] no two rows of [foods]
    have the same name, brand and restaurant (NULLs counting as equal);
    every such key the table had is still there, on the row that had the
    smallest [id] of the key; the rows that stay keep their order and
    content.  The data source is no part of the key. *)
Theorem remove_duplicates_one_per_key (t : Sqlite.table) :
  Forall (fun r => keyed_row r = true) (Sqlite.rows t) ->
  NoDup (map Sqlite.rowid_of (Sqlite.rows t)) ->
  NoDup (map group_key (Sqlite.rows (remove_duplicates t))) /\
  sublist (Sqlite.rows (remove_duplicates t)) (Sqlite.rows t) /\
  forall r n, r ∈ Sqlite.rows t -> Sqlite.rowid_of r = Some n ->
    exists r' m, r' ∈ Sqlite.rows (remove_duplicates t) /\
                 group_key r' = group_key r /\
                 Sqlite.rowid_of r' = Some m /\ m <= n.
Proof.
  intros Hk Hnd. split; [|split].
  - apply NoDup_fmap_2_strong.
    + intros a b Ha Hb. now apply (kept_rows_distinct t).
    + apply (sublist_NoDup _ (Sqlite.rows t)); [|apply filter_sublist].
      now apply NoDup_fmap_1 in Hnd.
  - apply filter_sublist.
  - intros r n Hr Hn.
    destruct (group_min _ r Hk Hr) as (r0 & m & Hmin & Hr0 & Hkey & Hid & Hle).
    exists r0, m. split; [|split; [exact Hkey|split; [exact Hid|]]].
    + apply remove_duplicates_rows. split; [exact Hr0|].
      apply (kept_iff _ _ m Hk Hnd Hr0 Hid).
      intros r1 k Hr1 Hk1. apply Hle; [exact Hr1 | congruence].
    + now apply (Hle r n).
Qed.

(** X19: the DELETE is idempotent: run on its own result it deletes
    nothing more. *)
Theorem remove_duplicates_idempotent (t : Sqlite.table) :
  Forall (fun r => keyed_row r = true) (Sqlite.rows t) ->
  NoDup (map Sqlite.rowid_of (Sqlite.rows t)) ->
  remove_duplicates (remove_duplicates t) = remove_duplicates t.
Proof.
  intros Hk Hnd. destruct (remove_duplicates_keeps_form t Hk Hnd) as [Hk' Hnd'].
  set (t' := remove_duplicates t) in *.
  unfold remove_duplicates at 1. cbn [Sqlite.last_rowid].
  rewrite filter_all; [now destruct t'|].
  intros r Hr. pose proof Hk' as Hf. rewrite Forall_forall in Hf.
  destruct (keyed_row_id r (Hf r Hr)) as [n Hn].
  apply (kept_iff _ _ n Hk' Hnd' Hr Hn).
  intros r1 k Hr1 Hkey Hk1.
  assert (r1 = r) as -> by (now apply (kept_rows_distinct t)).
  assert (k = n) by congruence. lia.
Qed.

End RemoveDuplicates.

Lemma remove_duplicates_one_per_key_witness :
  let t := Sqlite.Table
             [list_to_map [("id", Sqlite.Integer 1); ("name", Sqlite.Text "Taco")];
              list_to_map [("id", Sqlite.Integer 2); ("name", Sqlite.Text "Taco");
                           ("restaurant_name", Sqlite.Text "Taco Bell")];
              list_to_map [("id", Sqlite.Integer 3); ("name", Sqlite.Text "Taco");
                           ("data_source", Sqlite.Text "USDA")]]%string 3 in
  NoDup (map group_key (Sqlite.rows (remove_duplicates t))) /\
  sublist (Sqlite.rows (remove_duplicates t)) (Sqlite.rows t) /\
  forall r n, r ∈ Sqlite.rows t -> Sqlite.rowid_of r = Some n ->
    exists r' m, r' ∈ Sqlite.rows (remove_duplicates t) /\
                 group_key r' = group_key r /\
                 Sqlite.rowid_of r' = Some m /\ m <= n.
Proof.
  cbv zeta. apply remove_duplicates_one_per_key.
  - apply (bool_decide_unpack _). vm_compute. exact I.
  - apply (bool_decide_unpack _). vm_compute. exact I.
Defined.

Lemma remove_duplicates_idempotent_witness :
  let t := Sqlite.Table
             [list_to_map [("id", Sqlite.Integer 1); ("name", Sqlite.Text "Taco")];
              list_to_map [("id", Sqlite.Integer 2); ("name", Sqlite.Text "Taco");
                           ("restaurant_name", Sqlite.Text "Taco Bell")];
              list_to_map [("id", Sqlite.Integer 3); ("name", Sqlite.Text "Taco");
                           ("data_source", Sqlite.Text "USDA")]]%string 3 in
  remove_duplicates (remove_duplicates t) = remove_duplicates t.
Proof.
  cbv zeta. apply remove_duplicates_idempotent.
  - apply (bool_decide_unpack _). vm_compute. exact I.
  - apply (bool_decide_unpack _). vm_compute. exact I.
Defined.

(** ** update_database_gi: what the loop writes *)
Section UpdateGi.

Implicit Types r : gmap string Sqlite.value.

(** The SET clause of the UPDATE with its parameters bound. *)
Lemma gi_cols_lookup (gi : Z) (gl : pyval) (c : string) :
  (bound <$> (list_to_map [("glycemic_index", PNum (PyNum.PyInt gi));
                           ("glycemic_load", gl)]%string : gmap string pyval)) !! c =
  if String.eqb c "glycemic_index" then Some (bound (PNum (PyNum.PyInt gi)))
  else if String.eqb c "glycemic_load" then Some (bound gl) else None.
Proof.
  rewrite cols_lookup. cbn [dict_get].
  destruct (String.eqb c "glycemic_index"); [reflexivity|].
  destruct (String.eqb c "glycemic_load"); reflexivity.
Qed.

(** What a turn that goes through has done. *)
Lemma gi_turn_inv (food_id name carbs : pyval) (t t' : Sqlite.table) :
  gi_turn FOODS (food_id, name, carbs) t = Return t' ->
  (call_find_gi_for_food name = Return None /\ t' = t) \/
  exists gi gl id,
    call_find_gi_for_food name = Return (Some gi) /\
    gl_value_of gi carbs = Return gl /\
    bound (PNum (PyNum.PyInt gi)) = Some (Sqlite.Integer gi) /\
    bind_param food_id = Return id /\
    t' = Sqlite.Table
           (map (fun r => if Sqlite.sql_eq (r !! "id") id
                          then Sqlite.assign
                                 (bound <$> (list_to_map
                                    [("glycemic_index", PNum (PyNum.PyInt gi));
                                     ("glycemic_load", gl)]%string : gmap string pyval)) r
                          else r)
                (Sqlite.rows t))
           (Sqlite.last_rowid t).
Proof.
  unfold gi_turn.
  destruct (call_find_gi_for_food name) as [[gi|]|e] eqn:Hf; cbn [mbind outcome_bind];
    [|intros [= <-]; now left|discriminate].
  destruct (gl_value_of gi carbs) as [gl|e] eqn:Hg; cbn [mbind outcome_bind]; [|discriminate].
  unfold bind_all. destruct (bool_decide _) eqn:Hb; cbn [mbind outcome_bind]; [|discriminate].
  destruct (bind_param food_id) as [id|e] eqn:Hi; cbn [mbind outcome_bind]; [|discriminate].
  unfold Sqlite.update. destruct (negb (Sqlite.known_columns _ _)); [discriminate|].
  destruct (existsb _ _); [discriminate|].
  intros [= <-]. right. exists gi, gl, id. repeat split; try reflexivity; try assumption.
  apply bool_decide_eq_true in Hb.
  specialize (Hb "glycemic_index"%string (PNum (PyNum.PyInt gi)) (lookup_insert_eq _ _ _)).
  unfold bound, bound_value in *.
  destruct ((- 2 ^ 63 <=? gi) && (gi <? 2 ^ 63)); [reflexivity|].
  destruct Hb as [x Hx]. discriminate.
Qed.

Lemma gi_updated_lookup (gi : Z) (gl : pyval) r (c : string) :
  c <> "glycemic_index"%string -> c <> "glycemic_load"%string ->
  gi_updated gi gl r !! c = r !! c.
Proof.
  intros H1 H2. unfold gi_updated. rewrite lookup_assign, gi_cols_lookup.
  destruct (String.eqb_spec c "glycemic_index") as [->|_]; [contradiction|].
  destruct (String.eqb_spec c "glycemic_load") as [->|_]; [contradiction|]. reflexivity.
Qed.

Lemma gi_updated_values (gi : Z) (gl : pyval) r :
  gi_updated gi gl r !! "glycemic_index" = bound (PNum (PyNum.PyInt gi)) /\
  gi_updated gi gl r !! "glycemic_load" = bound gl.
Proof.
  unfold gi_updated. rewrite !lookup_assign, !gi_cols_lookup. split; reflexivity.
Qed.

Lemma gi_updated_rowid (gi : Z) (gl : pyval) r :
  Sqlite.rowid_of (gi_updated gi gl r) = Sqlite.rowid_of r.
Proof. unfold Sqlite.rowid_of. now rewrite gi_updated_lookup by discriminate. Qed.

Lemma gi_settled_rowid s r r' :
  gi_settled s r r' -> Sqlite.rowid_of r' = Sqlite.rowid_of r.
Proof.
  unfold gi_settled. destruct (call_find_gi_for_food _) as [[gi|]|e]; try (now intros ->).
  intros (gl & _ & ->). apply gi_updated_rowid.
Qed.

(** The parameter bound for the rowid of a selected row. *)
Lemma bind_param_rowid r (n : Z) (id : option Sqlite.value) :
  Sqlite.rowid_of r = Some n ->
  bind_param (fetched (r !! "id")) = Return id ->
  r !! "id" = Some (Sqlite.Integer n) /\ id = Some (Sqlite.Integer n).
Proof.
  unfold Sqlite.rowid_of. destruct (r !! "id") as [[m|f|x]|]; try discriminate.
  intros [= ->]. unfold bind_param. cbn.
  destruct ((- 2 ^ 63 <=? n) && (n <? 2 ^ 63)); [|discriminate].
  now intros [= <-].
Qed.

Lemma sql_eq_rowid r (n m : Z) :
  Sqlite.rowid_of r = Some m ->
  Sqlite.sql_eq (r !! "id") (Some (Sqlite.Integer n)) = (m =? n).
Proof.
  unfold Sqlite.rowid_of. destruct (r !! "id") as [[k|f|x]|]; try discriminate.
  now intros [= ->].
Qed.

(** One turn, row by row: the rows with the rowid of the selected row are
    settled, the others stay. *)
Lemma gi_turn_rows s (n : Z) (t t' : Sqlite.table) :
  Sqlite.rowid_of s = Some n ->
  Forall (fun r => is_Some (Sqlite.rowid_of r)) (Sqlite.rows t) ->
  gi_turn FOODS (food_to_update s) t = Return t' ->
  Sqlite.last_rowid t' = Sqlite.last_rowid t /\
  exists f, Sqlite.rows t' = map f (Sqlite.rows t) /\
    forall r, r ∈ Sqlite.rows t ->
      if bool_decide (Sqlite.rowid_of r = Some n) then gi_settled s r (f r) else f r = r.
Proof.
  intros Hs Hk H. unfold food_to_update in H.
  apply gi_turn_inv in H as [[Hf ->]|(gi & gl & id & Hf & Hg & _ & Hi & ->)].
  - split; [reflexivity|]. exists (fun r => r). split; [now rewrite map_id|].
    intros r _. destruct (bool_decide _); [|reflexivity].
    unfold gi_settled. now rewrite Hf.
  - split; [reflexivity|]. eexists. split; [reflexivity|].
    destruct (bind_param_rowid s n id Hs Hi) as [_ ->].
    intros r Hr. rewrite Forall_forall in Hk. destruct (Hk r Hr) as [m Hm].
    rewrite (sql_eq_rowid r n m Hm), Hm.
    destruct (Z.eqb_spec m n) as [->|Hne].
    + rewrite bool_decide_eq_true_2 by reflexivity.
      unfold gi_settled. rewrite Hf. now exists gl.
    + rewrite bool_decide_eq_false_2 by congruence. reflexivity.
Qed.

Lemma find_rowid_none (sel : list (gmap string Sqlite.value)) (x : option Z) :
  x ∉ map Sqlite.rowid_of sel ->
  List.find (fun s => bool_decide (Sqlite.rowid_of s = x)) sel = None.
Proof.
  induction sel as [|s sel IH]; cbn; [reflexivity|].
  intros [H1 H2]%not_elem_of_cons. rewrite bool_decide_eq_false_2 by congruence. now apply IH.
Qed.

(** The loop over the rows [sel] selected beforehand. *)
Lemma gi_turns_rows (sel : list (gmap string Sqlite.value)) :
  forall t t' : Sqlite.table,
    Forall (fun r => is_Some (Sqlite.rowid_of r)) sel ->
    NoDup (map Sqlite.rowid_of sel) ->
    Forall (fun r => is_Some (Sqlite.rowid_of r)) (Sqlite.rows t) ->
    gi_turns FOODS (map food_to_update sel) t = Return t' ->
    Sqlite.last_rowid t' = Sqlite.last_rowid t /\
    Forall2 (fun r r' =>
               match List.find (fun s => bool_decide (Sqlite.rowid_of s = Sqlite.rowid_of r)) sel with
               | Some s => gi_settled s r r'
               | None => r' = r
               end) (Sqlite.rows t) (Sqlite.rows t').
Proof.
  induction sel as [|s sel IH]; intros t t' Hsel Hnd Hk; cbn [map gi_turns].
  - intros [= <-]. split; [reflexivity|]. clear Hk.
    induction (Sqlite.rows t); constructor; [reflexivity | assumption].
  - apply Forall_cons in Hsel as [[n Hn] Hsel]. cbn [map] in Hnd.
    apply NoDup_cons in Hnd as [Hns Hnd].
    destruct (gi_turn FOODS (food_to_update s) t) as [t1|e] eqn:H1;
      cbn [mbind outcome_bind]; [|discriminate].
    intros H2. destruct (gi_turn_rows s n t t1 Hn Hk H1) as (Hl1 & f & Hrows & Hf).
    assert (Hid : forall r, r ∈ Sqlite.rows t -> Sqlite.rowid_of (f r) = Sqlite.rowid_of r).
    { intros r Hr. specialize (Hf r Hr). destruct (bool_decide _).
      - now apply gi_settled_rowid in Hf.
      - now rewrite Hf. }
    assert (Hk1 : Forall (fun r => is_Some (Sqlite.rowid_of r)) (Sqlite.rows t1)).
    { rewrite Hrows. apply Forall_forall. intros r1 Hr1.
      apply list_elem_of_In, in_map_iff in Hr1 as (r & <- & Hr%list_elem_of_In).
      rewrite (Hid r Hr). rewrite Forall_forall in Hk. now apply Hk. }
    destruct (IH t1 t' Hsel Hnd Hk1 H2) as [Hl2 HF].
    split; [congruence|].
    rewrite Hrows in HF. apply Forall2_fmap_l in HF.
    apply Forall2_same_length_lookup. apply Forall2_same_length_lookup in HF as [Hlen HF].
    split; [exact Hlen|].
    intros i r r' Hr Hr'. specialize (HF i r r' Hr Hr'). cbn in HF.
    assert (Hin : r ∈ Sqlite.rows t) by (now apply list_elem_of_lookup_2 in Hr).
    specialize (Hf r Hin). rewrite (Hid r Hin) in HF. cbn [List.find].
    rewrite Hn. destruct (bool_decide (Some n = Sqlite.rowid_of r)) eqn:Hb.
    + apply bool_decide_eq_true in Hb.
      rewrite bool_decide_eq_true_2 in Hf by congruence.
      rewrite find_rowid_none in HF by (now rewrite <- Hb, <- Hn).
      now rewrite HF.
    + apply bool_decide_eq_false in Hb.
      rewrite bool_decide_eq_false_2 in Hf by congruence.
      now rewrite Hf in HF.
Qed.

Lemma find_rowid_filter (l : list (gmap string Sqlite.value)) (p : gmap string Sqlite.value -> bool) r :
  NoDup (map Sqlite.rowid_of l) -> r ∈ l ->
  List.find (fun s => bool_decide (Sqlite.rowid_of s = Sqlite.rowid_of r)) (List.filter p l) =
  if p r then Some r else None.
Proof.
  intros Hnd Hr.
  destruct (List.find _ _) as [s|] eqn:Hfind.
  - apply find_some in Hfind as [Hs Hb]. apply bool_decide_eq_true in Hb.
    apply filter_In in Hs as [Hs Hp].
    assert (s = r) as ->.
    { apply (NoDup_fmap_eq Sqlite.rowid_of l); auto. now apply list_elem_of_In. }
    now rewrite Hp.
  - destruct (p r) eqn:Hp; [|reflexivity].
    assert (Hin : In r (List.filter p l)) by (apply filter_In; split; [now apply list_elem_of_In | exact Hp]).
    apply (find_none _ _ Hfind) in Hin. apply bool_decide_eq_false in Hin. contradiction.
Qed.

(** The loop of [update_database_gi], row by row. *)
Lemma update_database_gi_rows (t t' : Sqlite.table) :
  Forall (fun r => is_Some (Sqlite.rowid_of r)) (Sqlite.rows t) ->
  NoDup (map Sqlite.rowid_of (Sqlite.rows t)) ->
  update_database_gi FOODS t = Return t' ->
  Sqlite.last_rowid t' = Sqlite.last_rowid t /\
  Forall2 (fun r r' => if without_gi r then gi_settled r r r' else r' = r)
          (Sqlite.rows t) (Sqlite.rows t').
Proof.
  intros Hk Hnd H. unfold update_database_gi, foods_to_update in H.
  apply gi_turns_rows in H as [Hl HF]; [| | |exact Hk].
  - split; [exact Hl|].
    apply Forall2_same_length_lookup. apply Forall2_same_length_lookup in HF as [Hlen HF].
    split; [exact Hlen|]. intros i r r' Hr Hr'. specialize (HF i r r' Hr Hr'). cbn in HF.
    rewrite (find_rowid_filter _ without_gi r Hnd) in HF
      by (now apply list_elem_of_lookup_2 in Hr).
    now destruct (without_gi r).
  - rewrite Forall_forall in Hk. apply Forall_forall.
    intros r [Hr _]%elem_of_filter_bool. now apply Hk.
  - apply (sublist_NoDup _ (map Sqlite.rowid_of (Sqlite.rows t))); [exact Hnd|].
    apply filter_map_sublist.
Qed.

Lemma call_find_gi_str (s : string) :
  call_find_gi_for_food (PStr s) = Return (find_gi_for_food (Some s)).
Proof. destruct s; reflexivity. Qed.

Lemma call_find_gi_bounds (name : pyval) (gi : Z) :
  call_find_gi_for_food name = Return (Some gi) -> 0 <= gi <= 103.
Proof.
  unfold call_find_gi_for_food. destruct (negb (truthy name)); [discriminate|].
  destruct name as [|n|s|l|d]; try discriminate.
  intros [= H]. now apply (find_gi_for_food_bounds (Some s)).
Qed.

Lemma bound_estimate (gi : Z) :
  0 <= gi <= 103 -> bound_value (PNum (PyNum.PyInt gi)) = Some (Some (Sqlite.Integer gi)).
Proof.
  intros H. cbn. destruct (Z.leb_spec (- 2 ^ 63) gi); [|lia].
  destruct (Z.ltb_spec gi (2 ^ 63)); [reflexivity | lia].
Qed.

Lemma int_to_float_estimate (gi : Z) :
  0 <= gi <= 103 -> exists f, PyNum.int_to_float gi = Return f.
Proof.
  intros H.
  assert (Hall : forallb (fun n => match PyNum.int_to_float (Z.of_nat n) with
                                   | Return _ => true
                                   | Raise _ => false
                                   end) (seq 0 104) = true) by (vm_compute; reflexivity).
  rewrite forallb_forall in Hall. specialize (Hall (Z.to_nat gi)).
  rewrite Z2Nat.id in Hall by lia.
  destruct (PyNum.int_to_float gi) as [f|e]; [eauto|].
  discriminate Hall. apply in_seq. lia.
Qed.

(** The load of an estimate and a float is always computed, and can be
    bound. *)
Lemma gl_value_of_float (gi : Z) (carbs : pyval) :
  0 <= gi <= 103 ->
  carbs = PNone \/ (exists f, carbs = PNum (PyNum.PyFloat f)) ->
  exists gl, gl_value_of gi carbs = Return gl /\ is_Some (bound_value gl).
Proof.
  intros Hgi [->|[f ->]]; unfold gl_value_of.
  - exists PNone. cbn. eauto.
  - destruct (truthy _); [|exists PNone; cbn; eauto].
    unfold call_calculate_glycemic_load, calculate_glycemic_load, PyNum.mul.
    cbn [PyNum.to_float]. destruct (int_to_float_estimate gi Hgi) as [fx ->].
    cbn [mbind outcome_bind]. unfold PyNum.truediv. cbn [PyNum.to_float].
    rewrite int_to_float_100. cbn [mbind outcome_bind PyNum.is_zero].
    eexists. split; [reflexivity|].
    cbn. destruct (PyNum.round _ 1); eauto.
Qed.

Lemma typed_row_inv r :
  typed_row r = true ->
  exists n s, r !! "id" = Some (Sqlite.Integer n) /\ - 2 ^ 63 <= n < 2 ^ 63 /\
              r !! "name" = Some (Sqlite.Text s) /\
              (r !! "total_carbohydrate_g" = None \/
               exists f, r !! "total_carbohydrate_g" = Some (Sqlite.Real f)).
Proof.
  unfold typed_row.
  destruct (r !! "id") as [[n|?|?]|]; try discriminate.
  destruct (r !! "name") as [[?|?|s]|]; try discriminate.
  intros [[H1 H2]%andb_true_iff H3]%andb_true_iff.
  exists n, s. split; [reflexivity|]. split; [lia|]. split; [reflexivity|].
  destruct (r !! "total_carbohydrate_g") as [[?|f|?]|]; try discriminate; eauto.
Qed.

Lemma typed_row_updated (gi : Z) (gl : pyval) r :
  typed_row (gi_updated gi gl r) = typed_row r.
Proof. unfold typed_row. now rewrite !gi_updated_lookup by discriminate. Qed.

(** A turn for a typed row on a table of typed rows goes through. *)
Lemma gi_turn_typed s (t : Sqlite.table) :
  typed_row s = true ->
  Forall (fun r => typed_row r = true) (Sqlite.rows t) ->
  exists t', gi_turn FOODS (food_to_update s) t = Return t' /\
             Forall (fun r => typed_row r = true) (Sqlite.rows t').
Proof.
  intros Hs Ht. destruct (typed_row_inv s Hs) as (n & nm & Hid & Hn & Hname & Hcarbs).
  unfold food_to_update, gi_turn. rewrite Hid, Hname. cbn [fetched].
  rewrite call_find_gi_str. cbn [mbind outcome_bind].
  destruct (find_gi_for_food (Some nm)) as [gi|] eqn:Hgi; [|eauto].
  pose proof (find_gi_for_food_bounds _ _ Hgi) as Hb.
  destruct (gl_value_of_float gi (fetched (s !! "total_carbohydrate_g")) Hb) as (gl & -> & Hgl).
  { destruct Hcarbs as [->|[f ->]]; cbn; eauto. }
  cbn [mbind outcome_bind].
  rewrite bind_all_list by
    (repeat constructor; cbn [snd]; [rewrite bound_estimate by exact Hb; eauto | exact Hgl]).
  cbn [mbind outcome_bind]. unfold bind_param.
  assert (Hbn : bound_value (PNum (PyNum.PyInt n)) = Some (Some (Sqlite.Integer n))).
  { cbn. destruct (Z.leb_spec (- 2 ^ 63) n); [|lia].
    destruct (Z.ltb_spec n (2 ^ 63)); [reflexivity | lia]. }
  rewrite Hbn. cbn [mbind outcome_bind].
  unfold Sqlite.update.
  rewrite known_columns_list by (apply (bool_decide_unpack _); vm_compute; exact I).
  cbn [negb].
  rewrite Forall_forall in Ht.
  rewrite existsb_none.
  - eexists. split; [reflexivity|]. cbn [Sqlite.rows]. apply Forall_forall.
    intros r' Hr'. apply list_elem_of_In, in_map_iff in Hr' as (r & <- & Hr%list_elem_of_In).
    destruct (Sqlite.sql_eq _ _);
      [change (typed_row (gi_updated gi gl r) = true); rewrite typed_row_updated|];
      now apply Ht.
  - intros r Hr. destruct (Sqlite.sql_eq _ _); [|reflexivity]. cbn [andb].
    destruct (typed_row_inv r (Ht r Hr)) as (? & s' & _ & _ & Hnm & _).
    unfold Sqlite.satisfies_not_null. cbn [Sqlite.not_null FOODS forallb].
    change (Sqlite.assign _ r) with (gi_updated gi gl r).
    rewrite gi_updated_lookup, Hnm by discriminate. reflexivity.
Qed.

Lemma gi_turns_typed (sel : list (gmap string Sqlite.value)) :
  forall t : Sqlite.table,
    Forall (fun r => typed_row r = true) sel ->
    Forall (fun r => typed_row r = true) (Sqlite.rows t) ->
    exists t', gi_turns FOODS (map food_to_update sel) t = Return t' /\
               Forall (fun r => typed_row r = true) (Sqlite.rows t').
Proof.
  induction sel as [|s sel IH]; intros t Hsel Ht; cbn [map gi_turns]; [eauto|].
  apply Forall_cons in Hsel as [Hs Hsel].
  destruct (gi_turn_typed s t Hs Ht) as (t1 & -> & Ht1). cbn [mbind outcome_bind].
  now apply IH.
Qed.

Lemma update_database_gi_typed (t : Sqlite.table) :
  Forall (fun r => typed_row r = true) (Sqlite.rows t) ->
  exists t', update_database_gi FOODS t = Return t' /\
             Forall (fun r => typed_row r = true) (Sqlite.rows t').
Proof.
  intros Ht. apply gi_turns_typed; [|exact Ht].
  rewrite Forall_forall in Ht. apply Forall_forall.
  intros r [Hr _]%elem_of_filter_bool. now apply Ht.
Qed.





(** X20: what the loop of [update_database_gi] does to the rows, given
    distinct rowids: no row is added or removed; a row that has a GI other
    than 0 is left as it is; so is a row without one whose name gives no
    estimate; a row without one whose name gives an estimate gets the
    estimate as GI and the load computed from its carbohydrates as GL, NULL
    when they are NULL or zero, whatever GL it had; no other column
    changes. *)
Theorem update_database_gi_writes (t t' : Sqlite.table) :
  Forall (fun r => is_Some (Sqlite.rowid_of r)) (Sqlite.rows t) ->
  NoDup (map Sqlite.rowid_of (Sqlite.rows t)) ->
  update_database_gi FOODS t = Return t' ->
  Forall2 (fun r r' =>
    (forall c, c <> "glycemic_index"%string -> c <> "glycemic_load"%string ->
               r' !! c = r !! c) /\
    (without_gi r = false -> r' = r) /\
    (without_gi r = true ->
     match call_find_gi_for_food (fetched (r !! "name")) with
     | Return (Some gi) =>
         r' !! "glycemic_index" = Some (Sqlite.Integer gi) /\
         exists gl, gl_value_of gi (fetched (r !! "total_carbohydrate_g")) = Return gl /\
                    r' !! "glycemic_load" = bound gl
     | _ => r' = r
     end))
    (Sqlite.rows t) (Sqlite.rows t').
Proof.
  intros Hk Hnd H. destruct (update_database_gi_rows t t' Hk Hnd H) as [_ HF].
  eapply Forall2_impl; [exact HF|]. clear. intros r r' H. cbn in H.
  destruct (without_gi r).
  - unfold gi_settled in H.
    destruct (call_find_gi_for_food (fetched (r !! "name"))) as [[gi|]|e] eqn:Hf.
    + destruct H as (gl & Hgl & ->). split; [|split; [discriminate|]].
      * intros c H1 H2. now apply gi_updated_lookup.
      * intros _. destruct (gi_updated_values gi gl r) as [-> Hl].
        split; [|now exists gl].
        unfold bound. now rewrite (bound_estimate gi (call_find_gi_bounds _ _ Hf)).
    + subst r'. repeat split; auto.
    + subst r'. repeat split; auto.
  - subst r'. repeat split; auto. discriminate.
Qed.

(** X21: on a table whose rows have a 64-bit rowid, a text as name and a
    float or NULL as carbohydrates, the loop of [update_database_gi] never
    raises: every estimate fits, every load is computed and can be bound,
    and every UPDATE goes through. *)
Theorem update_database_gi_total (t : Sqlite.table) :
  Forall (fun r => typed_row r = true) (Sqlite.rows t) ->
  exists t', update_database_gi FOODS t = Return t' /\
             length (Sqlite.rows t') = length (Sqlite.rows t).
Proof.
  intros Ht. destruct (update_database_gi_typed t Ht) as (t' & H & _).
  exists t'. split; [exact H|].
  unfold update_database_gi in H. revert H.
  generalize (foods_to_update t). intros foods. revert t Ht.
  induction foods as [|[[food_id name] carbs] foods IH]; intros t Ht; cbn [gi_turns].
  - now intros [= <-].
  - destruct (gi_turn FOODS _ t) as [t1|e] eqn:H1; cbn [mbind outcome_bind]; [|discriminate].
    intros H2.
    assert (Hlen : length (Sqlite.rows t1) = length (Sqlite.rows t)).
    { apply gi_turn_inv in H1 as [[_ ->]|(gi & gl & id & _ & _ & _ & _ & ->)];
        [reflexivity|]. cbn [Sqlite.rows]. apply length_map. }
    rewrite <- Hlen. apply (IH t1); [|exact H2].
    apply gi_turn_inv in H1 as [[_ ->]|(gi & gl & id & _ & _ & _ & _ & ->)];
      [exact Ht|].
    cbn [Sqlite.rows]. rewrite Forall_forall in Ht. apply Forall_forall.
    intros r' Hr'. apply list_elem_of_In, in_map_iff in Hr' as (r & <- & Hr%list_elem_of_In).
    destruct (Sqlite.sql_eq _ _);
      [change (typed_row (gi_updated gi gl r) = true); rewrite typed_row_updated|];
      now apply Ht.
Qed.


End UpdateGi.

Lemma update_database_gi_writes_witness :
  let t := Sqlite.Table
             [list_to_map [("id", Sqlite.Integer 1); ("name", Sqlite.Text "Taco");
                           ("total_carbohydrate_g", Sqlite.Real (PyNum.float_lit 21 1));
                           ("glycemic_load", Sqlite.Real (PyNum.float_lit 5 1))];
              list_to_map [("id", Sqlite.Integer 2); ("name", Sqlite.Text "Green Tea");
                           ("glycemic_load", Sqlite.Real (PyNum.float_lit 5 1))];
              list_to_map [("id", Sqlite.Integer 3); ("name", Sqlite.Text "Taco");
                           ("glycemic_index", Sqlite.Integer 40)]]%string 3 in
  let t' := table_of (update_database_gi FOODS t) in
  Forall2 (fun r r' =>
    (forall c, c <> "glycemic_index"%string -> c <> "glycemic_load"%string ->
               r' !! c = r !! c) /\
    (without_gi r = false -> r' = r) /\
    (without_gi r = true ->
     match call_find_gi_for_food (fetched (r !! "name")) with
     | Return (Some gi) =>
         r' !! "glycemic_index" = Some (Sqlite.Integer gi) /\
         exists gl, gl_value_of gi (fetched (r !! "total_carbohydrate_g")) = Return gl /\
                    r' !! "glycemic_load" = bound gl
     | _ => r' = r
     end))
    (Sqlite.rows t) (Sqlite.rows t').
Proof.
  cbv zeta. apply update_database_gi_writes.
  - apply (bool_decide_unpack _). vm_compute. exact I.
  - apply (bool_decide_unpack _). vm_compute. exact I.
  - vm_compute. reflexivity.
Defined.

Lemma update_database_gi_total_witness :
  let t := Sqlite.Table
             [list_to_map [("id", Sqlite.Integer 1); ("name", Sqlite.Text "Taco");
                           ("total_carbohydrate_g", Sqlite.Real (PyNum.float_lit 21 1))];
              list_to_map [("id", Sqlite.Integer 2); ("name", Sqlite.Text "Green Tea")]]%string 2 in
  exists t', update_database_gi FOODS t = Return t' /\
             length (Sqlite.rows t') = length (Sqlite.rows t).
Proof.
  cbv zeta. apply update_database_gi_total.
  apply (bool_decide_unpack _). vm_compute. exact I.
Defined.


(** ** build_ultimate_nutrients_db.py: what _insert_food stores *)
Section UltimateInsert.

Variable clock : string.

Lemma terms_of_text (kwargs : gmap string pyval) (key : string) :
  text_or_none (get_or kwargs key PNone) = true ->
  terms_of kwargs key = Return (words_of (get_or kwargs key PNone)).
Proof.
  unfold terms_of. destruct (get_or kwargs key PNone) as [|n|s|l|d]; try discriminate.
  - reflexivity.
  - intros _. destruct s; reflexivity.
Qed.

(** The row [_insert_food] makes of a well-formed record, up to its
    rowid. *)
Lemma ultimate_insert_food_row (s : string) (kwargs : gmap string pyval) :
  kwargs !! "name" = Some (PStr s) ->
  kwargs !! "id" = None ->
  map_Forall (fun c v => c ∈ Sqlite.columns FOODS /\ is_Some (bound_value v)) kwargs ->
  text_or_none (get_or kwargs "brand_name" PNone) = true ->
  text_or_none (get_or kwargs "restaurant_name" PNone) = true ->
  exists terms,
    NoDup terms /\
    (forall w, w ∈ terms <->
       w ∈ words_of (PStr s) \/
       w ∈ words_of (get_or kwargs "brand_name" PNone) \/
       w ∈ words_of (get_or kwargs "restaurant_name" PNone)) /\
    forall t : Sqlite.table,
      ultimate_insert_food FOODS clock kwargs t =
      Return (Sqlite.Table
                (Sqlite.rows t ++
                   [<["id" := Sqlite.Integer (Sqlite.next_rowid t)]>
                      (Sqlite.assign
                         (bound <$> filter (fun kv => is_none kv.2 = false)
                                      (<["search_terms" := PStr (PyStr.join " " terms)]> kwargs))
                         (Sqlite.default_row FOODS clock))])
                (Z.max (Sqlite.last_rowid t) (Sqlite.next_rowid t))).
Proof.
  intros Hname Hid Hall Hb Hr.
  assert (Hn : text_or_none (get_or kwargs "name" PNone) = true)
    by (now rewrite (get_or_Some _ _ _ (PStr s))).
  set (search_terms := words_of (PStr s) ++ words_of (get_or kwargs "brand_name" PNone)
                       ++ words_of (get_or kwargs "restaurant_name" PNone)).
  exists (set_elements search_terms). split; [apply NoDup_remove_dups|]. split.
  - intros w. unfold set_elements, search_terms.
    rewrite elem_of_remove_dups, !elem_of_app. tauto.
  - intros t. unfold ultimate_insert_food.
    rewrite (terms_of_text _ _ Hn), (terms_of_text _ _ Hb), (terms_of_text _ _ Hr).
    cbn [mbind outcome_bind]. rewrite (get_or_Some _ _ _ (PStr s)) by exact Hname.
    fold search_terms. f_equal.
    apply (insert_columns_stores clock _ s t).
    + now rewrite lookup_insert_ne by discriminate.
    + now rewrite lookup_insert_ne by discriminate.
    + apply map_Forall_insert_2; [|exact Hall].
      split; [apply (bool_decide_unpack _); vm_compute; exact I | eexists; reflexivity].
Qed.

(** The columns of that row. *)
Lemma ultimate_row_lookup (kw : gmap string pyval) (n : Z) (c : string) (v : pyval) :
  kw !! "id" = None -> kw !! c = Some v -> is_none v = false ->
  (<["id" := Sqlite.Integer n]>
     (Sqlite.assign (bound <$> filter (fun kv => is_none kv.2 = false) kw)
                    (Sqlite.default_row FOODS clock))) !! c = bound v.
Proof.
  intros Hid Hc Hv.
  assert (c <> "id"%string) by (intros ->; rewrite Hid in Hc; discriminate).
  rewrite lookup_insert_ne, lookup_assign, lookup_fmap by congruence.
  rewrite (map_lookup_filter_Some_2 _ _ _ _ Hc Hv). cbn.
  destruct v; try reflexivity; discriminate.
Qed.

(** X24: [_insert_food] on a record whose keys are columns of [foods] with
    values [sqlite3] can bind, a str as name, and a str or [None] as brand
    and restaurant: one row is added, whatever the table holds; it has
    every value of the record that is not [None], and as search terms the
    lowercase words of name, brand and restaurant, each once. *)
Theorem ultimate_insert_food_stores_record (s : string) (kwargs : gmap string pyval)
    (t : Sqlite.table) :
  kwargs !! "name" = Some (PStr s) ->
  kwargs !! "id" = None ->
  map_Forall (fun c v => c ∈ Sqlite.columns FOODS /\ is_Some (bound_value v)) kwargs ->
  text_or_none (get_or kwargs "brand_name" PNone) = true ->
  text_or_none (get_or kwargs "restaurant_name" PNone) = true ->
  exists r terms,
    ultimate_insert_food FOODS clock kwargs t =
      Return (Sqlite.Table (Sqlite.rows t ++ [r])
                           (Z.max (Sqlite.last_rowid t) (Sqlite.next_rowid t))) /\
    (forall c v, kwargs !! c = Some v -> is_none v = false ->
                 c <> "search_terms"%string -> r !! c = bound v) /\
    r !! "search_terms" = Some (Sqlite.Text (PyStr.join " " terms)) /\
    NoDup terms /\
    forall w, w ∈ terms <->
      w ∈ words_of (PStr s) \/
      w ∈ words_of (get_or kwargs "brand_name" PNone) \/
      w ∈ words_of (get_or kwargs "restaurant_name" PNone).
Proof.
  intros Hname Hid Hall Hb Hr.
  destruct (ultimate_insert_food_row s kwargs Hname Hid Hall Hb Hr) as (terms & Hnd & Hw & Hrun).
  eexists. exists terms. split; [apply Hrun|].
  assert (Hkid : (<["search_terms" := PStr (PyStr.join " " terms)]> kwargs) !! "id" = None)
    by (now rewrite lookup_insert_ne by discriminate).
  split; [|split; [|split; [exact Hnd | exact Hw]]].
  - intros c v Hc Hv Hne. apply ultimate_row_lookup; [exact Hkid | | exact Hv].
    now rewrite lookup_insert_ne by congruence.
  - apply (ultimate_row_lookup _ _ "search_terms"%string (PStr (PyStr.join " " terms)));
      [exact Hkid | apply lookup_insert_eq | reflexivity].
Qed.

End UltimateInsert.

Lemma ultimate_insert_food_stores_record_witness :
  let kwargs := <["brand_name" := PStr "Pho 24 Kitchen"]> PHO_TAI in
  exists r terms,
    ultimate_insert_food FOODS "c" kwargs Sqlite.empty_table =
      Return (Sqlite.Table (Sqlite.rows Sqlite.empty_table ++ [r])
                (Z.max (Sqlite.last_rowid Sqlite.empty_table)
                       (Sqlite.next_rowid Sqlite.empty_table))) /\
    (forall c v, kwargs !! c = Some v -> is_none v = false ->
                 c <> "search_terms"%string -> r !! c = bound v) /\
    r !! "search_terms" = Some (Sqlite.Text (PyStr.join " " terms)) /\
    NoDup terms /\
    forall w, w ∈ terms <->
      w ∈ words_of (PStr "Pho Tai (Rare Beef)") \/
      w ∈ words_of (get_or kwargs "brand_name" PNone) \/
      w ∈ words_of (get_or kwargs "restaurant_name" PNone).
Proof.
  cbv zeta.
  apply (ultimate_insert_food_stores_record "c" "Pho Tai (Rare Beef)"
           (<["brand_name" := PStr "Pho 24 Kitchen"]> PHO_TAI)).
  - vm_compute. reflexivity.
  - vm_compute. reflexivity.
  - apply (bool_decide_unpack _). vm_compute. exact I.
  - vm_compute. reflexivity.
  - vm_compute. reflexivity.
Defined.

(** ** A repeated import and optimize_database *)
Section ReimportThenOptimize.

Variable clock : string.

(** A row appended behind a row of its key with a smaller rowid is what
    the DELETE removes, and nothing else changes. *)
Lemma remove_duplicates_drops_later (l : list (gmap string Sqlite.value))
    (r1 r2 : gmap string Sqlite.value) (n1 n2 a b : Z) :
  Forall (fun r => keyed_row r = true) (l ++ [r2]) ->
  NoDup (map Sqlite.rowid_of (l ++ [r2])) ->
  r1 ∈ l -> group_key r2 = group_key r1 ->
  Sqlite.rowid_of r1 = Some n1 -> Sqlite.rowid_of r2 = Some n2 -> n1 < n2 ->
  Sqlite.rows (remove_duplicates (Sqlite.Table (l ++ [r2]) a)) =
  Sqlite.rows (remove_duplicates (Sqlite.Table l b)).
Proof.
  intros Hk Hnd Hr1 Hkey Hn1 Hn2 Hlt.
  assert (Hk1 : Forall (fun r => keyed_row r = true) l) by (now apply Forall_app in Hk).
  assert (Hnd1 : NoDup (map Sqlite.rowid_of l)).
  { rewrite map_app in Hnd. now apply NoDup_app in Hnd. }
  assert (Hin2 : r2 ∈ l ++ [r2]) by (apply elem_of_app; right; apply list_elem_of_here).
  unfold remove_duplicates. cbn [Sqlite.rows]. rewrite List.filter_app. cbn [List.filter].
  assert (H2 : negb (not_in (Sqlite.rowid_of r2) (min_ids (l ++ [r2]))) = false).
  { apply not_true_is_false. intros H.
    pose proof (proj1 (kept_iff _ _ n2 Hk Hnd Hin2 Hn2) H r1 n1) as Hle.
    assert (n2 <= n1); [|lia].
    apply Hle; [apply elem_of_app; now left | now symmetry | exact Hn1]. }
  rewrite H2, app_nil_r. apply filter_ext_in. intros r Hr%list_elem_of_In.
  pose proof Hk1 as Hf. rewrite Forall_forall in Hf.
  destruct (keyed_row_id r (Hf r Hr)) as [n Hn].
  assert (Hr' : r ∈ l ++ [r2]) by (apply elem_of_app; now left).
  pose proof (kept_iff _ _ n Hk Hnd Hr' Hn) as K2.
  pose proof (kept_iff _ _ n Hk1 Hnd1 Hr Hn) as K1.
  destruct (negb (not_in (Sqlite.rowid_of r) (min_ids l))) eqn:E1.
  - apply K2. intros r' k [Hin| ->%list_elem_of_singleton]%elem_of_app Hg Hrk.
    + exact (proj1 K1 eq_refl r' k Hin Hg Hrk).
    + assert (n <= n1) by (apply (proj1 K1 eq_refl r1 n1 Hr1); [congruence | exact Hn1]).
      assert (k = n2) by congruence. lia.
  - apply not_true_is_false. intros E2.
    assert (X : false = true); [|discriminate X].
    apply K1. intros r' k Hin Hg Hrk.
    apply (proj1 K2 E2 r' k); [apply elem_of_app; now left | exact Hg | exact Hrk].
Qed.

Lemma ultimate_base_text (kw : gmap string pyval) (c : string) :
  text_or_none (get_or kw c PNone) = true ->
  Sqlite.default_row FOODS clock !! c = None ->
  match Sqlite.assign (bound <$> filter (fun kv => is_none kv.2 = false) kw)
                      (Sqlite.default_row FOODS clock) !! c with
  | None | Some (Sqlite.Text _) => true
  | _ => false
  end = true.
Proof.
  intros Ht Hd. rewrite lookup_assign, lookup_fmap, map_lookup_filter, Hd.
  unfold get_or in Ht.
  destruct (kw !! c) as [[|?|x|?|?]|]; cbn in Ht; try discriminate; reflexivity.
Qed.

(** X25: [optimize_database] undoes a repeated import: after [_insert_food]
    has run twice on the same well-formed record, which leaves two rows for
    it, the duplicate-removing DELETE leaves the rows it leaves after a
    single import. *)
Theorem reimport_then_remove_duplicates (s : string) (kwargs : gmap string pyval)
    (t : Sqlite.table) :
  kwargs !! "name" = Some (PStr s) ->
  kwargs !! "id" = None ->
  map_Forall (fun c v => c ∈ Sqlite.columns FOODS /\ is_Some (bound_value v)) kwargs ->
  text_or_none (get_or kwargs "brand_name" PNone) = true ->
  text_or_none (get_or kwargs "restaurant_name" PNone) = true ->
  Forall (fun r => keyed_row r = true) (Sqlite.rows t) ->
  NoDup (map Sqlite.rowid_of (Sqlite.rows t)) ->
  exists t1 t2,
    ultimate_insert_food FOODS clock kwargs t = Return t1 /\
    ultimate_insert_food FOODS clock kwargs t1 = Return t2 /\
    length (Sqlite.rows t2) = (2 + length (Sqlite.rows t))%nat /\
    Sqlite.rows (remove_duplicates t2) = Sqlite.rows (remove_duplicates t1).
Proof.
  intros Hname Hid Hall Hb Hr Hk Hnd.
  destruct (ultimate_insert_food_row clock s kwargs Hname Hid Hall Hb Hr)
    as (terms & _ & _ & Hrun).
  set (kw := <["search_terms" := PStr (PyStr.join " " terms)]> kwargs) in Hrun.
  set (base := Sqlite.assign (bound <$> filter (fun kv => is_none kv.2 = false) kw)
                             (Sqlite.default_row FOODS clock)) in Hrun.
  assert (Hget : forall c, c <> "search_terms"%string -> get_or kw c PNone = get_or kwargs c PNone).
  { intros c Hc. unfold get_or, kw. now rewrite lookup_insert_ne by congruence. }
  assert (Hkeyed : forall n, keyed_row (<["id" := Sqlite.Integer n]> base) = true).
  { intros n. unfold keyed_row. rewrite rowid_of_insert.
    rewrite bool_decide_eq_true_2 by eauto. cbn [andb GROUP_BY forallb].
    rewrite !lookup_insert_ne by discriminate. unfold base.
    rewrite !ultimate_base_text; try reflexivity; rewrite Hget by discriminate; try assumption.
    now rewrite (get_or_Some _ _ _ (PStr s)). }
  assert (Hkey : forall n m, group_key (<["id" := Sqlite.Integer n]> base) =
                             group_key (<["id" := Sqlite.Integer m]> base)).
  { intros n m. unfold group_key. cbn [GROUP_BY map].
    now rewrite !lookup_insert_ne by discriminate. }
  set (n1 := Sqlite.next_rowid t).
  set (r1 := <["id" := Sqlite.Integer n1]> base).
  set (t1 := Sqlite.Table (Sqlite.rows t ++ [r1]) (Z.max (Sqlite.last_rowid t) n1)).
  set (n2 := Sqlite.next_rowid t1).
  set (r2 := <["id" := Sqlite.Integer n2]> base).
  exists t1. eexists. split; [apply Hrun|]. split; [apply Hrun|].
  fold n2 r2. cbn [Sqlite.rows].
  split; [change (Sqlite.rows t1) with (Sqlite.rows t ++ [r1]);
          rewrite !length_app; cbn [length]; lia|].
  assert (Hr1 : r1 ∈ Sqlite.rows t1) by (apply elem_of_app; right; apply list_elem_of_here).
  assert (Hlt : n1 < n2) by (apply (next_rowid_fresh t1 r1); [exact Hr1 | apply rowid_of_insert]).
  assert (Hfresh : forall (t0 : Sqlite.table),
            Some (Sqlite.next_rowid t0) ∉ map Sqlite.rowid_of (Sqlite.rows t0)).
  { intros t0 Hin. apply list_elem_of_In, in_map_iff in Hin as (r & Hrid & Hin%list_elem_of_In).
    pose proof (next_rowid_fresh t0 r _ Hin Hrid). lia. }
  assert (Hk1 : Forall (fun r => keyed_row r = true) (Sqlite.rows t1)).
  { apply Forall_app. split; [exact Hk|]. constructor; [apply Hkeyed | constructor]. }
  assert (Hnd1 : NoDup (map Sqlite.rowid_of (Sqlite.rows t1))).
  { cbn [t1 Sqlite.rows]. rewrite map_app. cbn [map]. apply NoDup_app. split; [exact Hnd|].
    split; [|apply NoDup_singleton].
    intros x Hx ->%list_elem_of_singleton. unfold r1 in Hx. rewrite rowid_of_insert in Hx.
    now apply (Hfresh t). }
  apply (remove_duplicates_drops_later (Sqlite.rows t1) r1 r2 n1 n2);
    [| |exact Hr1|apply Hkey|apply rowid_of_insert|apply rowid_of_insert|exact Hlt].
  - apply Forall_app. split; [exact Hk1|]. constructor; [apply Hkeyed | constructor].
  - rewrite map_app. cbn [map]. apply NoDup_app. split; [exact Hnd1|].
    split; [|apply NoDup_singleton].
    intros x Hx ->%list_elem_of_singleton. unfold r2 in Hx. rewrite rowid_of_insert in Hx.
    now apply (Hfresh t1).
Qed.

End ReimportThenOptimize.

Lemma reimport_then_remove_duplicates_witness :
  exists t1 t2,
    ultimate_insert_food FOODS "c" PHO_TAI Sqlite.empty_table = Return t1 /\
    ultimate_insert_food FOODS "c" PHO_TAI t1 = Return t2 /\
    length (Sqlite.rows t2) = (2 + length (Sqlite.rows Sqlite.empty_table))%nat /\
    Sqlite.rows (remove_duplicates t2) = Sqlite.rows (remove_duplicates t1).
Proof.
  apply (reimport_then_remove_duplicates "c" "Pho Tai (Rare Beef)" PHO_TAI).
  - vm_compute. reflexivity.
  - vm_compute. reflexivity.
  - apply (bool_decide_unpack _). vm_compute. exact I.
  - vm_compute. reflexivity.
  - vm_compute. reflexivity.
  - constructor.
  - constructor.
Defined.
